(** * Daily_Dashboard_NTB: derivation rules, YTD alignment and summary metrics

  A shallow embedding of the analytics code of the repository:
  - [src/inet_dashboard_enhanced.py]   ([InetEnhanced])
  - [src/ytd_comparison_dashboard.py]  ([YtdDashboard])
  - [src/ytd_preprocessor.py]          ([YtdPreprocessor])
  - [src/large_file_notebook.py]       ([LargeFileNotebook])
  - [mob_adoption_dashboard.py] and [streamlit_app.py] ([MobAdoption])
  - the charts and the regional growth table of
    [src/ytd_comparison_dashboard.py]  ([YtdTabs], [YtdRegional])
  - [src/preprocess_large_csv.py]      ([PreprocessLargeCsv])
  - [src/excel_export_utility.py]      ([ExcelExporter])
  - the regional statistics and the year-over-year tab of
    [src/inet_dashboard_enhanced.py]   ([InetTabs])
  - [analyze_ytd_patterns] of [src/ytd_preprocessor.py] ([YtdAnalysis])
  - the monthly cohorts of [streamlit_app.py] ([MonthlyCohorts])

  Conventions of the embedding.
  - A pandas [Timestamp] is the number of nanoseconds since the Unix epoch
    (a [Z]); a nullable timestamp column is [option Z], [None] being [NaT].
  - A nullable numeric column is [option Z]; [None] is [NaN].
  - A DataFrame is the list of its rows; a boolean-mask selection
    [df[mask]] is [filter]; [len(df)] is [length].
  - Python [dict]s are [gmap]s.
  - Rates are Python floats in the source; they are modelled as exact
    rationals ([Q]).  Binary rounding of float64 is outside the model. *)

From Stdlib Require Import ZArith QArith Qround String List Lia.
From stdpp Require Import gmap strings list fin_maps sorting.

Local Open Scope Z_scope.

(** ** Pandas and NumPy primitives used by the dashboards *)

Module Pandas.

(** Nanoseconds in one day: the unit of [Timedelta.days]. *)
Definition ns_per_day : Z := 86400 * 1000000000.

(** Proleptic Gregorian calendar, days since 1970-01-01. *)
Definition days_from_civil (y m d : Z) : Z :=
  let y' := if m <=? 2 then y - 1 else y in
  let era := y' / 400 in
  let yoe := y' - era * 400 in
  let mp := if 2 <? m then m - 3 else m + 9 in
  let doy := (153 * mp + 2) / 5 + d - 1 in
  let doe := yoe * 365 + yoe / 4 - yoe / 100 + doy in
  era * 146097 + doe - 719468.

(** The civil year of a day number. *)
Definition year_of_days (z0 : Z) : Z :=
  let z := z0 + 719468 in
  let era := z / 146097 in
  let doe := z - era * 146097 in
  let yoe := (doe - doe / 1460 + doe / 36524 - doe / 146096) / 365 in
  let doy := doe - (365 * yoe + yoe / 4 - yoe / 100) in
  let mp := (5 * doy + 2) / 153 in
  let m := if mp <? 10 then mp + 3 else mp - 9 in
  let y := yoe + era * 400 in
  if m <=? 2 then y + 1 else y.

(** The civil month (1..12) of a day number. *)
Definition month_of_days (z0 : Z) : Z :=
  let z := z0 + 719468 in
  let era := z / 146097 in
  let doe := z - era * 146097 in
  let yoe := (doe - doe / 1460 + doe / 36524 - doe / 146096) / 365 in
  let doy := doe - (365 * yoe + yoe / 4 - yoe / 100) in
  let mp := (5 * doy + 2) / 153 in
  if mp <? 10 then mp + 3 else mp - 9.

(** Midnight of a calendar date, as a timestamp. *)
Definition Timestamp (y m d : Z) : Z := days_from_civil y m d * ns_per_day.

(** [Series.dt.year], [Series.dt.month], [Series.dt.dayofyear] on one
    non-null timestamp. *)
Definition dt_year (ts : Z) : Z := year_of_days (ts / ns_per_day).
Definition dt_month (ts : Z) : Z := month_of_days (ts / ns_per_day).
Definition dt_dayofyear (ts : Z) : Z :=
  let d := ts / ns_per_day in
  d - days_from_civil (year_of_days d) 1 1 + 1.

(** [(a - b).dt.days]: [NaT] propagates; [Timedelta.days] is the floor of
    the difference in days. *)
Definition timedelta_days (a b : option Z) : option Z :=
  match a, b with
  | Some x, Some y => Some ((x - y) / ns_per_day)
  | _, _ => None
  end.

(** Comparisons with [NaT] / [NaN] on either side are [False]. *)
Definition lt_na (a b : option Z) : bool :=
  match a, b with Some x, Some y => x <? y | _, _ => false end.
Definition le_na (a b : option Z) : bool :=
  match a, b with Some x, Some y => x <=? y | _, _ => false end.
Definition gt_na (a b : option Z) : bool :=
  match a, b with Some x, Some y => y <? x | _, _ => false end.
Definition ge_na (a b : option Z) : bool :=
  match a, b with Some x, Some y => y <=? x | _, _ => false end.

(** [pd.isna] / [pd.notna] on a nullable cell. *)
Definition isna {A} (a : option A) : bool :=
  match a with None => true | Some _ => false end.
Definition notna {A} (a : option A) : bool := negb (isna a).

(** A raw date cell of the input file before [pd.to_datetime]. *)
Inductive DateCell :=
| DateText (ts : Z)          (* text that parses to the timestamp [ts] *)
| BadText (s : string)       (* text that does not parse *)
| Blank.                     (* missing value *)

(** [pd.to_datetime(col, errors='coerce')] on one cell: what does not
    parse becomes [NaT]. *)
Definition to_datetime (c : DateCell) : option Z :=
  match c with
  | DateText ts => Some ts
  | BadText _ => None
  | Blank => None
  end.

(** [np.select(conditions, choices, default)] at one row: the choice of the
    first condition that holds, else the default. *)
Fixpoint np_select {A} (conditions : list bool) (choices : list A)
         (default : A) : A :=
  match conditions, choices with
  | c :: cs, x :: xs => if c then x else np_select cs xs default
  | _, _ => default
  end.

(** [Series.isin(values)] at one row. *)
Definition isin (x : string) (values : list string) : bool :=
  bool_decide (x ∈ values).

(** [np.round(x, decimals)] / [Series.round(decimals)] on a finite value:
    rounding to [decimals] decimal places, ties to the even neighbour. *)
Definition round_half_even (q : Q) : Z :=
  let f := Qfloor q in
  let r := (q - inject_Z f)%Q in
  match (r ?= 1 # 2)%Q with
  | Lt => f
  | Gt => f + 1
  | Eq => if Z.even f then f else f + 1
  end.
Definition np_round (decimals : nat) (q : Q) : Q :=
  let scale := 10 ^ Z.of_nat decimals in
  Qred (inject_Z (round_half_even (q * inject_Z scale)) / inject_Z scale)%Q.

(** [Series.sum()] and [Series.mean()] of a nullable integer column: nulls
    are skipped; the mean of no values is null. *)
Definition sum_skipna (col : list (option Z)) : Z :=
  foldr Z.add 0 (omap id col).
Definition count_notna {A} (col : list (option A)) : Z :=
  Z.of_nat (length (omap id col)).
Definition mean_skipna (col : list (option Z)) : option Q :=
  if count_notna col =? 0 then None
  else Some (inject_Z (sum_skipna col) / inject_Z (count_notna col))%Q.

(** [Series.sum()] and [Series.mean()] of a nullable float column. *)
Definition sum_q (col : list (option Q)) : Q :=
  foldr Qplus 0%Q (omap id col).
Definition mean_q (col : list (option Q)) : option Q :=
  if count_notna col =? 0 then None
  else Some (sum_q col / inject_Z (count_notna col))%Q.

(** [a / b] on NumPy integers, as a float64 cell: [Some q] is a finite
    value; [None] stands for the non-finite results ([inf], [nan]) that
    NumPy returns, with a warning and no exception, for a zero divisor. *)
Definition np_truediv (a b : Z) : option Q :=
  if b =? 0 then None else Some (inject_Z a / inject_Z b)%Q.

(** The values of [Series.unique()], in order of first appearance. *)
Definition unique `{EqDecision A} (l : list A) : list A :=
  reverse (remove_dups (reverse l)).

(** [df.groupby(key)]: the groups with their rows; rows whose key is null
    belong to no group.  (pandas orders the groups by key; here they are in
    order of first appearance.  Nothing below depends on the order.) *)
Definition groupby `{EqDecision K} {V} (key : V → option K) (rows : list V)
  : list (K * list V) :=
  (λ k, (k, filter (λ r, key r = Some k) rows)) <$> unique (omap key rows).

End Pandas.

Import Pandas.

(** ** Python evaluation: exceptions, division, dictionaries, sorting *)

Module Python.

(** The exceptions the modelled expressions can raise. *)
Inductive PyExn := KeyError | IndexError | ZeroDivisionError.

(** The outcome of evaluating a Python expression or statement block. *)
Inductive py (A : Type) :=
| Return (a : A)
| Raise (e : PyExn).
Arguments Return {A} a.
Arguments Raise {A} e.

#[global] Instance py_ret : MRet py := λ A a, Return a.
#[global] Instance py_bind : MBind py := λ A B f c,
  match c with
  | Return a => f a
  | Raise e => Raise e
  end.

(** [a / b] on Python [int]s: true division, which raises on a zero
    divisor. *)
Definition py_truediv (a b : Z) : py Q :=
  if b =? 0 then Raise ZeroDivisionError
  else Return (inject_Z a / inject_Z b)%Q.

(** [d[k]] on a [dict]. *)
Definition getitem `{Countable K} {V} (d : gmap K V) (k : K) : py V :=
  match d !! k with
  | Some v => Return v
  | None => Raise KeyError
  end.

(** [l[i]] on a [list], for a non-negative index. *)
Definition getindex {A} (l : list A) (i : nat) : py A :=
  match l !! i with
  | Some v => Return v
  | None => Raise IndexError
  end.

(** [len(x)] as a Python [int]. *)
Definition len {A} (l : list A) : Z := Z.of_nat (length l).

(** [sorted(l)] and [sorted(l, reverse=True)] on integers. *)
Definition sorted (l : list Z) : list Z := merge_sort Z.le l.
Definition sorted_reverse (l : list Z) : list Z := merge_sort Z.ge l.

(** [enumerate(l)]. *)
Definition enumerate {A} (l : list A) : list (nat * A) :=
  imap (λ i x, (i, x)) l.

(** A [for] loop whose body may raise: the state is threaded through the
    iterations and the first exception ends the loop. *)
Fixpoint for_each {S A} (body : S → A → py S) (s : S) (l : list A) : py S :=
  match l with
  | [] => Return s
  | x :: l' => s' ← body s x; for_each body s' l'
  end.

End Python.

Import Python.

(** ** The customer ledger read by the iNET dashboards *)

(** One row of the customer-level report (the columns the analytics read). *)
Record Row := mkRow {
CUSTOMER_NO : Z;
REGION_DESC : option string;
INET_ELIGIBLE : string;
AC_OPEN_DATE : DateCell;
MOBILE_APP_REGISTRATION_DATE : DateCell;
LAST_TRX_DATE : DateCell
}.

(** The row with its open and registration dates replaced. *)
Definition with_dates (r : Row) (open reg : DateCell) : Row :=
{| CUSTOMER_NO := CUSTOMER_NO r;
   REGION_DESC := REGION_DESC r;
   INET_ELIGIBLE := INET_ELIGIBLE r;
   AC_OPEN_DATE := open;
   MOBILE_APP_REGISTRATION_DATE := reg;
   LAST_TRX_DATE := LAST_TRX_DATE r |}.

(** The row with its last-transaction date replaced. *)
Definition with_last_trx (r : Row) (trx : DateCell) : Row :=
{| CUSTOMER_NO := CUSTOMER_NO r;
   REGION_DESC := REGION_DESC r;
   INET_ELIGIBLE := INET_ELIGIBLE r;
   AC_OPEN_DATE := AC_OPEN_DATE r;
   MOBILE_APP_REGISTRATION_DATE := MOBILE_APP_REGISTRATION_DATE r;
   LAST_TRX_DATE := trx |}.

(** ** [inet_dashboard_enhanced.py] *)

Module InetEnhanced.

(** A row of [df_processed]. *)
Record Processed := mkProcessed {
  region : option string;
  eligible : string;
  open_date : option Z;
  registration_date : option Z;
  last_trx_date : option Z;
  iNET_Registration_status : string;
  days_to_onboard : option Z;
  onboarding_time_category : option string;
  days_since_last_trx : option Z;
  Activity_Status : string;
  AC_OPEN_YEAR : option Z;
  AC_OPEN_MONTH : option Z
}.

(** [get_registration_status(row)], lines 68-74. *)
Definition get_registration_status (reg open : option Z) : string :=
  if isna reg then "Not Registered"
  else if lt_na reg open then "Already Registered"
  else "Registered".

(** [categorize_onboarding_time(row)], lines 82-101. *)
Definition categorize_onboarding_time (status : string) (days : option Z)
  : option string :=
  if isin status ["Already Registered"; "Not Registered"] then None
  else match days with
       | None => None
       | Some d =>
           if d <=? 7 then Some "Within 1 week"
           else if d <=? 15 then Some "Within 15 days"
           else if d <=? 30 then Some "15-30 days"
           else if d <=? 60 then Some "Within 2 months"
           else if d <=? 90 then Some "Within 3 months"
           else if d <=? 180 then Some "Within 6 months"
           else Some "More than 6 months"
       end.

(** The threshold ladder of lines 110-130 at one row. *)
Definition activity_status (days : option Z) : string :=
  np_select
    [ le_na days (Some 7); le_na days (Some 14); le_na days (Some 30);
      le_na days (Some 90); le_na days (Some 180); le_na days (Some 365);
      gt_na days (Some 365) ]
    [ "Weekly Active"; "Biweekly Active"; "Monthly Active";
      "3 Months Active"; "6 Months Active"; "1 Year Active";
      "More than 1 Year" ]
    "Unknown".

(** [preprocess_data] at one row; [current_date] is [pd.Timestamp.now()]. *)
Definition preprocess_row (current_date : Z) (r : Row) : Processed :=
  let open := to_datetime (AC_OPEN_DATE r) in
  let reg := to_datetime (MOBILE_APP_REGISTRATION_DATE r) in
  let trx := to_datetime (LAST_TRX_DATE r) in
  let status := get_registration_status reg open in
  let days := timedelta_days reg open in
  let since := timedelta_days (Some current_date) trx in
  {| region := REGION_DESC r;
     eligible := INET_ELIGIBLE r;
     open_date := open;
     registration_date := reg;
     last_trx_date := trx;
     iNET_Registration_status := status;
     days_to_onboard := days;
     onboarding_time_category := categorize_onboarding_time status days;
     days_since_last_trx := since;
     Activity_Status := activity_status since;
     AC_OPEN_YEAR := dt_year <$> open;
     AC_OPEN_MONTH := dt_month <$> open |}.

(** [preprocess_data(df)]: every derived column is computed row by row. *)
Definition preprocess_data (current_date : Z) (df : list Row)
  : list Processed :=
  map (preprocess_row current_date) df.

(** The sidebar filters, lines 155-160. [selected_year] is ['All'] ([None])
    or a year; [selected_region] is ['All'] or a region name. *)
Definition filtered_df (df_processed : list Processed)
    (selected_year : option Z) (selected_region : string) : list Processed :=
  let by_year :=
    match selected_year with
    | Some y => filter (λ p, AC_OPEN_YEAR p = Some y) df_processed
    | None => df_processed
    end in
  if bool_decide (selected_region ≠ "All")
  then filter (λ p, region p = Some selected_region) by_year
  else by_year.

(** What [st.metric] is given as its value: a rate formatted with
    [f"{rate:.1f}%"], or a literal text. *)
Inductive MetricValue :=
| Formatted (rate : Q)
| Literal (text : string).

(** The counts of lines 172-188. *)
Definition inet_eligible (filtered : list Processed) : Z :=
  len (filter (λ p, eligible p = "Y") filtered).
Definition registered_customers (filtered : list Processed) : Z :=
  len (filter (λ p, iNET_Registration_status p = "Registered") filtered).
Definition active_users (filtered : list Processed) : Z :=
  len (filter (λ p, isin (Activity_Status p)
                      ["Weekly Active"; "Biweekly Active"; "Monthly Active"])
         filtered).

(** The "Adoption Rate" metric, lines 179-185. *)
Definition adoption_rate (filtered : list Processed) : py MetricValue :=
  if 0 <? inet_eligible filtered then
    x ← py_truediv (registered_customers filtered) (inet_eligible filtered);
    mret (Formatted (x * 100)%Q)
  else mret (Literal "0%").

(** The "Active User Rate" metric, lines 187-193. *)
Definition active_rate (filtered : list Processed) : py MetricValue :=
  if 0 <? registered_customers filtered then
    x ← py_truediv (active_users filtered) (registered_customers filtered);
    mret (Formatted (x * 100)%Q)
  else mret (Literal "0%").

(** The rows of the onboarding timeline, line 260. *)
Definition onboard_data (filtered : list Processed) : list Processed :=
  filter (λ p, iNET_Registration_status p = "Registered") filtered.

(** The mean column of [regional_onboard] (line 263) for one region. *)
Definition regional_onboard_mean (filtered : list Processed) (g : string)
  : option Q :=
  np_round 2 <$>
    mean_skipna
      (days_to_onboard <$>
         filter (λ p, region p = Some g) (onboard_data filtered)).

End InetEnhanced.

(** ** [ytd_comparison_dashboard.py]: per-row derivation *)

Module YtdDashboard.

(** A row of [df_processed] of [process_for_ytd]. *)
Record Processed := mkProcessed {
  region : option string;
  eligible : string;
  open_date : option Z;
  registration_date : option Z;
  AC_OPEN_YEAR : option Z;
  AC_OPEN_MONTH : option Z;
  AC_OPEN_DOY : option Z;
  iNET_Registration_status : string;
  days_to_onboard : option Z;
  days_since_last_trx : option Z;
  Activity_Status : string
}.

(** [get_registration_status(row)], lines 104-110. *)
Definition get_registration_status (reg open : option Z) : string :=
  if isna reg then "Not Registered"
  else if lt_na reg open then "Already Registered"
  else "Registered".

(** The threshold ladder of lines 124-133 at one row. *)
Definition activity_status (days : option Z) : string :=
  np_select
    [ le_na days (Some 7); le_na days (Some 30); le_na days (Some 90);
      gt_na days (Some 90) ]
    [ "Weekly Active"; "Monthly Active"; "Quarterly Active"; "Inactive" ]
    "Unknown".

(** [process_for_ytd] at one row. *)
Definition process_row (current_date : Z) (r : Row) : Processed :=
  let open := to_datetime (AC_OPEN_DATE r) in
  let reg := to_datetime (MOBILE_APP_REGISTRATION_DATE r) in
  let trx := to_datetime (LAST_TRX_DATE r) in
  let since := timedelta_days (Some current_date) trx in
  {| region := REGION_DESC r;
     eligible := INET_ELIGIBLE r;
     open_date := open;
     registration_date := reg;
     AC_OPEN_YEAR := dt_year <$> open;
     AC_OPEN_MONTH := dt_month <$> open;
     AC_OPEN_DOY := dt_dayofyear <$> open;
     iNET_Registration_status := get_registration_status reg open;
     days_to_onboard := timedelta_days reg open;
     days_since_last_trx := since;
     Activity_Status := activity_status since |}.

(** [process_for_ytd(df)]. *)
Definition process_for_ytd (current_date : Z) (df : list Row)
  : list Processed :=
  map (process_row current_date) df.

(** The boolean mask of lines 177-180 at one row. *)
Definition ytd_mask (year reference_doy : Z) (p : Processed) : bool :=
  bool_decide (AC_OPEN_YEAR p = Some year)
  && le_na (AC_OPEN_DOY p) (Some reference_doy).

(** The body of the loop of lines 176-183 for one year. *)
Definition year_data (df : list Processed) (year reference_doy : Z)
    (selected_region : string) : list Processed :=
  let year_data := filter (λ p, ytd_mask year reference_doy p) df in
  if bool_decide (selected_region ≠ "All")
  then filter (λ p, region p = Some selected_region) year_data
  else year_data.

(** The dictionary [ytd_data] after the loop of lines 175-183. *)
Definition ytd_data (df : list Processed) (selected_years : list Z)
    (reference_doy : Z) (selected_region : string)
  : gmap Z (list Processed) :=
  foldl (λ ytd year,
           <[year := year_data df year reference_doy selected_region]> ytd)
        ∅ selected_years.

(** [growth], line 201, and [growth_rate], line 264: the same expression. *)
Definition growth (year_total prev_total : Z) : py Q :=
  if 0 <? prev_total then
    x ← py_truediv (year_total - prev_total) prev_total;
    mret (x * 100)%Q
  else mret 0%Q.

(** [reg_rate], line 211. *)
Definition reg_rate (year_registered year_eligible : Z) : py Q :=
  if 0 <? year_eligible then
    x ← py_truediv year_registered year_eligible;
    mret (x * 100)%Q
  else mret 0%Q.

(** The counts of lines 193-195 and 465 on one year's YTD rows. *)
Definition registered_count (d : list Processed) : Z :=
  len (filter (λ p, iNET_Registration_status p = "Registered") d).
Definition eligible_count (d : list Processed) : Z :=
  len (filter (λ p, eligible p = "Y") d).
Definition active (d : list Processed) : Z :=
  len (filter (λ p, isin (Activity_Status p)
                      ["Weekly Active"; "Monthly Active"]) d).

(** What one iteration of the header loop (lines 191-214) displays;
    [delta] is the growth against [prev_year], when there is one. *)
Record YearMetric := mkYearMetric {
  metric_year : Z;
  year_total : Z;
  delta : option (Q * Z);
  year_registered : Z;
  year_reg_rate : Q;
  year_eligible : Z
}.

(** One iteration of the header loop, lines 191-214. *)
Definition header_metric (ytd : gmap Z (list Processed))
    (selected_years : list Z) (iy : nat * Z) : py YearMetric :=
  let '(i, year) := iy in
  d ← getitem ytd year;
  dl ← (if bool_decide (Z.of_nat i < len selected_years - 1) then
          prev_year ← getindex (sorted_reverse selected_years) (i + 1);
          dprev ← getitem ytd prev_year;
          g ← growth (len d) (len dprev);
          mret (Some (g, prev_year))
        else mret None);
  rr ← reg_rate (registered_count d) (eligible_count d);
  mret {| metric_year := year;
          year_total := len d;
          delta := dl;
          year_registered := registered_count d;
          year_reg_rate := rr;
          year_eligible := eligible_count d |}.

(** The header loop, lines 191-214. *)
Definition header_metrics (ytd : gmap Z (list Processed))
    (selected_years : list Z) : py (list YearMetric) :=
  mapM (header_metric ytd selected_years)
       (enumerate (sorted_reverse selected_years)).

(** One dictionary appended to [growth_data], lines 266-272. [Period] is
    the pair of years that the source formats as text. *)
Record GrowthRow := mkGrowthRow {
  Period : Z * Z;
  Growth_Rate : Q;
  Previous : Z;
  Current : Z;
  Absolute_Growth : Z
}.

(** One iteration of the loop of lines 259-272: the rows it appends. *)
Definition growth_entry (ytd : gmap Z (list Processed))
    (selected_years : list Z) (iy : nat * Z) : py (list GrowthRow) :=
  let '(i, year) := iy in
  if bool_decide (0 < i)%nat then
    prev_year ← getindex (sorted selected_years) (i - 1);
    dcurr ← getitem ytd year;
    dprev ← getitem ytd prev_year;
    let curr_total := len dcurr in
    let prev_total := len dprev in
    growth_rate ← growth curr_total prev_total;
    mret [ {| Period := (prev_year, year);
              Growth_Rate := growth_rate;
              Previous := prev_total;
              Current := curr_total;
              Absolute_Growth := curr_total - prev_total |} ]
  else mret [].

(** [growth_data] after the loop of lines 258-272. *)
Definition growth_data (ytd : gmap Z (list Processed))
    (selected_years : list Z) : py (list GrowthRow) :=
  rows ← mapM (growth_entry ytd selected_years)
              (enumerate (sorted selected_years));
  mret (concat rows).

End YtdDashboard.


(** ** [ytd_preprocessor.py] *)

Module YtdPreprocessor.

(** A row of a chunk after the column assignments of lines 42-54. *)
Record ChunkRow := mkChunkRow {
  region : option string;
  inet_eligible : string;
  open_date : option Z;
  registration_date : option Z;
  year : option Z;
  month : option Z;
  day_of_year : option Z;
  is_registered : bool;
  days_to_register : option Z
}.

(** Lines 42-54 at one row. *)
Definition convert_row (r : Row) : ChunkRow :=
  let open := to_datetime (AC_OPEN_DATE r) in
  let reg := to_datetime (MOBILE_APP_REGISTRATION_DATE r) in
  {| region := REGION_DESC r;
     inet_eligible := INET_ELIGIBLE r;
     open_date := open;
     registration_date := reg;
     year := dt_year <$> open;
     month := dt_month <$> open;
     day_of_year := dt_dayofyear <$> open;
     is_registered := notna reg;
     days_to_register := timedelta_days reg open |}.

(** [summary_stats[year]['by_region'][region]]. *)
Module Region.
Record stats := mk { total : Z; registered : Z }.
End Region.

(** [summary_stats[year]]. *)
Record YearStats := mkYearStats {
  total_customers : Z;
  eligible : Z;
  registered : Z;
  by_month : gmap Z Z;
  by_region : gmap string Region.stats
}.

(** The two dictionaries that the chunk loop updates. [ytd_data[year]] is
    the list of the data frames appended so far. *)
Record State := mkState {
  ytd_data : gmap Z (list (list ChunkRow));
  summary_stats : gmap Z YearStats
}.

(** [year_ytd], lines 61-64. *)
Definition year_ytd (chunk : list ChunkRow) (y reference_doy : Z)
  : list ChunkRow :=
  filter (λ c, bool_decide (year c = Some y)
               && le_na (day_of_year c) (Some reference_doy)) chunk.

(** One iteration of the monthly breakdown, lines 86-89. *)
Definition month_step (yytd : list ChunkRow) (bm : gmap Z Z) (m : Z)
  : py (gmap Z Z) :=
  let bm := if bool_decide (bm !! m = None) then <[m := 0]> bm else bm in
  n ← getitem bm m;
  mret (<[m := n + len (filter (λ c, month c = Some m) yytd)]> bm).

(** One iteration of the regional breakdown, lines 93-100. *)
Definition region_step (yytd : list ChunkRow) (br : gmap string Region.stats)
    (g : string) : py (gmap string Region.stats) :=
  let br := if bool_decide (br !! g = None)
            then <[g := Region.mk 0 0]> br else br in
  let region_data := filter (λ c, region c = Some g) yytd in
  s ← getitem br g;
  let br := <[g := Region.mk (Region.total s + len region_data)
                             (Region.registered s)]> br in
  s ← getitem br g;
  mret (<[g := Region.mk (Region.total s)
                 (Region.registered s
                  + len (filter (λ c, is_registered c) region_data))]> br).

(** The body of the loop over the years of a chunk, lines 57-100. *)
Definition process_year (reference_doy : Z) (chunk : list ChunkRow)
    (st : State) (y : Z) : py State :=
  let yytd := year_ytd chunk y reference_doy in
  if 0 <? len yytd then
    let st :=
      if bool_decide (ytd_data st !! y = None) then
        {| ytd_data := <[y := []]> (ytd_data st);
           summary_stats :=
             <[y := mkYearStats 0 0 0 ∅ ∅]> (summary_stats st) |}
      else st in
    frames ← getitem (ytd_data st) y;
    let ytd := <[y := frames ++ [yytd]]> (ytd_data st) in
    ys ← getitem (summary_stats st) y;
    bm ← for_each (month_step yytd) (by_month ys) (unique (omap month yytd));
    br ← for_each (region_step yytd) (by_region ys)
                  (unique (omap region yytd));
    mret {| ytd_data := ytd;
            summary_stats :=
              <[y := {| total_customers := total_customers ys + len yytd;
                        eligible := eligible ys
                          + len (filter (λ c, inet_eligible c = "Y") yytd);
                        registered := registered ys
                          + len (filter (λ c, is_registered c) yytd);
                        by_month := bm;
                        by_region := br |}]> (summary_stats st) |}
  else mret st.

(** The body of the chunk loop, lines 40-100. *)
Definition process_chunk (reference_doy : Z) (st : State) (chunk : list Row)
  : py State :=
  let chunk := convert_row <$> chunk in
  for_each (process_year reference_doy chunk) st (unique (omap year chunk)).

(** [create_ytd_optimized_file] on the chunks that [pd.read_csv] yields:
    the state after the chunk loop. *)
Definition create_ytd_optimized_file (chunks : list (list Row))
    (reference_doy : Z) : py State :=
  for_each (process_chunk reference_doy) (mkState ∅ ∅) chunks.

(** [year_df], line 111: the saved rows of one year. *)
Definition year_df (st : State) (y : Z) : list ChunkRow :=
  concat (default [] (ytd_data st !! y)).

(** The "Registration_Rate" entry of one year, lines 159-165: present only
    when there are eligible customers. *)
Definition registration_rate (ys : YearStats) : py (option Q) :=
  if 0 <? eligible ys then
    x ← py_truediv (registered ys) (eligible ys);
    mret (Some (np_round 2 (x * 100)))
  else mret None.

(** One iteration of the year-over-year loop, lines 173-182: the cell
    written to the comparison table, if any. *)
Definition yoy_entry (stats : gmap Z YearStats) (years : list Z) (i : nat)
  : py (option (Z * Z * Q)) :=
  curr_year ← getindex years i;
  prev_year ← getindex years (i - 1);
  cs ← getitem stats curr_year;
  ps ← getitem stats prev_year;
  let curr_total := total_customers cs in
  let prev_total := total_customers ps in
  if 0 <? prev_total then
    x ← py_truediv (curr_total - prev_total) prev_total;
    mret (Some (prev_year, curr_year, np_round 2 (x * 100)))
  else mret None.

(** The year-over-year part of [create_ytd_comparison_file], lines 171-182. *)
Definition yoy_growth (stats : gmap Z YearStats)
  : py (list (option (Z * Z * Q))) :=
  let years := sorted (elements (dom stats)) in
  if bool_decide (2 ≤ length years)%nat
  then mapM (yoy_entry stats years) (seq 1 (length years - 1))
  else mret [].

End YtdPreprocessor.

(** ** [large_file_notebook.py]: the summary statistics file (section 4) *)

Module LargeFileNotebook.

(** The columns of the report that the summary reads. *)
Record Row := mkRow {
  CUSTOMER_NO : option Z;
  REGION_DESC : option string;
  INET_ELIGIBLE : string;
  AC_OPEN_DATE : DateCell;
  MOBILE_APP_REGISTRATION_DATE : DateCell;
  AGE : option Z;
  CUSTOMER_MTD_AVERAGE_ALL_ACTIVE_ELIGIBLE : option Q
}.

(** [year_month], line 103: the calendar month of the open date. *)
Definition year_month (r : Row) : option (Z * Z) :=
  (λ ts, (dt_year ts, dt_month ts)) <$> to_datetime (AC_OPEN_DATE r).

(** [is_registered], line 106. *)
Definition is_registered (r : Row) : bool :=
  notna (to_datetime (MOBILE_APP_REGISTRATION_DATE r)).

(** The group key [['REGION_DESC', 'year_month']]. *)
Definition group_key (r : Row) : option (string * (Z * Z)) :=
  g ← REGION_DESC r; ym ← year_month r; Some (g, ym).

(** One row of a chunk's [summary], lines 109-115, with the flattened
    column names of lines 123-124.  The two median columns are left out. *)
Record Summary := mkSummary {
  key : string * (Z * Z);
  CUSTOMER_NO_count : Z;
  INET_ELIGIBLE_lambda : Z;
  is_registered_sum : Z;
  AGE_mean : option Q;
  BALANCE_mean : option Q;
  BALANCE_sum : Q
}.

(** The aggregation of lines 109-115 on the rows of one group. *)
Definition agg (k : string * (Z * Z)) (rows : list Row) : Summary :=
  {| key := k;
     CUSTOMER_NO_count := count_notna (CUSTOMER_NO <$> rows);
     INET_ELIGIBLE_lambda := len (filter (λ r, INET_ELIGIBLE r = "Y") rows);
     is_registered_sum := len (filter (λ r, is_registered r) rows);
     AGE_mean := mean_skipna (AGE <$> rows);
     BALANCE_mean := mean_q (CUSTOMER_MTD_AVERAGE_ALL_ACTIVE_ELIGIBLE <$> rows);
     BALANCE_sum := sum_q (CUSTOMER_MTD_AVERAGE_ALL_ACTIVE_ELIGIBLE <$> rows) |}.

(** [summary] of one chunk, lines 109-115. *)
Definition chunk_summary (chunk : list Row) : list Summary :=
  (λ g, agg g.1 g.2) <$> groupby group_key chunk.

(** One row of [final_summary], with the column names of lines 139-141. *)
Record Final := mkFinal {
  final_key : string * (Z * Z);
  total_customers : Z;
  inet_eligible : Z;
  registered : Z;
  avg_age : option Q;
  avg_balance : option Q;
  total_balance : Q
}.

(** The second aggregation, lines 127-136, on the summary rows of one
    group: counts and sums are added, means are averaged. *)
Definition agg_final (k : string * (Z * Z)) (rows : list Summary) : Final :=
  {| final_key := k;
     total_customers := foldr Z.add 0 (CUSTOMER_NO_count <$> rows);
     inet_eligible := foldr Z.add 0 (INET_ELIGIBLE_lambda <$> rows);
     registered := foldr Z.add 0 (is_registered_sum <$> rows);
     avg_age := mean_q (AGE_mean <$> rows);
     avg_balance := mean_q (BALANCE_mean <$> rows);
     total_balance := sum_q (Some ∘ BALANCE_sum <$> rows) |}.

(** [final_summary], lines 97-136, on the chunks that [pd.read_csv] yields. *)
Definition final_summary (chunks : list (list Row)) : list Final :=
  let summary_list := chunk_summary <$> chunks in
  (λ g, agg_final g.1 g.2) <$> groupby (Some ∘ key) (concat summary_list).

(** The row of [final_summary] for one group, if there is one. *)
Definition final_row (k : string * (Z * Z)) (table : list Final)
  : option Final :=
  head (filter (λ f, final_key f = k) table).

End LargeFileNotebook.

(** ** [mob_adoption_dashboard.py] *)

Module MobAdoption.

(** The columns of [ntb_reg_tbl_df] as loaded. *)
Module Raw.
Record Row := mk {
  CUSTOMER_NO : Z;
  REGION_DESC : option string;
  RGM : option string;
  Registration_Remarks : string;
  Registration_Date : DateCell;
  Open_Date_ : DateCell;
  Last_Login_Date : DateCell
}.
End Raw.

(** A row of [ntb_reg_tbl_df] as returned by [process_data]. *)
Record Processed := mkProcessed {
  REGION_DESC : option string;
  RGM : option string;
  Registration_Date : option Z;
  Open_Date_ : option Z;
  Last_Login_Date : option Z;
  Registration_Remarks : string;
  Login_Bracket : string;
  Days_to_Onboard : option Z;
  Days_Since_Last_Login : option Z;
  Login_Frequency : string;
  Onboarding_Time_Bracket : string;
  Open_Month : option (Z * Z)
}.

(** [get_login_bracket], lines 128-140; [current_date] is
    [pd.Timestamp.now()]. *)
Definition get_login_bracket (current_date : Z)
    (login_date registration_date : option Z) : string :=
  let last_30_days := current_date - 30 * ns_per_day in
  let last_90_days := current_date - 90 * ns_per_day in
  let last_year := current_date - 365 * ns_per_day in
  match login_date with
  | None =>
      if notna registration_date then "More than a Year"
      else "Not Registered"
  | Some l =>
      if last_30_days <=? l then "Last 30 Days"
      else if last_90_days <=? l then "Last 90 Days"
      else if last_year <=? l then "Previous Year"
      else "More than a Year"
  end.

(** [get_login_frequency], lines 165-175. *)
Definition get_login_frequency (days : option Z) : string :=
  match days with
  | None => "No Login"
  | Some d =>
      if d <=? 7 then "Weekly"
      else if d <=? 30 then "Monthly"
      else if d <=? 90 then "Quarterly"
      else "Inactive"
  end.

(** [get_onboarding_bracket], lines 184-196. *)
Definition get_onboarding_bracket (days : option Z) : string :=
  match days with
  | None => "Not Registered"
  | Some d =>
      if d <=? 5 then "5 days or less"
      else if d <=? 10 then "6-10 days"
      else if d <=? 30 then "11-30 days"
      else if d <=? 180 then "1-6 months"
      else "More than 6 months"
  end.

(** [valid_onboarding_mask], line 149, at one row. *)
Definition valid_onboarding_mask (reg open : option Z) : bool :=
  notna reg && notna open && ge_na reg open.

(** The steps of [process_data] after the mask of step 3 is known; they are
    the same in [mob_adoption_dashboard.py] (lines 118-207) and in
    [streamlit_app.py] (lines 1006-1106). *)
Definition process_row_with
    (valid : string → option Z → option Z → bool)
    (current_date : Z) (r : Raw.Row) : Processed :=
  let reg := to_datetime (Raw.Registration_Date r) in
  let open := to_datetime (Raw.Open_Date_ r) in
  let login := to_datetime (Raw.Last_Login_Date r) in
  (* 1. 'Already Registered' where the registration is older *)
  let older_reg_mask := lt_na reg open in
  let remarks := if older_reg_mask then "Already Registered"
                 else Raw.Registration_Remarks r in
  (* 3. days to onboard *)
  let valid_onboarding_mask := valid remarks reg open in
  let days := if valid_onboarding_mask then timedelta_days reg open
              else None in
  (* 4. login frequency *)
  let login_mask := notna login in
  let since := if login_mask then timedelta_days (Some current_date) login
               else None in
  let freq := get_login_frequency since in
  let not_registered_mask :=
    bool_decide (freq = "No Login")
    && bool_decide (remarks = "Not Registered") in
  (* 5. onboarding bracket *)
  let bracket0 := "Not Registered" in
  let bracket1 := if valid_onboarding_mask then get_onboarding_bracket days
                  else bracket0 in
  let already_registered_mask :=
    bool_decide (remarks = "Already Registered") in
  {| REGION_DESC := Raw.REGION_DESC r;
     RGM := Raw.RGM r;
     Registration_Date := reg;
     Open_Date_ := open;
     Last_Login_Date := login;
     Registration_Remarks := remarks;
     Login_Bracket := get_login_bracket current_date login reg;
     Days_to_Onboard := days;
     Days_Since_Last_Login := since;
     Login_Frequency := if not_registered_mask then "Not Registered" else freq;
     Onboarding_Time_Bracket :=
       if already_registered_mask then "Already Registered" else bracket1;
     Open_Month := (λ ts, (dt_year ts, dt_month ts)) <$> open |}.

(** [process_data] of [mob_adoption_dashboard.py] at one row. *)
Definition process_row (current_date : Z) (r : Raw.Row) : Processed :=
  process_row_with (λ _ reg open, valid_onboarding_mask reg open)
                   current_date r.

(** [process_data(data)['ntb_reg_tbl_df']]. *)
Definition process_data (current_date : Z) (df : list Raw.Row)
  : list Processed :=
  process_row current_date <$> df.

(** The [summary] dictionary of [calculate_summary_metrics]. *)
Record Summary := mkSummary {
  Total_Accounts : Z;
  Registered_Accounts : Z;
  Registration_Rate : option Q;
  Active_30_Days : Z;
  Active_Rate : option Q;
  Avg_Days_to_Onboard : option Q;
  Already_Registered : Z;
  Quick_Onboarding_Rate : option Q;
  Weekly_Users : Z;
  Monthly_Users : Z
}.

(** The [customer_journey] data frame, column by column. *)
Record Journey := mkJourney {
  Stage : list string;
  Count : list Z;
  Percentage : list (option Q);
  Conversion_Rate : list (option Q);
  Drop_Off : list (option Q)
}.

(** [x / y * 100] on NumPy integers. *)
Definition pct (x y : Z) : option Q :=
  (λ q, q * 100)%Q <$> np_truediv x y.

(** The counts of lines 221-237. *)
Definition total_accounts (df : list Processed) : Z := len df.
Definition registered_accounts (df : list Processed) : Z :=
  len (filter (λ p, isin (Registration_Remarks p)
                      ["Registered"; "Already Registered"]) df).
Definition active_30_days (df : list Processed) : Z :=
  len (filter (λ p, Login_Bracket p = "Last 30 Days") df).
Definition already_registered (df : list Processed) : Z :=
  len (filter (λ p, Registration_Remarks p = "Already Registered") df).
Definition quick_onboarding (df : list Processed) : Z :=
  len (filter (λ p, isin (Onboarding_Time_Bracket p)
                      ["5 days or less"; "6-10 days"]) df).
Definition weekly_users (df : list Processed) : Z :=
  len (filter (λ p, Login_Frequency p = "Weekly") df).
Definition monthly_users (df : list Processed) : Z :=
  len (filter (λ p, Login_Frequency p = "Monthly") df).

(** The loop of lines 290-294 on the [Count] column: the
    [Conversion_Rate] column after it. *)
Definition conversion_rate (count : list Z) : list (option Q) :=
  foldl (λ col i,
           <[i := np_round 1 <$> pct (count !!! i) (count !!! (i - 1)%nat)]>
             col)
        (replicate (length count) (Some 100%Q))
        (seq 1 (length count - 1)).

(** [Drop_Off], line 296. *)
Definition drop_off (conversion : list (option Q)) : list (option Q) :=
  (λ c : option Q, (λ q, 100 - q)%Q <$> c) <$> conversion.

(** The funnel of lines 277-296. *)
Definition customer_journey (df : list Processed) : Journey :=
  let count := [ total_accounts df; registered_accounts df;
                 active_30_days df; weekly_users df ] in
  let conversion := conversion_rate count in
  {| Stage := [ "Account Opening"; "Mobile Registration";
                "Active in Last 30 Days"; "Weekly Active Users" ];
     Count := count;
     Percentage :=
       (λ c : Z, np_round 1 <$> pct c (total_accounts df)) <$> count;
     Conversion_Rate := conversion;
     Drop_Off := drop_off conversion |}.

(** The [summary] part of [calculate_summary_metrics], lines 220-237. *)
Definition summary (df : list Processed) : Summary :=
  {| Total_Accounts := total_accounts df;
     Registered_Accounts := registered_accounts df;
     Registration_Rate := pct (registered_accounts df) (total_accounts df);
     Active_30_Days := active_30_days df;
     Active_Rate :=
       if 0 <? registered_accounts df
       then pct (active_30_days df) (registered_accounts df)
       else Some 0%Q;
     Avg_Days_to_Onboard := mean_skipna (Days_to_Onboard <$> df);
     Already_Registered := already_registered df;
     Quick_Onboarding_Rate :=
       if 0 <? registered_accounts df
       then pct (quick_onboarding df) (registered_accounts df)
       else Some 0%Q;
     Weekly_Users := weekly_users df;
     Monthly_Users := monthly_users df |}.

(** [calculate_summary_metrics]: the summary and the funnel. *)
Definition calculate_summary_metrics (df : list Processed)
  : Summary * Journey :=
  (summary df, customer_journey df).

End MobAdoption.

(** ** [streamlit_app.py]: where it differs from [mob_adoption_dashboard.py] *)

Module StreamlitApp.

(** [valid_onboarding_mask], lines 1041-1046, at one row. *)
Definition valid_onboarding_mask (remarks : string) (reg open : option Z)
  : bool :=
  bool_decide (remarks ≠ "Already Registered")
  && notna reg && notna open && ge_na reg open.

(** [process_data] of [streamlit_app.py] at one row. *)
Definition process_row (current_date : Z) (r : MobAdoption.Raw.Row)
  : MobAdoption.Processed :=
  MobAdoption.process_row_with valid_onboarding_mask current_date r.

(** [process_data(data)['ntb_reg_tbl_df']]. *)
Definition process_data (current_date : Z) (df : list MobAdoption.Raw.Row)
  : list MobAdoption.Processed :=
  process_row current_date <$> df.

End StreamlitApp.

(** ** [ytd_comparison_dashboard.py]: the charts of the tabs *)

Module YtdTabs.
Import YtdDashboard.

(** [Series.cumsum()] on an integer column without nulls. *)
Fixpoint cumsum_from (acc : Z) (col : list Z) : list Z :=
  match col with
  | [] => []
  | x :: col' => (acc + x) :: cumsum_from (acc + x) col'
  end.
Definition cumsum (col : list Z) : list Z := cumsum_from 0 col.

(** [year_df] of the cumulative chart, lines 229-231: the whole year, not
    cut at the reference day. *)
Definition year_df (df : list Processed) (year : Z) (selected_region : string)
  : list Processed :=
  let year_df := filter (λ p, AC_OPEN_YEAR p = Some year) df in
  if bool_decide (selected_region ≠ "All")
  then filter (λ p, region p = Some selected_region) year_df
  else year_df.

(** The points of one trace of the cumulative chart, lines 234-242:
    [groupby('AC_OPEN_DOY').size()] has one row per day that occurs, in
    increasing order of the day; the running total is taken over all of
    them and the rows up to the reference day are kept.  A point is the
    pair of [AC_OPEN_DOY] and [cumulative]. *)
Definition daily_counts (df : list Processed) (year reference_doy : Z)
    (selected_region : string) : list (Z * Z) :=
  let year_df := year_df df year selected_region in
  let days := sorted (unique (omap AC_OPEN_DOY year_df)) in
  let count :=
    (λ d, len (filter (λ p, AC_OPEN_DOY p = Some d) year_df)) <$> days in
  let cumulative := cumsum count in
  filter (λ dc, dc.1 ≤ reference_doy) (zip days cumulative).

(** The colour of one bar of the growth chart, line 283. *)
Definition marker_color (g : Q) : string :=
  if Qlt_le_dec 0 g then "green" else "red".

(** The colours of the bars of the growth chart, line 283. *)
Definition marker_colors (growth_data : list GrowthRow) : list string :=
  (λ row, marker_color (Growth_Rate row)) <$> growth_data.

(** One dictionary of [funnel_comparison], lines 467-476. *)
Record FunnelRow := mkFunnelRow {
  Year : Z;
  Total_Customers : Z;
  Eligible : Z;
  Registered : Z;
  Active : Z;
  Eligibility_Rate : Q;
  Registration_Rate : Q;
  Activation_Rate : Q
}.

(** [x/y*100 if y > 0 else 0], lines 473-475. *)
Definition rate (x y : Z) : py Q :=
  if 0 <? y then q ← py_truediv x y; mret (q * 100)%Q else mret 0%Q.

(** One iteration of the loop of lines 459-476. *)
Definition funnel_entry (ytd : gmap Z (list Processed)) (year : Z)
  : py FunnelRow :=
  year_df ← getitem ytd year;
  let total := len year_df in
  let eligible := len (filter (λ p, YtdDashboard.eligible p = "Y") year_df) in
  let registered :=
    len (filter (λ p, iNET_Registration_status p = "Registered") year_df) in
  let active :=
    len (filter (λ p, isin (Activity_Status p)
                        ["Weekly Active"; "Monthly Active"]) year_df) in
  eligibility_rate ← rate eligible total;
  registration_rate ← rate registered eligible;
  activation_rate ← rate active registered;
  mret {| Year := year;
          Total_Customers := total;
          Eligible := eligible;
          Registered := registered;
          Active := active;
          Eligibility_Rate := eligibility_rate;
          Registration_Rate := registration_rate;
          Activation_Rate := activation_rate |}.

(** [funnel_comparison] after the loop of lines 459-476. *)
Definition funnel_comparison (ytd : gmap Z (list Processed))
    (selected_years : list Z) : py (list FunnelRow) :=
  mapM (funnel_entry ytd) selected_years.

End YtdTabs.

(** ** [preprocess_large_csv.py] *)

Module PreprocessLargeCsv.

(** A row of a chunk after line 62 (line 151): the columns of the file,
    with [AC_OPEN_DATE] parsed. *)
Record ChunkRow := mkChunkRow {
  columns : Row;
  open_date : option Z
}.

(** Lines 62 and 151 at one row. *)
Definition convert_row (r : Row) : ChunkRow :=
  {| columns := r; open_date := to_datetime (AC_OPEN_DATE r) |}.

(** The column [year] of line 63. *)
Definition year (c : ChunkRow) : option Z := dt_year <$> open_date c.

(** The body of the loop over the groups of a chunk, lines 66-70;
    [pd.notna(year)] holds for every group key.  ([large_file_notebook.py],
    lines 68-73, is the same loop.) *)
Definition year_step (yearly_data : gmap Z (list (list ChunkRow)))
    (g : Z * list ChunkRow) : py (gmap Z (list (list ChunkRow))) :=
  let '(year, year_data) := g in
  let yearly_data :=
    if bool_decide (yearly_data !! year = None)
    then <[year := []]> yearly_data else yearly_data in
  frames ← getitem yearly_data year;
  mret (<[year := frames ++ [year_data]]> yearly_data).

(** The body of the chunk loop, lines 60-70. *)
Definition split_chunk (yearly_data : gmap Z (list (list ChunkRow)))
    (chunk : list Row) : py (gmap Z (list (list ChunkRow))) :=
  let chunk := convert_row <$> chunk in
  for_each year_step yearly_data (groupby year chunk).

(** [create_yearly_files] on the chunks that [pd.read_csv] yields: the
    dictionary [yearly_data] after the chunk loop. *)
Definition create_yearly_files (chunks : list (list Row))
  : py (gmap Z (list (list ChunkRow))) :=
  for_each split_chunk ∅ chunks.

(** [year_df], line 80: the rows written to the file of one year. *)
Definition year_df (yearly_data : gmap Z (list (list ChunkRow))) (y : Z)
  : list ChunkRow :=
  concat (default [] (yearly_data !! y)).

(** [recent_chunk], line 154. *)
Definition recent_chunk (cutoff_date : Z) (chunk : list Row)
  : list ChunkRow :=
  filter (λ c, ge_na (open_date c) (Some cutoff_date)) (convert_row <$> chunk).

(** The list [recent_data] after the chunk loop, lines 149-156. *)
Definition recent_data (cutoff_date : Z) (chunks : list (list Row))
  : list (list ChunkRow) :=
  foldl (λ recent_data chunk,
           let recent_chunk := recent_chunk cutoff_date chunk in
           if 0 <? len recent_chunk then recent_data ++ [recent_chunk]
           else recent_data)
        [] chunks.

(** [create_recent_data_file], lines 149-163: the rows written, or [None]
    when no file is written; [cutoff_date] is the date two years before
    [pd.Timestamp.now()]. *)
Definition create_recent_data_file (cutoff_date : Z)
    (chunks : list (list Row)) : option (list ChunkRow) :=
  let recent_data := recent_data cutoff_date chunks in
  if bool_decide (recent_data ≠ []) then Some (concat recent_data) else None.

End PreprocessLargeCsv.

(** ** [excel_export_utility.py] *)

Module ExcelExporter.
Import InetEnhanced.

(** A Python number as the summary sheet tells them apart: an [int] or a
    [float]. *)
Inductive PyNum :=
| PyInt (z : Z)
| PyFloat (q : Q).

(** The two cell formats of the metric values, lines 63-71. *)
Inductive Format := metric_value_format | percentage_format.

(** [x / y if y > 0 else 0], lines 87-88: a [float], or the [int] 0. *)
Definition ratio (x y : Z) : py PyNum :=
  if 0 <? y then q ← py_truediv x y; mret (PyFloat q) else mret (PyInt 0).

(** The format that lines 100-103 (and 106-109) choose for a value. *)
Definition format_of (v : PyNum) : Format :=
  match v with
  | PyFloat q =>
      if Qlt_le_dec q 1 then percentage_format else metric_value_format
  | PyInt _ => metric_value_format
  end.

(** One entry of [metrics_data], lines 91-95: a label and its value. *)
Definition Metric : Type := string * PyNum.

(** [metrics_data], lines 82-95, row by row; [filtered_data] has the
    columns of [df_processed] of the dashboard. *)
Definition metrics_data (filtered_data : list Processed)
  : py (list (Metric * Metric)) :=
  let total_customers := len filtered_data in
  let inet_eligible := len (filter (λ p, eligible p = "Y") filtered_data) in
  let registered :=
    len (filter (λ p, iNET_Registration_status p = "Registered")
           filtered_data) in
  let active_users :=
    len (filter (λ p, isin (Activity_Status p)
                        ["Weekly Active"; "Biweekly Active"; "Monthly Active"])
           filtered_data) in
  adoption_rate ← ratio registered inet_eligible;
  active_rate ← ratio active_users registered;
  mret [ (("Total Customers", PyInt total_customers),
          ("iNET Eligible", PyInt inet_eligible));
         (("Registered Users", PyInt registered),
          ("Active Users (30d)", PyInt active_users));
         (("Adoption Rate", adoption_rate),
          ("Active User Rate", active_rate)) ].

(** A value cell written to the summary sheet. *)
Record Cell := mkCell {
  cell_row : nat;
  cell_col : nat;
  cell_label : string;
  cell_value : PyNum;
  cell_format : Format
}.

(** The value cells that the loop of lines 97-110 writes: row 4 onwards,
    columns 1 and 4. *)
Definition write_metrics (metrics_data : list (Metric * Metric))
  : list Cell :=
  concat
    (imap (λ i metric_row,
             let '((l1, v1), (l2, v2)) := metric_row in
             [ mkCell (4 + i) 1 l1 v1 (format_of v1);
               mkCell (4 + i) 4 l2 v2 (format_of v2) ])
          metrics_data).

(** The data frame returned by [_create_funnel_data], column by column. *)
Record Funnel := mkFunnel {
  Stage : list string;
  Count : list Z;
  Percentage_of_Total : list Q;
  Conversion_Rate : list Q
}.

(** [x/y*100], lines 236-237, on Python [int]s. *)
Definition percent (x y : Z) : py Q :=
  q ← py_truediv x y; mret (q * 100)%Q.

(** [x/y*100 if y > 0 else 0], lines 237-239. *)
Definition percent_or_zero (x y : Z) : py Q :=
  if 0 <? y then percent x y else mret 0%Q.

(** [_create_funnel_data], lines 225-242; the entries of the dictionary
    are evaluated in the order in which they are written. *)
Definition _create_funnel_data (filtered_data : list Processed) : py Funnel :=
  let total := len filtered_data in
  let eligible := len (filter (λ p, InetEnhanced.eligible p = "Y")
                         filtered_data) in
  let registered :=
    len (filter (λ p, iNET_Registration_status p = "Registered")
           filtered_data) in
  let active_30 :=
    len (filter (λ p, isin (Activity_Status p)
                        ["Weekly Active"; "Biweekly Active"; "Monthly Active"])
           filtered_data) in
  let weekly_active :=
    len (filter (λ p, Activity_Status p = "Weekly Active") filtered_data) in
  p1 ← percent eligible total;
  p2 ← percent registered total;
  p3 ← percent active_30 total;
  p4 ← percent weekly_active total;
  c1 ← percent eligible total;
  c2 ← percent_or_zero registered eligible;
  c3 ← percent_or_zero active_30 registered;
  c4 ← percent_or_zero weekly_active active_30;
  mret {| Stage := [ "Total Customers"; "iNET Eligible"; "Registered";
                     "Active (30 days)"; "Weekly Active" ];
          Count := [ total; eligible; registered; active_30; weekly_active ];
          Percentage_of_Total := [ 100%Q; p1; p2; p3; p4 ];
          Conversion_Rate := [ 100%Q; c1; c2; c3; c4 ] |}.

End ExcelExporter.

(** ** [inet_dashboard_enhanced.py]: the regional and the year-over-year tab *)

Module InetTabs.
Import InetEnhanced.

(** A row of [regional_stats], lines 202-213, with its index [REGION_DESC]. *)
Record RegionalStats := mkRegionalStats {
  REGION_DESC : string;
  Total_Customers : Z;
  Eligible_Customers : Z;
  Registered_Customers : Z;
  Adoption_Rate : option Q;
  Eligibility_Rate : option Q
}.

(** [(x / y * 100).round(2)] on two integer columns, lines 212-213. *)
Definition rate (x y : Z) : option Q :=
  np_round 2 <$> ((λ q, q * 100)%Q <$> np_truediv x y).

(** The aggregation of lines 202-213 on the rows of one region; the count
    of [CUSTOMER_NO], a column without nulls, is the number of rows. *)
Definition regional_row (g : string) (rows : list Processed)
  : RegionalStats :=
  let total := len rows in
  let eligible := len (filter (λ p, eligible p = "Y") rows) in
  let registered :=
    len (filter (λ p, iNET_Registration_status p = "Registered") rows) in
  {| REGION_DESC := g;
     Total_Customers := total;
     Eligible_Customers := eligible;
     Registered_Customers := registered;
     Adoption_Rate := rate registered eligible;
     Eligibility_Rate := rate eligible total |}.

(** [regional_stats], lines 202-213. *)
Definition regional_stats (filtered_df : list Processed)
  : list RegionalStats :=
  (λ g, regional_row g.1 g.2) <$> groupby region filtered_df.

(** [available_years], line 144. *)
Definition available_years (df_processed : list Processed) : list Z :=
  sorted (unique (omap AC_OPEN_YEAR df_processed)).

(** [monthly_counts] of the year-over-year tab, lines 325-327: the rows of
    the last two available years, counted by year and month. *)
Definition monthly_counts (df_processed : list Processed)
  : list ((Z * Z) * Z) :=
  let available_years := available_years df_processed in
  let last_two := drop (length available_years - 2) available_years in
  let yoy_data :=
    filter (λ p, from_option (λ y, bool_decide (y ∈ last_two)) false
                             (AC_OPEN_YEAR p)) df_processed in
  (λ g, (g.1, len g.2))
    <$> groupby (λ p, y ← AC_OPEN_YEAR p; m ← AC_OPEN_MONTH p; Some (y, m))
                yoy_data.

(** The sum of the column [Count] over the rows of one year, lines
    360-361. *)
Definition year_total (monthly_counts : list ((Z * Z) * Z)) (year : Z) : Z :=
  foldr Z.add 0 (snd <$> filter (λ kc, kc.1.1 = year) monthly_counts).

(** What the growth metrics of lines 358-366 show. *)
Record YoY := mkYoY {
  prev_year : Z;
  curr_year : Z;
  prev_year_total : Z;
  curr_year_total : Z;
  growth_rate : option Q
}.

(** The growth metrics of the year-over-year tab, lines 323 and 357-366;
    [None] when there are fewer than two available years.
    [available_years[-2]] and [available_years[-1]] are the last two
    entries of the list; the totals are NumPy integers. *)
Definition yoy (df_processed : list Processed) : py (option YoY) :=
  let available_years := available_years df_processed in
  if bool_decide (2 ≤ length available_years)%nat then
    let monthly_counts := monthly_counts df_processed in
    prev_year ← getindex available_years (length available_years - 2);
    let prev_year_total := year_total monthly_counts prev_year in
    curr_year ← getindex available_years (length available_years - 1);
    let curr_year_total := year_total monthly_counts curr_year in
    let growth_rate :=
      if 0 <? prev_year_total
      then (λ q, q * 100)%Q
             <$> np_truediv (curr_year_total - prev_year_total)
                            prev_year_total
      else Some 0%Q in
    mret (Some {| prev_year := prev_year;
                  curr_year := curr_year;
                  prev_year_total := prev_year_total;
                  curr_year_total := curr_year_total;
                  growth_rate := growth_rate |})
  else mret None.

End InetTabs.

(** ** [ytd_preprocessor.py]: [analyze_ytd_patterns] *)

Module YtdAnalysis.

(** A row of a chunk after lines 222-224. *)
Record ChunkRow := mkChunkRow {
  year : option Z;
  day_of_year : option Z
}.

(** Lines 222-224 at one row. *)
Definition convert_row (r : Row) : ChunkRow :=
  let open := to_datetime (AC_OPEN_DATE r) in
  {| year := dt_year <$> open; day_of_year := dt_dayofyear <$> open |}.

(** The slice [l[-n:]] of a Python list: the last [n] elements for a
    positive [n], the whole list for [n = 0], and the list without its
    first [-n] elements for a negative [n]. *)
Definition slice_last {A} (n : Z) (l : list A) : list A :=
  if 0 <? n then drop (length l - Z.to_nat n) l else drop (Z.to_nat (- n)) l.

(** [recent_years], line 227. *)
Definition recent_years (years_to_analyze : Z) (chunk : list ChunkRow)
  : list Z :=
  slice_last years_to_analyze (sorted (unique (omap year chunk))).

(** The body of the loop over [daily_counts.items()], lines 236-240, on the
    dictionary [daily_patterns[year]]. *)
Definition day_step (current_doy : Z) (daily : gmap Z Z) (dc : Z * Z)
  : py (gmap Z Z) :=
  let '(doy, count) := dc in
  if bool_decide (doy ≤ current_doy) then
    let daily :=
      if bool_decide (daily !! doy = None) then <[doy := 0]> daily
      else daily in
    n ← getitem daily doy;
    mret (<[doy := n + count]> daily)
  else mret daily.

(** The body of the loop over the recent years of a chunk, lines 229-240.
    The dictionary [daily_patterns[year]] is one object, which the loop
    over the days updates in place. *)
Definition year_step (current_doy : Z) (chunk : list ChunkRow)
    (daily_patterns : gmap Z (gmap Z Z)) (y : Z)
  : py (gmap Z (gmap Z Z)) :=
  let daily_patterns :=
    if bool_decide (daily_patterns !! y = None)
    then <[y := ∅]> daily_patterns else daily_patterns in
  let year_data := filter (λ c, year c = Some y) chunk in
  let daily_counts :=
    (λ g, (g.1, len g.2)) <$> groupby day_of_year year_data in
  daily ← getitem daily_patterns y;
  daily ← for_each (day_step current_doy) daily daily_counts;
  mret (<[y := daily]> daily_patterns).

(** The body of the chunk loop, lines 221-240. *)
Definition chunk_step (years_to_analyze current_doy : Z)
    (daily_patterns : gmap Z (gmap Z Z)) (chunk : list Row)
  : py (gmap Z (gmap Z Z)) :=
  let chunk := convert_row <$> chunk in
  for_each (year_step current_doy chunk) daily_patterns
           (recent_years years_to_analyze chunk).

(** [daily_patterns] after the chunk loop, lines 218-240. *)
Definition daily_patterns (years_to_analyze current_doy : Z)
    (chunks : list (list Row)) : py (gmap Z (gmap Z Z)) :=
  for_each (chunk_step years_to_analyze current_doy) ∅ chunks.

(** [sum(daily_data.values())], line 255. *)
Definition dict_sum (daily_data : gmap Z Z) : Z :=
  map_fold (λ _ count total, total + count) 0 daily_data.

(** [ytd_totals], lines 253-256. *)
Definition ytd_totals (daily_patterns : gmap Z (gmap Z Z)) : gmap Z Z :=
  dict_sum <$> daily_patterns.

(** One iteration of the loop of lines 264-269: the two years and the
    growth that is written to the report. *)
Definition growth_entry (ytd_totals : gmap Z Z) (years : list Z) (i : nat)
  : py (Z * Z * Q) :=
  curr_year ← getindex years i;
  prev_year ← getindex years (i - 1);
  curr_total ← getitem ytd_totals curr_year;
  prev_total ← getitem ytd_totals prev_year;
  x ← py_truediv (curr_total - prev_total) prev_total;
  mret (prev_year, curr_year, (x * 100)%Q).

(** The growth lines of the report, lines 263-269. *)
Definition growth_rates (ytd_totals : gmap Z Z) : py (list (Z * Z * Q)) :=
  let years := sorted (elements (dom ytd_totals)) in
  mapM (growth_entry ytd_totals years) (seq 1 (length years - 1)).

End YtdAnalysis.

(** ** [streamlit_app.py]: the monthly cohort analysis *)

Module MonthlyCohorts.
Import MobAdoption.

(** One row of [monthly_cohort_df], lines 1216-1233.  The two rate columns
    are ['30d_Registration_Rate'] and ['90d_Registration_Rate'] in the
    source. *)
Record Cohort := mkCohort {
  Cohort_Month : Z * Z;
  Cohort_Total_Accounts : Z;
  Registered_30d : Z;
  Registered_90d : Z;
  Registration_Rate_30d : option Q;
  Registration_Rate_90d : option Q
}.

(** The counts of lines 1219-1226: the rows of the cohort with a
    registration date at most [n] days after the open date. *)
Definition registered_within (n : Z) (cohort : list Processed) : Z :=
  len (filter (λ p, notna (Registration_Date p)
                    && le_na (timedelta_days (Registration_Date p)
                                             (Open_Date_ p)) (Some n))
         cohort).

(** The body of the loop of lines 1213-1229 for one open month, with the
    two rates that lines 1232-1233 add to its row. *)
Definition cohort_row (df : list Processed) (month : Z * Z) : Cohort :=
  let cohort := filter (λ p, Open_Month p = Some month) df in
  let total := len cohort in
  let registered_30d := registered_within 30 cohort in
  let registered_90d := registered_within 90 cohort in
  {| Cohort_Month := month;
     Cohort_Total_Accounts := total;
     Registered_30d := registered_30d;
     Registered_90d := registered_90d;
     Registration_Rate_30d := np_round 1 <$> pct registered_30d total;
     Registration_Rate_90d := np_round 1 <$> pct registered_90d total |}.

End MonthlyCohorts.

(** ** [ytd_comparison_dashboard.py]: the regional growth leaders *)

Module YtdRegional.
Import YtdDashboard.

(** A row of [regional_df], lines 372-387, with the columns that the growth
    table reads. *)
Record RegionalRow := mkRegionalRow {
  REGION_DESC : string;
  CUSTOMER_NO : Z;
  Year : Z
}.

(** [regional_stats] of one year, lines 373-380; the count of
    [CUSTOMER_NO], a column without nulls, is the number of rows of the
    region. *)
Definition regional_stats (year : Z) (year_df : list Processed)
  : list RegionalRow :=
  (λ g, {| REGION_DESC := g.1; CUSTOMER_NO := len g.2; Year := year |})
    <$> groupby region year_df.

(** [regional_df], lines 370-387. *)
Definition regional_df (ytd : gmap Z (list Processed))
    (selected_years : list Z) : py (list RegionalRow) :=
  regional_comparison ←
    mapM (λ year, year_df ← getitem ytd year;
                  mret (regional_stats year year_df)) selected_years;
  mret (concat regional_comparison).

(** [regional_df[regional_df['Year'] == year].set_index('REGION_DESC')]
    with its column [CUSTOMER_NO], lines 412-413.  The selected years are
    distinct, so a region labels at most one row. *)
Definition year_regional (regional_df : list RegionalRow) (year : Z)
  : gmap string Z :=
  list_to_map ((λ r, (REGION_DESC r, CUSTOMER_NO r))
                 <$> filter (λ r, Year r = year) regional_df).

(** A row of [growth_by_region], lines 415-421.  After [fillna(0)] the
    columns are floats; [Growth_Rate] is [None] when it is infinite. *)
Record RegionGrowth := mkRegionGrowth {
  Current_Year : Q;
  Previous_Year : Q;
  Growth : Q;
  Growth_Rate : option Q
}.

(** The row of a region, from its cells in the two columns ([None] where
    the region has no row in that year).  The columns are aligned on the
    union of the two indexes, a difference or quotient with a missing cell
    is null, and [fillna(0)] replaces every null of the table, also the
    one of [0 / 0]. *)
Definition growth_cells (latest prev : option Z) : RegionGrowth :=
  let growth := a ← latest; b ← prev; Some (a - b) in
  {| Current_Year := from_option inject_Z 0%Q latest;
     Previous_Year := from_option inject_Z 0%Q prev;
     Growth := from_option inject_Z 0%Q growth;
     Growth_Rate :=
       match growth, prev with
       | Some d, Some b =>
           if (d =? 0) && (b =? 0) then Some 0%Q
           else np_round 1 <$> ((λ q, q * 100)%Q <$> np_truediv d b)
       | _, _ => Some 0%Q
       end |}.

Definition growth_row (latest prev : option Z) : option RegionGrowth :=
  match latest, prev with
  | None, None => None
  | _, _ => Some (growth_cells latest prev)
  end.

(** [max(l)] on a non-empty list of integers. *)
Definition max_ (l : list Z) : Z :=
  match l with
  | [] => 0
  | x :: l' => foldl Z.max x l'
  end.

(** [growth_by_region] before it is sorted, lines 370-421, keyed by region;
    [None] when fewer than two years are selected.  [sorted(l)[-2]] is the
    entry before the last. *)
Definition growth_by_region (ytd : gmap Z (list Processed))
    (selected_years : list Z) : py (option (gmap string RegionGrowth)) :=
  regional_df ← regional_df ytd selected_years;
  if bool_decide (2 ≤ length selected_years)%nat then
    let latest_year := max_ selected_years in
    prev_year ← getindex (sorted selected_years)
                         (length (sorted selected_years) - 2);
    let latest_regional := year_regional regional_df latest_year in
    let prev_regional := year_regional regional_df prev_year in
    mret (Some (merge growth_row latest_regional prev_regional))
  else mret None.

End YtdRegional.

(** ** Specification wording *)

(** "The record was opened in year [y] on one of the days 1..[R] of that
    year": the year-to-date condition in the words of the specification,
    on an input row. *)
Definition opened_within (y R : Z) (r : Row) : Prop :=
  match to_datetime (AC_OPEN_DATE r) with
  | Some ts => dt_year ts = y ∧ 1 ≤ dt_dayofyear ts ≤ R
  | None => False
  end.

#[global] Instance opened_within_dec (y R : Z) (r : Row) :
  Decision (opened_within y R r).
Proof. unfold opened_within. destruct (to_datetime _); apply _. Defined.

(** The row of the growth table that the specification expects for two
    consecutive years, given the year-to-date total of every year. *)
Definition expected_growth_row (total : Z → Z) (prev_year year : Z)
  : YtdDashboard.GrowthRow :=
  {| YtdDashboard.Period := (prev_year, year);
     YtdDashboard.Growth_Rate :=
       if 0 <? total prev_year
       then (inject_Z (total year - total prev_year)
             / inject_Z (total prev_year) * 100)%Q
       else 0%Q;
     YtdDashboard.Previous := total prev_year;
     YtdDashboard.Current := total year;
     YtdDashboard.Absolute_Growth := total year - total prev_year |}.

(** What the dictionaries of [ytd_preprocessor.py] must hold for given
    rows: the aggregates "computed from the whole dataset at once". *)
Module YtdPreprocessorSpec.
Import YtdPreprocessor.

(** The count of a month, present only when it is not zero. *)
Definition month_count (l : list ChunkRow) (m : Z) : option Z :=
  let n := len (filter (λ c, month c = Some m) l) in
  if decide (n = 0) then None else Some n.

(** The totals of a region, present only when the region has rows. *)
Definition region_count (l : list ChunkRow) (g : string)
  : option Region.stats :=
  let region_data := filter (λ c, region c = Some g) l in
  if decide (len region_data = 0) then None
  else Some (Region.mk (len region_data)
                       (len (filter (λ c, is_registered c) region_data))).

(** The numbers of one year's entry for its selected rows [l]. *)
Definition stats_nums (ys : YearStats) (l : list ChunkRow) : Prop :=
  total_customers ys = len l
  ∧ eligible ys = len (filter (λ c, inet_eligible c = "Y") l)
  ∧ registered ys = len (filter (λ c, is_registered c) l)
  ∧ (∀ m, by_month ys !! m = month_count l m)
  ∧ (∀ g, by_region ys !! g = region_count l g).

(** A year has an entry exactly when it has selected rows. *)
Definition stats_ok (o : option YearStats) (l : list ChunkRow) : Prop :=
  match o with
  | None => l = []
  | Some ys => l ≠ [] ∧ stats_nums ys l
  end.

(** The state of the chunk loop agrees with the selected rows [S y] of
    every year [y]. *)
Definition state_ok (st : State) (S : Z → list ChunkRow) : Prop :=
  (∀ y, ytd_data st !! y = None ↔ summary_stats st !! y = None)
  ∧ (∀ y, year_df st y = S y)
  ∧ (∀ y, stats_ok (summary_stats st !! y) (S y)).

End YtdPreprocessorSpec.

(** What a row of [final_summary] must hold for the rows [l] of its group
    in the whole file: the counts and sums computed at once. *)
Module LargeFileNotebookSpec.
Import LargeFileNotebook.

(** The rows of one group. *)
Definition group_rows (k : string * (Z * Z)) (rows : list Row) : list Row :=
  filter (λ r, group_key r = Some k) rows.

Definition sums_ok (o : option Final) (l : list Row) : Prop :=
  match o with
  | None => l = []
  | Some f =>
      l ≠ []
      ∧ total_customers f = count_notna (CUSTOMER_NO <$> l)
      ∧ inet_eligible f = len (filter (λ r, INET_ELIGIBLE r = "Y") l)
      ∧ registered f = len (filter (λ r, is_registered r) l)
      ∧ (total_balance f
         == sum_q (CUSTOMER_MTD_AVERAGE_ALL_ACTIVE_ELIGIBLE <$> l))%Q
  end.

(** Two rows of [final_summary] with the same counts and sums. *)
Definition same_sums (o1 o2 : option Final) : Prop :=
  match o1, o2 with
  | None, None => True
  | Some f, Some g =>
      total_customers f = total_customers g
      ∧ inet_eligible f = inet_eligible g
      ∧ registered f = registered g
      ∧ (total_balance f == total_balance g)%Q
  | _, _ => False
  end.

End LargeFileNotebookSpec.

(** ** Predicates and invariants used in the statements *)

(** The last transaction of the row is dated and at most [n] whole days
    before [current_date]. *)
Definition transacted_within (current_date n : Z) (r : Row) : Prop :=
  match to_datetime (LAST_TRX_DATE r) with
  | Some trx => (current_date - trx) / ns_per_day ≤ n
  | None => False
  end.

#[global] Instance transacted_within_dec (current_date n : Z) (r : Row) :
  Decision (transacted_within current_date n r).
Proof. unfold transacted_within. destruct (to_datetime _); apply _. Defined.

(** The open date of the row parses to a date on or after [cutoff_date]. *)
Definition opened_since (cutoff_date : Z) (r : Row) : Prop :=
  match to_datetime (AC_OPEN_DATE r) with
  | Some ts => cutoff_date ≤ ts
  | None => False
  end.

#[global] Instance opened_since_dec (cutoff_date : Z) (r : Row) :
  Decision (opened_since cutoff_date r).
Proof. unfold opened_since. destruct (to_datetime _); apply _. Defined.

(** The key of the row is one of the keys [ks]. *)
Definition key_among {A K} (f : A → option K) (ks : list K) (x : A)
  : Prop :=
  match f x with
  | Some k => k ∈ ks
  | None => False
  end.

#[global] Instance key_among_dec {A} `{EqDecision K} (f : A → option K)
  (ks : list K) (x : A) : Decision (key_among f ks x).
Proof. unfold key_among. destruct (f x); apply _. Defined.

(** What the chunk loop of [create_yearly_files] maintains. *)
Module PreprocessLargeCsvInv.
Import PreprocessLargeCsv.

(** The dictionary holds, for every year, the rows of that year seen so
    far, in file order; a year has an entry once it has a row. *)
Definition yearly_ok (yearly_data : gmap Z (list (list ChunkRow)))
    (seen : list ChunkRow) : Prop :=
  ∀ y, year_df yearly_data y = filter (λ c, year c = Some y) seen
       ∧ (yearly_data !! y = None ↔ filter (λ c, year c = Some y) seen = []).

End PreprocessLargeCsvInv.

(** The key of the row satisfies [P]. *)
Definition key_holds {A K} (f : A → option K) (P : K → Prop) (x : A)
  : Prop :=
  match f x with
  | Some k => P k
  | None => False
  end.

#[global] Instance key_holds_dec {A K} (f : A → option K) (P : K → Prop)
  `{!∀ k, Decision (P k)} (x : A) : Decision (key_holds f P x).
Proof. unfold key_holds. destruct (f x); apply _. Defined.

(** Two nullable float cells hold the same value. *)
Definition option_Qeq (a b : option Q) : Prop :=
  match a, b with
  | Some x, Some y => (x == y)%Q
  | None, None => True
  | _, _ => False
  end.

(** What the chunk loop of [analyze_ytd_patterns] maintains. *)
Module YtdAnalysisInv.
Import YtdAnalysis.

(** The chunks of the file after lines 222-224. *)
Definition convert_chunks (chunks : list (list Row))
  : list (list ChunkRow) :=
  (λ chunk : list Row, convert_row <$> chunk) <$> chunks.

(** The rows of year [y] opened up to the day [current_doy]. *)
Definition ytd_rows (current_doy y : Z) (rows : list ChunkRow)
  : list ChunkRow :=
  filter (λ c, year c = Some y ∧ le_na (day_of_year c) (Some current_doy))
         rows.

(** The chunks in which [y] is one of the recent years. *)
Definition recent_chunks (years_to_analyze y : Z)
    (chunks : list (list ChunkRow)) : list (list ChunkRow) :=
  filter (λ chunk, y ∈ recent_years years_to_analyze chunk) chunks.

(** The rows that are counted for the year [y]: none when [y] is a recent
    year of no chunk, else its rows up to the current day in the chunks
    in which it is a recent year. *)
Definition counted (years_to_analyze current_doy y : Z)
    (chunks : list (list ChunkRow)) : option (list ChunkRow) :=
  match recent_chunks years_to_analyze y chunks with
  | [] => None
  | recent => Some (ytd_rows current_doy y (concat recent))
  end.

(** The count of a day, present only when it is not zero. *)
Definition day_count (rows : list ChunkRow) (d : Z) : option Z :=
  let n := len (filter (λ c, day_of_year c = Some d) rows) in
  if decide (n = 0) then None else Some n.

(** The dictionary of a year holds the day counts of the rows [rows]. *)
Definition daily_ok (o : option (gmap Z Z)) (rows : option (list ChunkRow))
  : Prop :=
  match o, rows with
  | Some daily, Some rows => ∀ d, daily !! d = day_count rows d
  | None, None => True
  | _, _ => False
  end.

(** [daily_patterns] accounts for the rows [E y] of every year [y]. *)
Definition patterns_ok (daily_patterns : gmap Z (gmap Z Z))
    (E : Z → option (list ChunkRow)) : Prop :=
  ∀ y, daily_ok (daily_patterns !! y) (E y).

End YtdAnalysisInv.

(** * Properties *)

(** ** Registration status (C1) *)

Section RegistrationStatus.

Variable current_date : Z.

(** The precedence of [get_registration_status] in terms of the two
    timestamps. *)
Lemma inet_status_cases (reg open : option Z) :
  InetEnhanced.get_registration_status reg open =
    match reg, open with
    | None, _ => "Not Registered"
    | Some t, Some o => if t <? o then "Already Registered" else "Registered"
    | Some _, None => "Registered"
    end.
Proof. by destruct reg, open. Qed.

Lemma ytd_status_cases (reg open : option Z) :
  YtdDashboard.get_registration_status reg open =
    InetEnhanced.get_registration_status reg open.
Proof. reflexivity. Qed.

(** A whole number of days between two midnights. *)
Lemma timestamp_days_between (y1 m1 d1 y2 m2 d2 : Z) :
  (Timestamp y2 m2 d2 - Timestamp y1 m1 d1) / ns_per_day
  = days_from_civil y2 m2 d2 - days_from_civil y1 m1 d1.
Proof.
  unfold Timestamp. rewrite <- Z.mul_sub_distr_r.
  apply Z.div_mul. unfold ns_per_day. lia.
Qed.

End RegistrationStatus.

(** C1. Registration status is assigned by short-circuiting precedence:
    a null registration timestamp gives "Not Registered"; otherwise a
    registration strictly earlier than the account opening gives
    "Already Registered"; otherwise the status is "Registered" and
    [days_to_onboard] is the day difference registration minus open
    (null when the open timestamp is null, whose comparison is false).
    Open date 2024-01-01 with registration date 2024-01-04 yields
    "Registered" with [days_to_onboard = 3].  Both dashboards agree. *)
Theorem C1_registration_status_precedence (current_date : Z) (r : Row) :
  let reg := to_datetime (MOBILE_APP_REGISTRATION_DATE r) in
  let open := to_datetime (AC_OPEN_DATE r) in
  let p := InetEnhanced.preprocess_row current_date r in
  let q := YtdDashboard.process_row current_date r in
  let s := with_dates r (DateText (Timestamp 2024 1 1))
                        (DateText (Timestamp 2024 1 4)) in
  YtdDashboard.iNET_Registration_status q
    = InetEnhanced.iNET_Registration_status p
  ∧ YtdDashboard.days_to_onboard q = InetEnhanced.days_to_onboard p
  ∧ match reg with
    | None => InetEnhanced.iNET_Registration_status p = "Not Registered"
    | Some t =>
        match open with
        | Some o =>
            if decide (t < o)
            then InetEnhanced.iNET_Registration_status p
                 = "Already Registered"
            else InetEnhanced.iNET_Registration_status p = "Registered"
                 ∧ InetEnhanced.days_to_onboard p
                   = Some ((t - o) / ns_per_day)
                 ∧ 0 ≤ (t - o) / ns_per_day
        | None =>
            InetEnhanced.iNET_Registration_status p = "Registered"
            ∧ InetEnhanced.days_to_onboard p = None
        end
    end
  ∧ InetEnhanced.iNET_Registration_status
      (InetEnhanced.preprocess_row current_date s) = "Registered"
  ∧ InetEnhanced.days_to_onboard
      (InetEnhanced.preprocess_row current_date s) = Some 3.
Proof.
  cbn zeta. split; [reflexivity|]. split; [reflexivity|]. split.
  - cbn [InetEnhanced.preprocess_row InetEnhanced.iNET_Registration_status
         InetEnhanced.days_to_onboard].
    rewrite inet_status_cases.
    destruct (to_datetime (MOBILE_APP_REGISTRATION_DATE r)) as [t|]; [|done].
    destruct (to_datetime (AC_OPEN_DATE r)) as [o|]; [|done].
    case_decide as Hlt.
    + by rewrite (proj2 (Z.ltb_lt t o) Hlt).
    + rewrite (proj2 (Z.ltb_ge t o)) by lia.
      repeat split. apply Z.div_pos; [lia|]. unfold ns_per_day. lia.
  - split; [reflexivity|].
    cbn [InetEnhanced.preprocess_row InetEnhanced.days_to_onboard with_dates
         AC_OPEN_DATE MOBILE_APP_REGISTRATION_DATE to_datetime timedelta_days].
    by rewrite timestamp_days_between.
Qed.

(** ** Activity status of rows without a last transaction (C9) *)

(** No label of the ladder is given to a row whose day count is null. *)
Lemma inet_activity_status_null :
  InetEnhanced.activity_status None = "Unknown".
Proof. reflexivity. Qed.

Lemma ytd_activity_status_null :
  YtdDashboard.activity_status None = "Unknown".
Proof. reflexivity. Qed.

(** A row that a mask rejects does not change the length of the selection. *)
Lemma len_filter_skip {A} (P : A → Prop) `{!∀ x, Decision (P x)}
    (l1 l2 : list A) (x : A) :
  ¬ P x → len (filter P (l1 ++ x :: l2)) = len (filter P (l1 ++ l2)).
Proof.
  intros Hx. unfold len.
  by rewrite !filter_app, filter_cons_False.
Qed.

(** A row that a mask accepts adds one to the length of the selection. *)
Lemma len_filter_keep {A} (P : A → Prop) `{!∀ x, Decision (P x)}
    (l1 l2 : list A) (x : A) :
  P x → len (filter P (l1 ++ x :: l2)) = 1 + len (filter P (l1 ++ l2)).
Proof.
  intros Hx. unfold len.
  rewrite !filter_app, filter_cons_True by done.
  rewrite !length_app. cbn [length]. lia.
Qed.

(** C9. A row whose last-transaction timestamp is null, or does not parse
    and is coerced to null, fails every comparison of the threshold ladder
    and gets the [np.select] default "Unknown", whatever its registration
    dates; it is counted in no active-user metric of either dashboard. *)
Theorem C9_null_last_trx_is_unknown (current_date : Z) (r : Row)
    (before after : list Row)
    (Hnull : to_datetime (LAST_TRX_DATE r) = None) :
  InetEnhanced.Activity_Status (InetEnhanced.preprocess_row current_date r)
    = "Unknown"
  ∧ YtdDashboard.Activity_Status (YtdDashboard.process_row current_date r)
    = "Unknown"
  ∧ InetEnhanced.active_users
      (InetEnhanced.preprocess_data current_date (before ++ r :: after))
    = InetEnhanced.active_users
        (InetEnhanced.preprocess_data current_date (before ++ after))
  ∧ YtdDashboard.active
      (YtdDashboard.process_for_ytd current_date (before ++ r :: after))
    = YtdDashboard.active
        (YtdDashboard.process_for_ytd current_date (before ++ after)).
Proof.
  assert (Hi : InetEnhanced.Activity_Status
                 (InetEnhanced.preprocess_row current_date r) = "Unknown").
  { cbn [InetEnhanced.preprocess_row InetEnhanced.Activity_Status].
    rewrite Hnull. reflexivity. }
  assert (Hy : YtdDashboard.Activity_Status
                 (YtdDashboard.process_row current_date r) = "Unknown").
  { cbn [YtdDashboard.process_row YtdDashboard.Activity_Status].
    rewrite Hnull. reflexivity. }
  repeat split; [done | done | |].
  - unfold InetEnhanced.active_users, InetEnhanced.preprocess_data.
    rewrite !map_app. cbn [map].
    apply len_filter_skip. rewrite Hi. by vm_compute.
  - unfold YtdDashboard.active, YtdDashboard.process_for_ytd.
    rewrite !map_app. cbn [map].
    apply len_filter_skip. rewrite Hy. by vm_compute.
Qed.

(** A registered customer whose last-transaction text does not parse. *)
Lemma C9_null_last_trx_witness :
  let r := mkRow 7 (Some "North") "Y" (DateText (Timestamp 2024 1 1))
                 (DateText (Timestamp 2024 1 4)) (BadText "n/a") in
  to_datetime (LAST_TRX_DATE r) = None
  ∧ InetEnhanced.Activity_Status (InetEnhanced.preprocess_row 0 r)
    = "Unknown".
Proof.
  split; [reflexivity|].
  apply (C9_null_last_trx_is_unknown 0
           (mkRow 7 (Some "North") "Y" (DateText (Timestamp 2024 1 1))
                  (DateText (Timestamp 2024 1 4)) (BadText "n/a")) [] []).
  reflexivity.
Defined.

(** ** Rates with a zero denominator (C3) *)

(** A guarded rate: the division is evaluated only for a positive
    denominator, where it cannot raise. *)
Lemma py_truediv_pos (a b : Z) :
  0 < b → py_truediv a b = Return (inject_Z a / inject_Z b)%Q.
Proof.
  intros Hb. unfold py_truediv.
  by rewrite (proj2 (Z.eqb_neq b 0)) by lia.
Qed.

Lemma growth_total (curr prev : Z) :
  YtdDashboard.growth curr prev =
    Return (if 0 <? prev
            then (inject_Z (curr - prev) / inject_Z prev * 100)%Q
            else 0%Q).
Proof.
  unfold YtdDashboard.growth. destruct (0 <? prev) eqn:Hp; [|done].
  apply Z.ltb_lt in Hp. by rewrite py_truediv_pos.
Qed.

Lemma reg_rate_total (registered eligible : Z) :
  YtdDashboard.reg_rate registered eligible =
    Return (if 0 <? eligible
            then (inject_Z registered / inject_Z eligible * 100)%Q
            else 0%Q).
Proof.
  unfold YtdDashboard.reg_rate. destruct (0 <? eligible) eqn:Hp; [|done].
  apply Z.ltb_lt in Hp. by rewrite py_truediv_pos.
Qed.

Lemma adoption_rate_total (filtered : list InetEnhanced.Processed) :
  InetEnhanced.adoption_rate filtered =
    Return (if 0 <? InetEnhanced.inet_eligible filtered
            then InetEnhanced.Formatted
                   (inject_Z (InetEnhanced.registered_customers filtered)
                    / inject_Z (InetEnhanced.inet_eligible filtered) * 100)%Q
            else InetEnhanced.Literal "0%").
Proof.
  unfold InetEnhanced.adoption_rate.
  destruct (0 <? _) eqn:Hp; [|done].
  apply Z.ltb_lt in Hp. by rewrite py_truediv_pos.
Qed.

Lemma active_rate_total (filtered : list InetEnhanced.Processed) :
  InetEnhanced.active_rate filtered =
    Return (if 0 <? InetEnhanced.registered_customers filtered
            then InetEnhanced.Formatted
                   (inject_Z (InetEnhanced.active_users filtered)
                    / inject_Z (InetEnhanced.registered_customers filtered)
                    * 100)%Q
            else InetEnhanced.Literal "0%").
Proof.
  unfold InetEnhanced.active_rate.
  destruct (0 <? _) eqn:Hp; [|done].
  apply Z.ltb_lt in Hp. by rewrite py_truediv_pos.
Qed.




(** ** Days to onboard (C4) *)

(** A null cell does not contribute to a mean. *)
Lemma mean_skipna_null (l1 l2 : list (option Z)) :
  mean_skipna (l1 ++ None :: l2) = mean_skipna (l1 ++ l2).
Proof.
  unfold mean_skipna, count_notna, sum_skipna.
  by rewrite !omap_app.
Qed.

(** When [Days_to_Onboard] is assigned by [mob_adoption_dashboard.py]. *)
Lemma mob_days_to_onboard_defined (current_date : Z)
    (r : MobAdoption.Raw.Row) :
  is_Some (MobAdoption.Days_to_Onboard
             (MobAdoption.process_row current_date r))
  ↔ ∃ t o, to_datetime (MobAdoption.Raw.Registration_Date r) = Some t
           ∧ to_datetime (MobAdoption.Raw.Open_Date_ r) = Some o
           ∧ o ≤ t.
Proof.
  unfold MobAdoption.process_row, MobAdoption.process_row_with.
  cbn [MobAdoption.Days_to_Onboard].
  destruct (to_datetime (MobAdoption.Raw.Registration_Date r)) as [t|],
    (to_datetime (MobAdoption.Raw.Open_Date_ r)) as [o|];
    cbn; try (split; [by intros [? [=]] | by intros (?&?&?&?&?)]).
  destruct (o <=? t) eqn:Hle; cbn.
  - apply Z.leb_le in Hle. split; [|by eauto]. intros _. by exists t, o.
  - apply Z.leb_gt in Hle. split; [by intros [? [=]]|].
    intros (?&?&[= <-]&[= <-]&?). lia.
Qed.

(** What both variants of [process_data] derive for a registration that
    precedes the account opening. *)
Lemma early_registration_row
    (valid : string → option Z → option Z → bool)
    (current_date : Z) (r : MobAdoption.Raw.Row) (t o : Z) :
  (∀ s, valid s (Some t) (Some o) = true → o ≤ t) →
  to_datetime (MobAdoption.Raw.Registration_Date r) = Some t →
  to_datetime (MobAdoption.Raw.Open_Date_ r) = Some o →
  t < o →
  let p := MobAdoption.process_row_with valid current_date r in
  MobAdoption.Registration_Remarks p = "Already Registered"
  ∧ MobAdoption.Days_to_Onboard p = None
  ∧ MobAdoption.Onboarding_Time_Bracket p = "Already Registered".
Proof.
  intros Hvalid Hreg Hopen Hlt. unfold MobAdoption.process_row_with.
  rewrite Hreg, Hopen. cbn [lt_na].
  rewrite (proj2 (Z.ltb_lt t o) Hlt).
  cbn [MobAdoption.Registration_Remarks MobAdoption.Days_to_Onboard
       MobAdoption.Onboarding_Time_Bracket].
  repeat split.
  destruct (valid _ _ _) eqn:Hv; [|done].
  apply Hvalid in Hv. lia.
Qed.

Lemma mob_valid_sound (t o : Z) :
  MobAdoption.valid_onboarding_mask (Some t) (Some o) = true → o ≤ t.
Proof. cbn. apply Z.leb_le. Qed.

Lemma streamlit_valid_sound (s : string) (t o : Z) :
  StreamlitApp.valid_onboarding_mask s (Some t) (Some o) = true → o ≤ t.
Proof.
  unfold StreamlitApp.valid_onboarding_mask. cbn.
  rewrite andb_true_iff. intros [_ H]. by apply Z.leb_le.
Qed.


(** When [days_to_onboard] is non-null in [inet_dashboard_enhanced.py]. *)
Lemma inet_days_to_onboard_defined (current_date : Z) (r : Row) :
  is_Some (InetEnhanced.days_to_onboard
             (InetEnhanced.preprocess_row current_date r))
  ↔ is_Some (to_datetime (MOBILE_APP_REGISTRATION_DATE r))
    ∧ is_Some (to_datetime (AC_OPEN_DATE r)).
Proof.
  cbn [InetEnhanced.preprocess_row InetEnhanced.days_to_onboard].
  destruct (to_datetime (MOBILE_APP_REGISTRATION_DATE r)),
    (to_datetime (AC_OPEN_DATE r)); cbn;
    (split; [intros [? ?]; try done; by eauto | intros [[? ?] [? ?]]; try done; by eauto]).
Qed.



(** ** Onboarding bracket (C8) *)

(** The thresholds of [get_onboarding_bracket]. *)
Lemma get_onboarding_bracket_thresholds (d : Z) :
  MobAdoption.get_onboarding_bracket (Some d) =
    if decide (d ≤ 5) then "5 days or less"
    else if decide (d ≤ 10) then "6-10 days"
    else if decide (d ≤ 30) then "11-30 days"
    else if decide (d ≤ 180) then "1-6 months"
    else "More than 6 months".
Proof.
  unfold MobAdoption.get_onboarding_bracket.
  repeat (case_decide as H;
          [by rewrite (proj2 (Z.leb_le _ _) H)
          |rewrite (proj2 (Z.leb_gt _ _)) by lia; clear H]).
  done.
Qed.

(** The bracket that [process_data] assigns, whatever the mask of step 3. *)
Lemma onboarding_bracket_cases
    (valid : string → option Z → option Z → bool)
    (current_date : Z) (r : MobAdoption.Raw.Row) :
  let p := MobAdoption.process_row_with valid current_date r in
  MobAdoption.Onboarding_Time_Bracket p =
    if decide (MobAdoption.Registration_Remarks p = "Already Registered")
    then "Already Registered"
    else MobAdoption.get_onboarding_bracket (MobAdoption.Days_to_Onboard p).
Proof.
  unfold MobAdoption.process_row_with.
  cbn [MobAdoption.Onboarding_Time_Bracket MobAdoption.Registration_Remarks
       MobAdoption.Days_to_Onboard].
  case_bool_decide as Hr; case_decide; try done.
  by destruct (valid _ _ _).
Qed.

(** C8, as stated, fails for "Not Registered": the bracket is computed from
    the dates, not from [Registration_Remarks], so a row marked
    "Not Registered" that carries a registration date three days after its
    open date gets the numeric bracket "5 days or less". *)
Lemma C8_onboarding_bracket_counterexample :
  let p := MobAdoption.process_row 0
             (MobAdoption.Raw.mk 1 (Some "North") None "Not Registered"
                (DateText (Timestamp 2024 1 4))
                (DateText (Timestamp 2024 1 1)) Blank) in
  MobAdoption.Registration_Remarks p = "Not Registered"
  ∧ MobAdoption.Onboarding_Time_Bracket p = "5 days or less".
Proof. split; reflexivity. Qed.

(** C8, amended. For a record whose status is "Registered" the bracket is
    a function of [Days_to_Onboard] alone, with thresholds 5, 10, 30 and
    180 days; for a record whose status is "Already Registered" the bracket
    is "Already Registered"; for a record whose status is "Not Registered"
    and that has no registration date the bracket is "Not Registered".
    This holds for [process_data] of [mob_adoption_dashboard.py] and of
    [streamlit_app.py]. *)
Theorem C8_onboarding_bracket (current_date : Z)
    (r a n : MobAdoption.Raw.Row)
    (Hr : MobAdoption.Registration_Remarks
            (MobAdoption.process_row current_date r) = "Registered")
    (Ha : MobAdoption.Registration_Remarks
            (MobAdoption.process_row current_date a) = "Already Registered")
    (Hn : MobAdoption.Registration_Remarks
            (MobAdoption.process_row current_date n) = "Not Registered")
    (Hnodate : to_datetime (MobAdoption.Raw.Registration_Date n) = None) :
  let bracket_of days :=
    match days with
    | None => "Not Registered"
    | Some d =>
        if decide (d ≤ 5) then "5 days or less"
        else if decide (d ≤ 10) then "6-10 days"
        else if decide (d ≤ 30) then "11-30 days"
        else if decide (d ≤ 180) then "1-6 months"
        else "More than 6 months"
    end in
  MobAdoption.Onboarding_Time_Bracket (MobAdoption.process_row current_date r)
    = bracket_of (MobAdoption.Days_to_Onboard
                    (MobAdoption.process_row current_date r))
  ∧ MobAdoption.Onboarding_Time_Bracket
      (StreamlitApp.process_row current_date r)
    = bracket_of (MobAdoption.Days_to_Onboard
                    (StreamlitApp.process_row current_date r))
  ∧ MobAdoption.Onboarding_Time_Bracket
      (MobAdoption.process_row current_date a) = "Already Registered"
  ∧ MobAdoption.Onboarding_Time_Bracket
      (StreamlitApp.process_row current_date a) = "Already Registered"
  ∧ MobAdoption.Onboarding_Time_Bracket
      (MobAdoption.process_row current_date n) = "Not Registered"
  ∧ MobAdoption.Onboarding_Time_Bracket
      (StreamlitApp.process_row current_date n) = "Not Registered".
Proof.
  intros bracket_of.
  assert (Hb : ∀ days, MobAdoption.get_onboarding_bracket days
                       = bracket_of days).
  { intros [d|]; [apply get_onboarding_bracket_thresholds|done]. }
  unfold MobAdoption.process_row, StreamlitApp.process_row in *.
  rewrite !onboarding_bracket_cases, !Hb.
  assert (Hsame : ∀ x, MobAdoption.Registration_Remarks
      (MobAdoption.process_row_with StreamlitApp.valid_onboarding_mask
         current_date x)
    = MobAdoption.Registration_Remarks
        (MobAdoption.process_row_with
           (λ _ reg open, MobAdoption.valid_onboarding_mask reg open)
           current_date x)) by done.
  rewrite !Hsame, Hr, Ha, Hn.
  repeat split; try done.
  - unfold MobAdoption.process_row_with.
    cbn [MobAdoption.Days_to_Onboard]. by rewrite Hnodate.
  - unfold MobAdoption.process_row_with.
    cbn [MobAdoption.Days_to_Onboard]. rewrite Hnodate.
    unfold StreamlitApp.valid_onboarding_mask. cbn.
    by rewrite andb_false_r.
Qed.

(** The amended C8 on three records: registered after three days,
    registered before the opening, and never registered. *)
Lemma C8_onboarding_bracket_witness :
  let r := MobAdoption.Raw.mk 1 None None "Registered"
             (DateText (Timestamp 2024 1 4))
             (DateText (Timestamp 2024 1 1)) Blank in
  let a := MobAdoption.Raw.mk 2 None None "Registered"
             (DateText (Timestamp 2023 12 20))
             (DateText (Timestamp 2024 1 1)) Blank in
  let n := MobAdoption.Raw.mk 3 None None "Not Registered" Blank
             (DateText (Timestamp 2024 1 1)) Blank in
  MobAdoption.Onboarding_Time_Bracket (MobAdoption.process_row 0 r)
    = "5 days or less"
  ∧ MobAdoption.Onboarding_Time_Bracket (MobAdoption.process_row 0 a)
    = "Already Registered"
  ∧ MobAdoption.Onboarding_Time_Bracket (MobAdoption.process_row 0 n)
    = "Not Registered".
Proof.
  pose proof (C8_onboarding_bracket 0
    (MobAdoption.Raw.mk 1 None None "Registered"
       (DateText (Timestamp 2024 1 4)) (DateText (Timestamp 2024 1 1)) Blank)
    (MobAdoption.Raw.mk 2 None None "Registered"
       (DateText (Timestamp 2023 12 20)) (DateText (Timestamp 2024 1 1))
       Blank)
    (MobAdoption.Raw.mk 3 None None "Not Registered" Blank
       (DateText (Timestamp 2024 1 1)) Blank)
    eq_refl eq_refl eq_refl eq_refl) as (H1 & _ & H3 & _ & H5 & _).
  split; [exact H1|]. split; [exact H3 | exact H5].
Defined.

(** ** Registered accounts in the summary and in the funnel (C10) *)

(** [isin] on a two-element list. *)
Lemma isin_pair (x a b : string) : isin x [a; b] ↔ x = a ∨ x = b.
Proof.
  unfold isin. rewrite bool_decide_spec, !elem_of_cons, elem_of_nil.
  tauto.
Qed.

Lemma registered_accounts_count (df : list MobAdoption.Processed) :
  MobAdoption.registered_accounts df =
    len (filter (λ p, MobAdoption.Registration_Remarks p = "Registered"
                      ∨ MobAdoption.Registration_Remarks p
                        = "Already Registered") df).
Proof.
  unfold MobAdoption.registered_accounts, len. do 2 f_equal.
  apply list_filter_iff. intros p. apply isin_pair.
Qed.



(** ** Funnel conversion rates (C7) *)

(** A loop that assigns the cells [a], ..., [a + k - 1] of a column. *)
Lemma foldl_insert_seq {A} (f : nat → A) (k : nat) :
  ∀ (a : nat) (col : list A) (i : nat),
    (a + k ≤ length col)%nat →
    foldl (λ col j, <[j := f j]> col) col (seq a k) !! i =
      if decide (a ≤ i < a + k)%nat then Some (f i) else col !! i.
Proof.
  induction k as [|k IH]; intros a col i Hlen; cbn [seq foldl].
  - case_decide; [lia|done].
  - rewrite IH by (rewrite length_insert; lia).
    destruct (decide (i = a)) as [->|Hne].
    + rewrite list_lookup_insert_eq by lia.
      repeat case_decide; try lia; done.
    + rewrite list_lookup_insert_ne by done.
      repeat case_decide; try lia; done.
Qed.

(** The cells of the [Conversion_Rate] column after the loop. *)
Lemma conversion_rate_lookup (count : list Z) (i : nat) :
  (i < length count)%nat →
  MobAdoption.conversion_rate count !! i =
    if decide (i = 0)%nat then Some (Some 100%Q)
    else Some (np_round 1 <$>
                 MobAdoption.pct (count !!! i) (count !!! (i - 1)%nat)).
Proof.
  intros Hi. unfold MobAdoption.conversion_rate.
  rewrite foldl_insert_seq by (rewrite length_replicate; lia).
  repeat case_decide; try lia; try done.
  by rewrite lookup_replicate_2 by lia.
Qed.




(** ** The calendar: the day of the year lies in 1..366 *)

(** The year of the era that the day-to-year formula yields, and the day
    within that year. *)
Lemma year_of_era_range (doe : Z) :
  0 ≤ doe < 146097 →
  let yoe := (doe - doe / 1460 + doe / 36524 - doe / 146096) / 365 in
  0 ≤ yoe < 400 ∧ 0 ≤ doe - (365 * yoe + yoe / 4 - yoe / 100) ≤ 365.
Proof.
  intros H. cbv zeta.
  assert (doe / 36524 = 0 ∨ doe / 36524 = 1 ∨ doe / 36524 = 2
          ∨ doe / 36524 = 3 ∨ doe / 36524 = 4)
    by (Z.div_mod_to_equations; lia).
  assert (doe / 146096 = 0 ∨ doe / 146096 = 1)
    by (Z.div_mod_to_equations; lia).
  Z.div_mod_to_equations; lia.
Qed.

(** A day is never before the first of January of its civil year, and at
    most 365 days after it. *)
Lemma day_of_year_range (d : Z) :
  0 ≤ d - days_from_civil (year_of_days d) 1 1 ≤ 365.
Proof.
  unfold year_of_days, days_from_civil. cbv zeta.
  set (z := d + 719468).
  set (era := z / 146097).
  set (doe := z - era * 146097).
  assert (Hdoe : 0 ≤ doe < 146097)
    by (subst doe era; Z.div_mod_to_equations; lia).
  destruct (year_of_era_range doe Hdoe) as [Hy Hd]. cbv zeta in Hy, Hd.
  set (yoe := (doe - doe / 1460 + doe / 36524 - doe / 146096) / 365) in *.
  set (doy := doe - (365 * yoe + yoe / 4 - yoe / 100)) in *.
  change (1 <=? 2) with true. change (2 <? 1) with false. cbv iota.
  assert (Hz : d = doe + era * 146097 - 719468) by (subst doe z; lia).
  clearbody doe era yoe.
  destruct ((5 * doy + 2) / 153 <? 10) eqn:Hmp.
  - apply Z.ltb_lt in Hmp.
    replace (((5 * doy + 2) / 153 + 3) <=? 2) with false
      by (symmetry; apply Z.leb_gt; Z.div_mod_to_equations; lia).
    replace ((yoe + era * 400 - 1) / 400) with (era + (yoe - 1) / 400)
      by (rewrite <- Z.div_add_l by lia; f_equal; lia).
    assert (Hcases : yoe = 0 ∨ 1 ≤ yoe) by lia.
    destruct Hcases as [-> | Hpos].
    + change ((0 - 1) / 400) with (-1). subst doy.
      Z.div_mod_to_equations; lia.
    + replace ((yoe - 1) / 400) with 0
        by (symmetry; apply Z.div_small; lia).
      subst doy. Z.div_mod_to_equations; lia.
  - apply Z.ltb_ge in Hmp.
    replace (((5 * doy + 2) / 153 - 9) <=? 2) with true
      by (symmetry; apply Z.leb_le; Z.div_mod_to_equations; lia).
    replace ((yoe + era * 400 + 1 - 1) / 400) with (era + yoe / 400)
      by (rewrite <- Z.div_add_l by lia; f_equal; lia).
    replace (yoe / 400) with 0 by (symmetry; apply Z.div_small; lia).
    subst doy. Z.div_mod_to_equations; lia.
Qed.

Lemma dt_dayofyear_range (ts : Z) : 1 ≤ dt_dayofyear ts ≤ 366.
Proof.
  unfold dt_dayofyear. cbv zeta.
  pose proof (day_of_year_range (ts / ns_per_day)). lia.
Qed.

(** ** Year-to-date selection and growth in the dashboard (C5, C6) *)

(** A loop whose iterations all return. *)
Lemma mapM_py_Return {A B} (f : A → py B) (g : A → B) (l : list A) :
  (∀ x, x ∈ l → f x = Return (g x)) → mapM f l = Return (g <$> l).
Proof.
  induction l as [|x l IH]; intros H; [done|].
  cbn [mapM]. rewrite (H x) by left.
  unfold mbind at 1, py_bind at 1.
  rewrite IH by (intros y Hy; apply H; by right). done.
Qed.

(** The dictionary built by a loop of assignments [d[k] = F k]. *)
Lemma foldl_insert_lookup {V} (F : Z → V) (ks : list Z) :
  ∀ (m : gmap Z V) (k : Z),
    foldl (λ acc y, <[y := F y]> acc) m ks !! k =
      if decide (k ∈ ks) then Some (F k) else m !! k.
Proof.
  induction ks as [|y ks IH]; intros m k; cbn [foldl].
  - case_decide as H; [by apply elem_of_nil in H|done].
  - rewrite IH. destruct (decide (k ∈ ks)) as [Hin|Hnin].
    + rewrite decide_True by (by right). done.
    + destruct (decide (k = y)) as [->|Hne].
      * rewrite decide_True by left. by rewrite lookup_insert_eq.
      * rewrite decide_False by (rewrite elem_of_cons; tauto).
        by rewrite lookup_insert_ne.
Qed.

Lemma ytd_data_lookup (df : list YtdDashboard.Processed)
    (selected_years : list Z) (reference_doy : Z) (selected_region : string)
    (year : Z) :
  YtdDashboard.ytd_data df selected_years reference_doy selected_region
    !! year =
    if decide (year ∈ selected_years)
    then Some (YtdDashboard.year_data df year reference_doy selected_region)
    else None.
Proof.
  unfold YtdDashboard.ytd_data.
  rewrite (foldl_insert_lookup
             (λ y, YtdDashboard.year_data df y reference_doy selected_region)).
  by case_decide.
Qed.

Lemma elem_of_sorted (l : list Z) (x : Z) : x ∈ sorted l ↔ x ∈ l.
Proof. unfold sorted. by rewrite merge_sort_Permutation. Qed.

(** The mask of the dashboard, on a derived row, is the year-to-date
    condition of the specification on the input row. *)
Lemma ytd_mask_opened_within (current_date y R : Z) (r : Row) :
  YtdDashboard.ytd_mask y R (YtdDashboard.process_row current_date r)
  ↔ opened_within y R r.
Proof.
  unfold YtdDashboard.ytd_mask, opened_within.
  cbn [YtdDashboard.process_row YtdDashboard.AC_OPEN_YEAR
       YtdDashboard.AC_OPEN_DOY].
  destruct (to_datetime (AC_OPEN_DATE r)) as [ts|]; cbn; [|tauto].
  pose proof (dt_dayofyear_range ts).
  rewrite andb_True, bool_decide_spec, Is_true_true, Z.leb_le.
  split; [intros [[= ?] ?]; lia | intros [-> ?]; split; [done|lia]].
Qed.

Lemma filter_fmap_iff {A B} (f : A → B) (P : B → Prop) (Q : A → Prop)
    `{!∀ x, Decision (P x)} `{!∀ x, Decision (Q x)} (l : list A) :
  (∀ x, P (f x) ↔ Q x) → filter P (f <$> l) = f <$> filter Q l.
Proof.
  intros Hiff. induction l as [|x l IH]; [done|].
  rewrite fmap_cons. destruct (decide (Q x)) as [Hq|Hq].
  - rewrite (filter_cons_True P) by (by apply Hiff).
    rewrite (filter_cons_True Q) by done.
    by rewrite fmap_cons, IH.
  - rewrite (filter_cons_False P) by (by rewrite Hiff).
    by rewrite (filter_cons_False Q) by done.
Qed.

(** With the region choice 'All', the rows kept for a year are those of
    the records opened in that year on the days 1..R. *)
Lemma year_data_all (current_date y R : Z) (raw : list Row) :
  YtdDashboard.year_data (YtdDashboard.process_for_ytd current_date raw)
                         y R "All"
  = YtdDashboard.process_row current_date <$> filter (opened_within y R) raw.
Proof.
  unfold YtdDashboard.year_data, YtdDashboard.process_for_ytd.
  rewrite bool_decide_eq_false_2 by (intros H; by apply H).
  apply filter_fmap_iff. intros r. apply ytd_mask_opened_within.
Qed.

Lemma concat_imap_singleton {A B} (l : list A) :
  ∀ h : nat → A → B, concat (imap (λ i x, [h i x]) l) = imap h l.
Proof.
  induction l as [|x l IH]; intros h; [done|].
  rewrite !imap_cons. cbn [concat app]. f_equal. apply (IH (h ∘ S)).
Qed.

(** The growth table: one row for every pair of consecutive years of the
    sorted selection, computed from the totals of the same dictionary. *)
Lemma growth_data_rows (df : list YtdDashboard.Processed)
    (selected_years : list Z) (reference_doy : Z) (selected_region : string) :
  let total y :=
    len (YtdDashboard.year_data df y reference_doy selected_region) in
  YtdDashboard.growth_data
    (YtdDashboard.ytd_data df selected_years reference_doy selected_region)
    selected_years
  = Return (imap (λ i year,
                    expected_growth_row total (sorted selected_years !!! i)
                                        year)
                 (tail (sorted selected_years))).
Proof.
  intros total. unfold YtdDashboard.growth_data.
  set (ytd := YtdDashboard.ytd_data _ _ _ _).
  set (pure_entry := λ iy : nat * Z,
         if bool_decide (0 < iy.1)%nat
         then [expected_growth_row total
                 (sorted selected_years !!! (iy.1 - 1)%nat) iy.2]
         else []).
  rewrite (mapM_py_Return _ pure_entry).
  - unfold mbind, py_bind, mret, py_ret. f_equal.
    unfold enumerate. rewrite fmap_imap.
    destruct (sorted selected_years) as [|x0 rest] eqn:Hs; [done|].
    rewrite imap_cons. cbn [concat tail].
    rewrite <- (concat_imap_singleton rest
                  (λ i year,
                     expected_growth_row total ((x0 :: rest) !!! i) year)).
    assert (Hhead : pure_entry (0%nat, x0) = []) by done.
    unfold compose at 1. rewrite Hhead. cbn [app]. f_equal.
    apply imap_ext. intros i x _. unfold pure_entry. cbn.
    by rewrite Nat.sub_0_r.
  - intros [i year] Hin. unfold enumerate in Hin.
    apply elem_of_lookup_imap in Hin as (i' & y' & [= <- <-] & Hlook).
    unfold YtdDashboard.growth_entry, pure_entry. cbn [fst snd].
    case_bool_decide as Hi; [|done].
    assert (Hprev : is_Some (sorted selected_years !! (i - 1)%nat)).
    { apply lookup_lt_is_Some. apply lookup_lt_Some in Hlook. lia. }
    destruct Hprev as [prev_year Hprev].
    unfold getindex. rewrite Hprev.
    rewrite (list_lookup_total_correct _ _ _ Hprev).
    unfold mbind at 1, py_bind at 1.
    unfold getitem, ytd. rewrite !ytd_data_lookup.
    rewrite !decide_True
      by (apply elem_of_sorted; by eapply list_elem_of_lookup_2).
    unfold mbind at 1 2, py_bind at 1 2.
    fold (total year) (total prev_year).
    rewrite growth_total. done.
Qed.



(** ** Chunked aggregation in [ytd_preprocessor.py] (C2, C5) *)

Lemma NoDup_unique `{EqDecision A} (l : list A) : NoDup (unique l).
Proof.
  unfold unique. rewrite reverse_Permutation. apply NoDup_remove_dups.
Qed.

Lemma elem_of_unique `{EqDecision A} (l : list A) (x : A) :
  x ∈ unique l ↔ x ∈ l.
Proof.
  unfold unique. by rewrite elem_of_reverse, elem_of_remove_dups,
    elem_of_reverse.
Qed.

(** A loop over distinct keys whose body sets [d[k]] from the previous
    value of [d[k]] (or from [init] when the key is new). *)
Lemma for_each_bump `{Countable K} {V} (body : gmap K V → K → py (gmap K V))
    (init : V) (upd : V → K → V) (ks : list K) :
  (∀ m k, body m k = Return (<[k := upd (default init (m !! k)) k]> m)) →
  NoDup ks →
  ∀ m, ∃ m',
    for_each body m ks = Return m'
    ∧ ∀ k, m' !! k = if decide (k ∈ ks)
                     then Some (upd (default init (m !! k)) k)
                     else m !! k.
Proof.
  intros Hbody. induction ks as [|k0 ks IH]; intros Hnd m.
  - exists m. split; [done|]. intros k.
    case_decide as Hk; [by apply elem_of_nil in Hk|done].
  - apply NoDup_cons in Hnd as [Hk0 Hnd].
    destruct (IH Hnd (<[k0 := upd (default init (m !! k0)) k0]> m))
      as (m' & Hrun & Hlook).
    exists m'. split.
    + cbn [for_each]. rewrite Hbody. exact Hrun.
    + intros k. rewrite Hlook.
      destruct (decide (k = k0)) as [->|Hne].
      * rewrite decide_False by done. rewrite decide_True by left.
        by rewrite lookup_insert_eq.
      * rewrite lookup_insert_ne by done.
        destruct (decide (k ∈ ks)) as [Hin|Hnin].
        -- by rewrite decide_True by (by right).
        -- by rewrite decide_False by (rewrite elem_of_cons; tauto).
Qed.

(** The body of the monthly breakdown never raises. *)
Lemma month_step_bump (yytd : list YtdPreprocessor.ChunkRow)
    (bm : gmap Z Z) (m : Z) :
  YtdPreprocessor.month_step yytd bm m =
    Return (<[m := default 0 (bm !! m)
                   + len (filter (λ c, YtdPreprocessor.month c = Some m)
                            yytd)]> bm).
Proof.
  unfold YtdPreprocessor.month_step, getitem.
  case_bool_decide as Hm.
  - rewrite lookup_insert_eq, Hm. cbn. by rewrite insert_insert_eq.
  - destruct (bm !! m); [done|congruence].
Qed.

(** The body of the regional breakdown never raises. *)
Lemma region_step_bump (yytd : list YtdPreprocessor.ChunkRow)
    (br : gmap string YtdPreprocessor.Region.stats) (g : string) :
  let region_data :=
    filter (λ c, YtdPreprocessor.region c = Some g) yytd in
  YtdPreprocessor.region_step yytd br g =
    Return (<[g := (λ s, YtdPreprocessor.Region.mk
                      (YtdPreprocessor.Region.total s + len region_data)
                      (YtdPreprocessor.Region.registered s
                       + len (filter (λ c, YtdPreprocessor.is_registered c)
                                region_data)))
                   (default (YtdPreprocessor.Region.mk 0 0) (br !! g))]> br).
Proof.
  unfold YtdPreprocessor.region_step, getitem.
  case_bool_decide as Hg.
  - rewrite Hg. repeat (rewrite lookup_insert_eq; cbn).
    by rewrite !insert_insert_eq.
  - destruct (br !! g) as [s|]; [|congruence].
    cbn. repeat (rewrite lookup_insert_eq; cbn).
    by rewrite insert_insert_eq.
Qed.

Lemma len_app {A} (l1 l2 : list A) : len (l1 ++ l2) = len l1 + len l2.
Proof. unfold len. rewrite length_app. lia. Qed.

Lemma len_zero {A} (l : list A) : len l = 0 ↔ l = [].
Proof.
  unfold len. destruct l; cbn [length]; split; intros; try done; lia.
Qed.

Lemma len_nonneg {A} (l : list A) : 0 ≤ len l.
Proof. unfold len. lia. Qed.

(** A key occurs in a column exactly when its group has rows. *)
Lemma elem_of_omap_filter `{EqDecision K} {A} (f : A → option K)
    (l : list A) (k : K) :
  k ∈ omap f l ↔ filter (λ c, f c = Some k) l ≠ [].
Proof.
  rewrite list_elem_of_omap. split.
  - intros (c & Hc & Hf) Hnil.
    assert (c ∈ filter (λ c, f c = Some k) l)
      by (by apply list_elem_of_filter).
    rewrite Hnil in *. by eapply elem_of_nil.
  - intros Hne. destruct (filter _ l) as [|c rest] eqn:Hfl; [done|].
    assert (Hc : c ∈ filter (λ c, f c = Some k) l)
      by (rewrite Hfl; left).
    apply list_elem_of_filter in Hc as [? ?]. eauto.
Qed.

Section PreprocessorInvariant.
Import YtdPreprocessor YtdPreprocessorSpec.

Lemma month_count_default (l : list ChunkRow) (m : Z) :
  default 0 (month_count l m) = len (filter (λ c, month c = Some m) l).
Proof. unfold month_count. cbv zeta. by case_decide. Qed.

(** The monthly breakdown after one more selection of rows. *)
Lemma monthly_breakdown_app (bm : gmap Z Z) (l yytd : list ChunkRow) :
  (∀ m, bm !! m = month_count l m) →
  ∃ bm',
    for_each (month_step yytd) bm (unique (omap month yytd)) = Return bm'
    ∧ ∀ m, bm' !! m = month_count (l ++ yytd) m.
Proof.
  intros Hbm.
  destruct (for_each_bump (month_step yytd) 0
              (λ n m, n + len (filter (λ c, month c = Some m) yytd))
              (unique (omap month yytd))
              (month_step_bump yytd) (NoDup_unique _) bm)
    as (bm' & Hrun & Hlook).
  exists bm'. split; [done|]. intros m.
  rewrite Hlook, Hbm, month_count_default.
  unfold month_count. cbv zeta. rewrite filter_app, len_app.
  pose proof (len_nonneg (filter (λ c, month c = Some m) l)).
  pose proof (len_nonneg (filter (λ c, month c = Some m) yytd)).
  case_decide as Hin.
  - apply elem_of_unique, elem_of_omap_filter in Hin.
    rewrite <- len_zero in Hin. by rewrite decide_False by lia.
  - rewrite elem_of_unique, elem_of_omap_filter in Hin.
    assert (Hz : len (filter (λ c, month c = Some m) yytd) = 0).
    { apply len_zero. by destruct (filter _ yytd); [|exfalso; apply Hin]. }
    rewrite Hz, Z.add_0_r. done.
Qed.

(** The regional breakdown after one more selection of rows. *)
Lemma regional_breakdown_app (br : gmap string Region.stats)
    (l yytd : list ChunkRow) :
  (∀ g, br !! g = region_count l g) →
  ∃ br',
    for_each (region_step yytd) br (unique (omap region yytd)) = Return br'
    ∧ ∀ g, br' !! g = region_count (l ++ yytd) g.
Proof.
  intros Hbr.
  destruct (for_each_bump (region_step yytd) (Region.mk 0 0)
              (λ s g,
                 Region.mk
                   (Region.total s
                    + len (filter (λ c, region c = Some g) yytd))
                   (Region.registered s
                    + len (filter (λ c, is_registered c)
                             (filter (λ c, region c = Some g) yytd))))
              (unique (omap region yytd))
              (region_step_bump yytd) (NoDup_unique _) br)
    as (br' & Hrun & Hlook).
  exists br'. split; [done|]. intros g.
  rewrite Hlook, Hbr.
  unfold region_count. cbv zeta. rewrite !filter_app, !len_app.
  pose proof (len_nonneg (filter (λ c, region c = Some g) l)).
  pose proof (len_nonneg (filter (λ c, region c = Some g) yytd)).
  case_decide as Hin.
  - apply elem_of_unique, elem_of_omap_filter in Hin.
    rewrite <- len_zero in Hin. rewrite (decide_False (P := _ + _ = 0)) by lia.
    case_decide as Hl; cbn; [|done].
    apply len_zero in Hl. rewrite Hl. done.
  - rewrite elem_of_unique, elem_of_omap_filter in Hin.
    assert (Hz : filter (λ c, region c = Some g) yytd = []).
    { by destruct (filter _ yytd); [|exfalso; apply Hin]. }
    rewrite Hz. cbn [filter list_filter len length Z.of_nat].
    rewrite !Z.add_0_r. done.
Qed.

End PreprocessorInvariant.

Section PreprocessorYear.
Import YtdPreprocessor YtdPreprocessorSpec.

(** A year without an entry is treated as the all-zero entry. *)
Lemma stats_nums_default (o : option YearStats) (l : list ChunkRow) :
  stats_ok o l → stats_nums (default (mkYearStats 0 0 0 ∅ ∅) o) l.
Proof.
  destruct o as [ys|]; cbn; [by intros [_ ?]|]. intros ->.
  repeat split; intros; by rewrite lookup_empty.
Qed.

(** One iteration of the loop over the years of a chunk returns, and adds
    the selected rows of that year to what the state accounts for. *)
Lemma process_year_ok (R : Z) (chunk : list ChunkRow) (st : State)
    (S : Z → list ChunkRow) (y : Z) :
  state_ok st S →
  ∃ st',
    process_year R chunk st y = Return st'
    ∧ state_ok st' (λ y', if decide (y' = y)
                          then S y' ++ year_ytd chunk y R else S y').
Proof.
  intros (Hsync & Hdf & Hstats). unfold process_year.
  set (yytd := year_ytd chunk y R).
  destruct (0 <? len yytd) eqn:Hlen.
  - apply Z.ltb_lt in Hlen.
    assert (Hne : yytd ≠ []) by (intros Hnil; rewrite Hnil in Hlen; done).
    pose proof (stats_nums_default _ _ (Hstats y))
      as (Htot & Helig & Hreg & Hbm & Hbr).
    set (frames := default [] (ytd_data st !! y)).
    set (ys := default (mkYearStats 0 0 0 ∅ ∅) (summary_stats st !! y)) in *.
    destruct (monthly_breakdown_app (by_month ys) (S y) yytd Hbm)
      as (bm' & Hbmrun & Hbm').
    destruct (regional_breakdown_app (by_region ys) (S y) yytd Hbr)
      as (br' & Hbrrun & Hbr').
    set (new := {| total_customers := total_customers ys + len yytd;
                   eligible := eligible ys
                     + len (filter (λ c, inet_eligible c = "Y") yytd);
                   registered := registered ys
                     + len (filter (λ c, is_registered c) yytd);
                   by_month := bm';
                   by_region := br' |}).
    exists {| ytd_data := <[y := frames ++ [yytd]]> (ytd_data st);
              summary_stats := <[y := new]> (summary_stats st) |}.
    split.
    + case_bool_decide as Hnew.
      * assert (Hnone : summary_stats st !! y = None) by by apply Hsync.
        cbn [ytd_data summary_stats]. unfold getitem.
        rewrite !lookup_insert_eq. cbn.
        subst ys frames new. rewrite Hnone, Hnew in *. cbn in *.
        rewrite Hbmrun. cbn. rewrite Hbrrun. cbn.
        by rewrite !insert_insert_eq.
      * destruct (ytd_data st !! y) as [fr|] eqn:Hfr; [|done].
        destruct (summary_stats st !! y) as [ys0|] eqn:Hys;
          [|by apply Hsync in Hys; congruence].
        unfold getitem. rewrite Hfr, Hys. cbn.
        subst ys frames new. cbn in *.
        rewrite Hbmrun. cbn. rewrite Hbrrun. done.
    + split; [|split]; intros y'; cbn [ytd_data summary_stats].
      * destruct (decide (y' = y)) as [->|Hny].
        -- rewrite !lookup_insert_eq. done.
        -- rewrite !lookup_insert_ne by done. apply Hsync.
      * unfold year_df. cbn [ytd_data].
        destruct (decide (y' = y)) as [->|Hny].
        -- rewrite lookup_insert_eq.
           change (concat (frames ++ [yytd]) = S y ++ yytd).
           rewrite concat_app. cbn [concat]. rewrite app_nil_r.
           f_equal. apply Hdf.
        -- rewrite lookup_insert_ne by done. apply Hdf.
      * destruct (decide (y' = y)) as [->|Hny].
        -- rewrite lookup_insert_eq. split.
           ++ intros Happ. apply app_eq_nil in Happ as [_ ?]. done.
           ++ subst new. unfold stats_nums.
              cbn [total_customers eligible registered by_month by_region].
              rewrite !filter_app, !len_app, Htot, Helig, Hreg. done.
        -- rewrite lookup_insert_ne by done. apply Hstats.
  - apply Z.ltb_ge in Hlen.
    assert (Hnil : yytd = []).
    { apply len_zero. pose proof (len_nonneg yytd). lia. }
    exists st. split; [done|].
    split; [done|]. split; intros y'.
    + case_decide; [rewrite Hnil, app_nil_r|]; apply Hdf.
    + case_decide; [rewrite Hnil, app_nil_r|]; apply Hstats.
Qed.

End PreprocessorYear.

Section PreprocessorChunks.
Import YtdPreprocessor YtdPreprocessorSpec.

Lemma state_ok_ext (st : State) (S S' : Z → list ChunkRow) :
  (∀ y, S y = S' y) → state_ok st S → state_ok st S'.
Proof.
  intros Heq (Hsync & Hdf & Hstats).
  split; [done|]. split; intros y; rewrite <- Heq; auto.
Qed.

(** The loop over the distinct years of a chunk. *)
Lemma process_years_ok (R : Z) (chunk : list ChunkRow) (years : list Z) :
  NoDup years →
  ∀ (st : State) (S : Z → list ChunkRow),
    state_ok st S →
    ∃ st',
      for_each (process_year R chunk) st years = Return st'
      ∧ state_ok st' (λ y, if decide (y ∈ years)
                           then S y ++ year_ytd chunk y R else S y).
Proof.
  induction years as [|y0 years IH]; intros Hnd st S Hok.
  - exists st. split; [done|].
    eapply state_ok_ext; [|exact Hok]. intros y.
    case_decide as Hy; [by apply elem_of_nil in Hy|done].
  - apply NoDup_cons in Hnd as [Hy0 Hnd].
    destruct (process_year_ok R chunk st S y0 Hok) as (st1 & Hrun1 & Hok1).
    destruct (IH Hnd st1 _ Hok1) as (st' & Hrun & Hok').
    exists st'. split.
    + cbn [for_each]. rewrite Hrun1. exact Hrun.
    + eapply state_ok_ext; [|exact Hok']. intros y. cbn beta.
      destruct (decide (y = y0)) as [->|Hne].
      * rewrite decide_False by done. by rewrite decide_True by left.
      * destruct (decide (y ∈ years)) as [Hin|Hnin].
        -- by rewrite decide_True by (by right).
        -- by rewrite decide_False by (rewrite elem_of_cons; tauto).
Qed.

(** The body of the chunk loop: the state accounts for the rows of the
    chunks read so far, whatever the boundaries between them. *)
Lemma process_chunk_ok (R : Z) (st : State) (seen : list ChunkRow)
    (chunk : list Row) :
  state_ok st (λ y, year_ytd seen y R) →
  ∃ st',
    process_chunk R st chunk = Return st'
    ∧ state_ok st' (λ y, year_ytd (seen ++ (convert_row <$> chunk)) y R).
Proof.
  intros Hok. unfold process_chunk.
  destruct (process_years_ok R (convert_row <$> chunk)
              (unique (omap year (convert_row <$> chunk)))
              (NoDup_unique _) st _ Hok) as (st' & Hrun & Hok').
  exists st'. split; [done|].
  eapply state_ok_ext; [|exact Hok']. intros y. cbn beta.
  assert (Happ : year_ytd (seen ++ (convert_row <$> chunk)) y R
                 = year_ytd seen y R ++ year_ytd (convert_row <$> chunk) y R)
    by apply filter_app.
  rewrite Happ. clear Happ.
  case_decide as Hin; [done|].
  enough (Hnil : year_ytd (convert_row <$> chunk) y R = [])
    by (by rewrite Hnil, app_nil_r).
  rewrite elem_of_unique, elem_of_omap_filter in Hin.
  destruct (year_ytd (convert_row <$> chunk) y R) as [|c rest] eqn:Hf;
    [done|].
  exfalso. apply Hin.
  assert (Hc : c ∈ c :: rest) by left.
  rewrite <- Hf in Hc. unfold year_ytd in Hc.
  apply list_elem_of_filter in Hc as [Hc Hcin].
  apply andb_True in Hc as [Hy _]. apply bool_decide_spec in Hy.
  intros Hnil.
  assert (c ∈ filter (λ c, year c = Some y) (convert_row <$> chunk))
    by (by apply list_elem_of_filter).
  rewrite Hnil in *. by eapply elem_of_nil.
Qed.

(** The chunk loop from any state that accounts for the rows seen. *)
Lemma chunk_loop_ok (R : Z) (chunks : list (list Row)) :
  ∀ (st : State) (seen : list ChunkRow),
    state_ok st (λ y, year_ytd seen y R) →
    ∃ st',
      for_each (process_chunk R) st chunks = Return st'
      ∧ state_ok st'
          (λ y, year_ytd (seen ++ (convert_row <$> concat chunks)) y R).
Proof.
  induction chunks as [|chunk chunks IH]; intros st seen Hok.
  - exists st. split; [done|]. cbn. by rewrite app_nil_r.
  - destruct (process_chunk_ok R st seen chunk Hok) as (st1 & Hrun1 & Hok1).
    destruct (IH st1 _ Hok1) as (st' & Hrun & Hok').
    exists st'. split.
    + cbn [for_each]. rewrite Hrun1. exact Hrun.
    + cbn [concat]. rewrite fmap_app, app_assoc. exact Hok'.
Qed.

(** [create_ytd_optimized_file] returns, and its state accounts for all the
    rows of the file, whatever the chunks. *)
Lemma create_ytd_optimized_file_ok (chunks : list (list Row)) (R : Z) :
  ∃ st,
    create_ytd_optimized_file chunks R = Return st
    ∧ state_ok st (λ y, year_ytd (convert_row <$> concat chunks) y R).
Proof.
  unfold create_ytd_optimized_file.
  apply (chunk_loop_ok R chunks (mkState ∅ ∅) []).
  split; [|split]; intros y; cbn; by rewrite ?lookup_empty.
Qed.

(** Two entries that account for the same rows are equal. *)
Lemma stats_ok_unique (o1 o2 : option YearStats) (l : list ChunkRow) :
  stats_ok o1 l → stats_ok o2 l → o1 = o2.
Proof.
  destruct o1 as [[t1 e1 r1 bm1 br1]|], o2 as [[t2 e2 r2 bm2 br2]|]; cbn;
    try done; try (by intros [? ?] ?); try (by intros ? [? ?]).
  intros [_ (H1 & H2 & H3 & H4 & H5)] [_ (G1 & G2 & G3 & G4 & G5)].
  cbn in *. f_equal. f_equal; try congruence.
  - apply map_eq. intros m. by rewrite H4, G4.
  - apply map_eq. intros g. by rewrite H5, G5.
Qed.

Lemma state_ok_unique (st1 st2 : State) (S : Z → list ChunkRow) :
  state_ok st1 S → state_ok st2 S →
  summary_stats st1 = summary_stats st2
  ∧ ∀ y, year_df st1 y = year_df st2 y.
Proof.
  intros (_ & Hdf1 & Hs1) (_ & Hdf2 & Hs2). split.
  - apply map_eq. intros y. by eapply stats_ok_unique.
  - intros y. by rewrite Hdf1, Hdf2.
Qed.

End PreprocessorChunks.

(** ** Two-stage aggregation in [large_file_notebook.py] (C2) *)

Lemma filter_eq_NoDup `{EqDecision K} (ks : list K) (k : K) :
  NoDup ks →
  filter (λ k', k' = k) ks = if decide (k ∈ ks) then [k] else [].
Proof.
  induction ks as [|k0 ks IH]; intros Hnd.
  - case_decide as Hk; [by apply elem_of_nil in Hk|done].
  - apply NoDup_cons in Hnd as [Hk0 Hnd].
    destruct (decide (k0 = k)) as [->|Hne].
    + rewrite filter_cons_True by done. rewrite IH by done.
      rewrite decide_False by done. by rewrite decide_True by left.
    + rewrite filter_cons_False by done. rewrite IH by done.
      destruct (decide (k ∈ ks)) as [Hin|Hnin].
      * by rewrite decide_True by (by right).
      * rewrite decide_False; [done|]. rewrite elem_of_cons.
        intros [?|?]; congruence.
Qed.

(** The rows of a grouped and aggregated table that carry a given key. *)
Lemma filter_groupby `{EqDecision K} {V W} (keyf : V → option K)
    (h : K → list V → W) (wkey : W → K) (rows : list V) (k : K) :
  (∀ k' l, wkey (h k' l) = k') →
  filter (λ w, wkey w = k) ((λ g, h g.1 g.2) <$> groupby keyf rows)
  = if decide (k ∈ omap keyf rows)
    then [h k (filter (λ r, keyf r = Some k) rows)] else [].
Proof.
  intros Hkey. unfold groupby. rewrite <- list_fmap_compose.
  rewrite (filter_fmap_iff _ _ (λ k', k' = k)) by (intros k'; cbn; by rewrite Hkey).
  rewrite filter_eq_NoDup by apply NoDup_unique.
  destruct (decide (k ∈ unique (omap keyf rows))) as [Hin|Hnin].
  - rewrite decide_True by (by apply elem_of_unique). done.
  - rewrite decide_False by (by rewrite <- elem_of_unique). done.
Qed.

Lemma filter_concat {A} (P : A → Prop) `{!∀ x, Decision (P x)}
    (ls : list (list A)) :
  filter P (concat ls) = concat (filter P <$> ls).
Proof.
  induction ls as [|l ls IH]; [done|].
  cbn [concat fmap list_fmap]. by rewrite filter_app, IH.
Qed.

Lemma sum_q_app (l1 l2 : list (option Q)) :
  (sum_q (l1 ++ l2) == sum_q l1 + sum_q l2)%Q.
Proof.
  unfold sum_q. rewrite omap_app.
  induction (omap id l1) as [|x l IH]; cbn [app foldr].
  - by rewrite Qplus_0_l.
  - by rewrite IH, Qplus_assoc.
Qed.

Section NotebookSummary.
Import LargeFileNotebook LargeFileNotebookSpec.

Variable k : string * (Z * Z).

(** What one chunk contributes to the rows of the group [k]. *)
Let contribution (chunk : list Row) : list Summary :=
  if decide (k ∈ omap group_key chunk)
  then [agg k (group_rows k chunk)] else [].

Lemma summary_rows_of_key (chunks : list (list Row)) :
  filter (λ s, key s = k) (concat (chunk_summary <$> chunks))
  = concat (contribution <$> chunks).
Proof.
  rewrite filter_concat, <- list_fmap_compose. f_equal.
  apply list_fmap_ext. intros _ chunk _. cbn.
  unfold chunk_summary. by rewrite (filter_groupby group_key agg key).
Qed.

Lemma group_rows_app (a b : list Row) :
  group_rows k (a ++ b) = group_rows k a ++ group_rows k b.
Proof. apply filter_app. Qed.

Lemma contribution_nil (chunk : list Row) :
  contribution chunk = [] → group_rows k chunk = [].
Proof.
  unfold contribution. case_decide as Hin; [done|]. intros _.
  rewrite elem_of_omap_filter in Hin.
  by destruct (filter _ chunk) eqn:Hf; [|exfalso; apply Hin].
Qed.

(** A column of counts: the second-stage sum is the count on the whole
    file. *)
Lemma two_stage_sum (col : Summary → Z) (μ : list Row → Z)
    (chunks : list (list Row)) :
  μ [] = 0 → (∀ a b, μ (a ++ b) = μ a + μ b) →
  (∀ l, col (agg k l) = μ l) →
  foldr Z.add 0 (col <$> concat (contribution <$> chunks))
  = μ (group_rows k (concat chunks)).
Proof.
  intros Hnil Happ Hcol. induction chunks as [|chunk chunks IH]; [done|].
  cbn [fmap list_fmap concat]. rewrite fmap_app, foldr_app, group_rows_app,
    Happ, <- IH.
  destruct (contribution chunk) as [|s rest] eqn:Hc.
  - apply contribution_nil in Hc. rewrite Hc, Hnil. cbn. lia.
  - unfold contribution in Hc. case_decide; [|done].
    injection Hc as <- <-. cbn. rewrite Hcol.
    generalize (foldr Z.add 0 (col <$> concat (contribution <$> chunks))).
    intros z. lia.
Qed.

(** The column of balance sums, in exact arithmetic. *)
Lemma two_stage_sum_q (chunks : list (list Row)) :
  (sum_q (Some ∘ BALANCE_sum <$> concat (contribution <$> chunks))
   == sum_q (CUSTOMER_MTD_AVERAGE_ALL_ACTIVE_ELIGIBLE
              <$> group_rows k (concat chunks)))%Q.
Proof.
  induction chunks as [|chunk chunks IH]; [done|].
  cbn [fmap list_fmap concat].
  rewrite !fmap_app, group_rows_app, fmap_app, !sum_q_app, IH.
  apply Qplus_inj_r.
  destruct (contribution chunk) as [|s rest] eqn:Hc.
  - apply contribution_nil in Hc. by rewrite Hc.
  - unfold contribution in Hc. case_decide; [|done].
    injection Hc as <- <-. cbn. unfold sum_q at 1. cbn.
    by rewrite Qplus_0_r.
Qed.

Lemma contributions_nil (chunks : list (list Row)) :
  concat (contribution <$> chunks) = []
  ↔ group_rows k (concat chunks) = [].
Proof.
  induction chunks as [|chunk chunks IH]; [done|].
  cbn [fmap list_fmap concat]. rewrite group_rows_app.
  split; intros [H1 H2]%app_eq_nil.
  - apply contribution_nil in H1. apply IH in H2. by rewrite H1, H2.
  - apply IH in H2. rewrite H2, app_nil_r.
    unfold contribution. case_decide as Hin; [|done].
    apply elem_of_omap_filter in Hin. by unfold group_rows in H1.
Qed.

(** The row of [final_summary] for the group [k] holds the counts and the
    sums of the rows of that group in the whole file. *)
Lemma final_summary_sums (chunks : list (list Row)) :
  sums_ok (final_row k (final_summary chunks))
          (group_rows k (concat chunks)).
Proof.
  unfold final_row, final_summary. cbv zeta.
  rewrite (filter_groupby (Some ∘ key) agg_final final_key) by done.
  assert (Hrows : filter (λ r, (Some ∘ key) r = Some k)
                    (concat (chunk_summary <$> chunks))
                  = concat (contribution <$> chunks)).
  { rewrite <- summary_rows_of_key. apply list_filter_iff.
    intros s. cbn. split; [by intros [= ?]|by intros ->]. }
  rewrite Hrows.
  case_decide as Hin.
  - cbn [head sums_ok].
    apply elem_of_omap_filter in Hin. rewrite Hrows in Hin.
    split; [by rewrite <- contributions_nil|].
    cbn [agg_final total_customers inet_eligible registered total_balance].
    split; [|split; [|split]].
    + apply (two_stage_sum CUSTOMER_NO_count
               (λ l, count_notna (CUSTOMER_NO <$> l))); [done| |done].
      intros a b. unfold count_notna.
      rewrite fmap_app, omap_app, length_app. lia.
    + apply (two_stage_sum INET_ELIGIBLE_lambda
               (λ l, len (filter (λ r, INET_ELIGIBLE r = "Y") l)));
        [done| |done].
      intros a b. by rewrite filter_app, len_app.
    + apply (two_stage_sum is_registered_sum
               (λ l, len (filter (λ r, is_registered r) l))); [done| |done].
      intros a b. by rewrite filter_app, len_app.
    + apply two_stage_sum_q.
  - cbn [head sums_ok]. apply contributions_nil.
    rewrite elem_of_omap_filter, Hrows in Hin.
    destruct (concat (contribution <$> chunks)); [done|].
    exfalso. by apply Hin.
Qed.

End NotebookSummary.

Lemma sums_ok_same (o1 o2 : option LargeFileNotebook.Final)
    (l : list LargeFileNotebook.Row) :
  LargeFileNotebookSpec.sums_ok o1 l → LargeFileNotebookSpec.sums_ok o2 l →
  LargeFileNotebookSpec.same_sums o1 o2.
Proof.
  destruct o1 as [f|], o2 as [g|]; cbn; try done;
    try (by intros [? ?] ?); try (by intros ? [? ?]).
  intros (_ & H1 & H2 & H3 & H4) (_ & G1 & G2 & G3 & G4).
  repeat split; try congruence. by rewrite H4, G4.
Qed.

(** C2, as stated, fails for the means of [large_file_notebook.py]: the
    final [avg_age] is the mean of the per-chunk means.  Three customers of
    one group aged 10, 20 and 30 give 17.5 when the first chunk holds one
    of them and the second two, and 20 when they are read at once. *)
Lemma C2_mean_of_means_counterexample :
  let r a := LargeFileNotebook.mkRow (Some a) (Some "North") "Y"
               (DateText (Timestamp 2024 1 4)) Blank (Some a) None in
  let k := ("North", (2024, 1)) in
  LargeFileNotebook.avg_age
    <$> LargeFileNotebook.final_row k
          (LargeFileNotebook.final_summary [[r 10]; [r 20; r 30]])
  = Some (Some (70 # 4))
  ∧ LargeFileNotebook.avg_age
      <$> LargeFileNotebook.final_row k
            (LargeFileNotebook.final_summary [[r 10; r 20; r 30]])
    = Some (Some (60 # 3))
  ∧ ¬ (70 # 4 == 60 # 3)%Q.
Proof. split; [|split]; by vm_compute. Qed.

(** C2, amended. Per-chunk partial aggregates keep group-keyed counts and
    sums and merge them by addition: for every partition of the records
    into chunks, [create_ytd_optimized_file] returns the same
    [summary_stats] (totals, eligible, registered, monthly and regional
    breakdowns) and the same saved rows as on the whole file at once, and
    the rows of [final_summary] of the notebook hold the same counts and
    sums as on the whole file at once, namely those of the rows of the
    group. *)
Theorem C2_counts_and_sums_merge_exactly (chunks : list (list Row))
    (reference_doy : Z) (nb_chunks : list (list LargeFileNotebook.Row))
    (k : string * (Z * Z)) :
  (∃ st whole,
     YtdPreprocessor.create_ytd_optimized_file chunks reference_doy
       = Return st
     ∧ YtdPreprocessor.create_ytd_optimized_file [concat chunks]
         reference_doy = Return whole
     ∧ YtdPreprocessor.summary_stats st = YtdPreprocessor.summary_stats whole
     ∧ ∀ y, YtdPreprocessor.year_df st y = YtdPreprocessor.year_df whole y)
  ∧ LargeFileNotebookSpec.same_sums
      (LargeFileNotebook.final_row k
         (LargeFileNotebook.final_summary nb_chunks))
      (LargeFileNotebook.final_row k
         (LargeFileNotebook.final_summary [concat nb_chunks]))
  ∧ LargeFileNotebookSpec.sums_ok
      (LargeFileNotebook.final_row k
         (LargeFileNotebook.final_summary nb_chunks))
      (LargeFileNotebookSpec.group_rows k (concat nb_chunks)).
Proof.
  split; [|split].
  - destruct (create_ytd_optimized_file_ok chunks reference_doy)
      as (st & Hst & Hok).
    destruct (create_ytd_optimized_file_ok [concat chunks] reference_doy)
      as (whole & Hwhole & Hok').
    exists st, whole. split; [done|]. split; [done|].
    cbn [concat] in Hok'. rewrite app_nil_r in Hok'.
    by eapply state_ok_unique.
  - eapply sums_ok_same; [apply final_summary_sums|].
    pose proof (final_summary_sums k [concat nb_chunks]) as H.
    cbn [concat] in H. by rewrite app_nil_r in H.
  - apply final_summary_sums.
Qed.

(** ** The year-to-date view (C5) *)

Lemma len_fmap {A B} (f : A → B) (l : list A) : len (f <$> l) = len l.
Proof. unfold len. by rewrite length_fmap. Qed.

(** The selection of the preprocessor is the year-to-date condition of the
    specification on the input rows. *)
Lemma year_ytd_opened_within (y R : Z) (rows : list Row) :
  YtdPreprocessor.year_ytd (YtdPreprocessor.convert_row <$> rows) y R
  = YtdPreprocessor.convert_row <$> filter (opened_within y R) rows.
Proof.
  unfold YtdPreprocessor.year_ytd. apply filter_fmap_iff. intros r.
  unfold opened_within.
  cbn [YtdPreprocessor.convert_row YtdPreprocessor.year
       YtdPreprocessor.day_of_year].
  destruct (to_datetime (AC_OPEN_DATE r)) as [ts|]; cbn; [|tauto].
  pose proof (dt_dayofyear_range ts).
  rewrite andb_True, bool_decide_spec, Is_true_true, Z.leb_le.
  split; [intros [[= ?] ?]; lia | intros [-> ?]; split; [done|lia]].
Qed.



(** ** The comparison file of the preprocessor *)

(** The comparison file holds the year-over-year growth rounded to two
    decimal places; a previous total of zero writes no cell. *)
Lemma yoy_entry_value (stats : gmap Z YtdPreprocessor.YearStats)
    (years : list Z) (i : nat) (prev_year curr_year : Z)
    (ps cs : YtdPreprocessor.YearStats) :
  years !! (i - 1)%nat = Some prev_year →
  years !! i = Some curr_year →
  stats !! prev_year = Some ps →
  stats !! curr_year = Some cs →
  let prev := YtdPreprocessor.total_customers ps in
  let curr := YtdPreprocessor.total_customers cs in
  YtdPreprocessor.yoy_entry stats years i =
    Return (if 0 <? prev
            then Some (prev_year, curr_year,
                       np_round 2 (inject_Z (curr - prev) / inject_Z prev
                                   * 100)%Q)
            else None).
Proof.
  intros Hp Hc Hps Hcs prev curr.
  unfold YtdPreprocessor.yoy_entry, getindex, getitem.
  rewrite Hc, Hp. cbn. rewrite Hcs, Hps. cbn. fold prev curr.
  destruct (0 <? prev) eqn:Hpos; [|done].
  apply Z.ltb_lt in Hpos. by rewrite py_truediv_pos.
Qed.

(** The registration rate of a year is written only when the year has
    eligible customers. *)
Lemma registration_rate_value (ys : YtdPreprocessor.YearStats) :
  YtdPreprocessor.registration_rate ys =
    Return (if 0 <? YtdPreprocessor.eligible ys
            then Some (np_round 2
                         (inject_Z (YtdPreprocessor.registered ys)
                          / inject_Z (YtdPreprocessor.eligible ys) * 100)%Q)
            else None).
Proof.
  unfold YtdPreprocessor.registration_rate.
  destruct (0 <? _) eqn:Hpos; [|done].
  apply Z.ltb_lt in Hpos. by rewrite py_truediv_pos.
Qed.

(** Totals of 5000 and 6000 are written as a growth of 20. *)
Example yoy_entry_5000_6000 :
  YtdPreprocessor.yoy_entry
    (<[2024 := YtdPreprocessor.mkYearStats 6000 0 0 ∅ ∅]>
       (<[2023 := YtdPreprocessor.mkYearStats 5000 0 0 ∅ ∅]> ∅))
    [2023; 2024] 1
  = Return (Some (2023, 2024, 20%Q)).
Proof. by vm_compute. Qed.

(** ** The header metrics of the year-to-date dashboard *)

Lemma elem_of_sorted_reverse (l : list Z) (x : Z) :
  x ∈ sorted_reverse l ↔ x ∈ l.
Proof. unfold sorted_reverse. by rewrite merge_sort_Permutation. Qed.

Lemma length_sorted_reverse (l : list Z) :
  length (sorted_reverse l) = length l.
Proof.
  unfold sorted_reverse. apply Permutation_length, merge_sort_Permutation.
Qed.

(** One iteration of the header loop returns; its growth compares the total
    of the year with the total of the next older selected year, both taken
    from the same year-to-date dictionary. *)
Lemma header_metric_value (df : list YtdDashboard.Processed)
    (selected_years : list Z) (reference_doy : Z) (selected_region : string)
    (i : nat) (year : Z) :
  sorted_reverse selected_years !! i = Some year →
  let rows y :=
    YtdDashboard.year_data df y reference_doy selected_region in
  let rate x y :=
    if 0 <? y then (inject_Z x / inject_Z y * 100)%Q else 0%Q in
  YtdDashboard.header_metric
    (YtdDashboard.ytd_data df selected_years reference_doy selected_region)
    selected_years (i, year)
  = Return
      {| YtdDashboard.metric_year := year;
         YtdDashboard.year_total := len (rows year);
         YtdDashboard.delta :=
           (λ prev_year,
              (rate (len (rows year) - len (rows prev_year))
                    (len (rows prev_year)), prev_year))
             <$> sorted_reverse selected_years !! (i + 1)%nat;
         YtdDashboard.year_registered :=
           YtdDashboard.registered_count (rows year);
         YtdDashboard.year_reg_rate :=
           rate (YtdDashboard.registered_count (rows year))
                (YtdDashboard.eligible_count (rows year));
         YtdDashboard.year_eligible :=
           YtdDashboard.eligible_count (rows year) |}.
Proof.
  intros Hyear rows rate. unfold YtdDashboard.header_metric, getitem.
  rewrite ytd_data_lookup, decide_True
    by (apply elem_of_sorted_reverse; by eapply list_elem_of_lookup_2).
  cbn. fold (rows year). rewrite reg_rate_total.
  case_bool_decide as Hi.
  - assert (Hnext : is_Some (sorted_reverse selected_years !! (i + 1)%nat)).
    { apply lookup_lt_is_Some. rewrite length_sorted_reverse.
      unfold len in Hi. lia. }
    destruct Hnext as [prev_year Hnext].
    unfold getindex. rewrite Hnext. cbn.
    rewrite ytd_data_lookup, decide_True
      by (apply elem_of_sorted_reverse; by eapply list_elem_of_lookup_2).
    cbn. fold (rows prev_year). rewrite growth_total. done.
  - rewrite (lookup_ge_None_2 (sorted_reverse selected_years) (i + 1)).
    + done.
    + rewrite length_sorted_reverse. unfold len in Hi. lia.
Qed.

(** ** The activity ladders of the two dashboards *)

Lemma inet_activity_status_cases (d : Z) :
  InetEnhanced.activity_status (Some d) =
    if decide (d ≤ 7) then "Weekly Active"
    else if decide (d ≤ 14) then "Biweekly Active"
    else if decide (d ≤ 30) then "Monthly Active"
    else if decide (d ≤ 90) then "3 Months Active"
    else if decide (d ≤ 180) then "6 Months Active"
    else if decide (d ≤ 365) then "1 Year Active"
    else "More than 1 Year".
Proof.
  unfold InetEnhanced.activity_status, le_na, gt_na. cbn [np_select].
  repeat (case_decide; [rewrite (proj2 (Z.leb_le _ _)) by lia; reflexivity
                       | rewrite (proj2 (Z.leb_gt _ _)) by lia]).
  rewrite (proj2 (Z.ltb_lt _ _)) by lia. reflexivity.
Qed.

Lemma ytd_activity_status_cases (d : Z) :
  YtdDashboard.activity_status (Some d) =
    if decide (d ≤ 7) then "Weekly Active"
    else if decide (d ≤ 30) then "Monthly Active"
    else if decide (d ≤ 90) then "Quarterly Active"
    else "Inactive".
Proof.
  unfold YtdDashboard.activity_status, le_na, gt_na. cbn [np_select].
  repeat (case_decide; [rewrite (proj2 (Z.leb_le _ _)) by lia; reflexivity
                       | rewrite (proj2 (Z.leb_gt _ _)) by lia]).
  rewrite (proj2 (Z.ltb_lt _ _)) by lia. reflexivity.
Qed.

Lemma isin_triple (x a b c : string) :
  isin x [a; b; c] ↔ x = a ∨ x = b ∨ x = c.
Proof.
  unfold isin. rewrite bool_decide_spec, !elem_of_cons, elem_of_nil. tauto.
Qed.

Lemma inet_active_iff (current_date : Z) (r : Row) :
  isin (InetEnhanced.Activity_Status
          (InetEnhanced.preprocess_row current_date r))
       ["Weekly Active"; "Biweekly Active"; "Monthly Active"]
  ↔ transacted_within current_date 30 r.
Proof.
  unfold transacted_within. rewrite isin_triple.
  cbn [InetEnhanced.preprocess_row InetEnhanced.Activity_Status].
  destruct (to_datetime (LAST_TRX_DATE r)) as [trx|]; cbn [timedelta_days].
  - rewrite inet_activity_status_cases.
    repeat case_decide; (split; [intros [?|[?|?]] | intros ?]);
      first [lia | discriminate | tauto].
  - cbn. split; [intros [?|[?|?]]; discriminate | done].
Qed.

Lemma ytd_active_iff (current_date : Z) (r : Row) :
  isin (YtdDashboard.Activity_Status
          (YtdDashboard.process_row current_date r))
       ["Weekly Active"; "Monthly Active"]
  ↔ transacted_within current_date 30 r.
Proof.
  unfold transacted_within. rewrite isin_pair.
  cbn [YtdDashboard.process_row YtdDashboard.Activity_Status].
  destruct (to_datetime (LAST_TRX_DATE r)) as [trx|]; cbn [timedelta_days].
  - rewrite ytd_activity_status_cases.
    repeat case_decide; (split; [intros [?|?] | intros ?]);
      first [lia | discriminate | tauto].
  - cbn. split; [intros [?|?]; discriminate | done].
Qed.

(** X1. Both dashboards count as active exactly the customers whose last
    transaction is dated and at most 30 whole days old (a transaction dated
    in the future included), so their active counts agree on every file,
    although the labels of their activity ladders differ. *)
Theorem active_users_transacted_within_30_days (current_date : Z)
    (df : list Row) :
  InetEnhanced.active_users (InetEnhanced.preprocess_data current_date df)
  = len (filter (transacted_within current_date 30) df)
  ∧ YtdDashboard.active (YtdDashboard.process_for_ytd current_date df)
    = len (filter (transacted_within current_date 30) df)
  ∧ ∀ r, r ∈ df →
      (InetEnhanced.Activity_Status
         (InetEnhanced.preprocess_row current_date r) = "Unknown"
       ↔ to_datetime (LAST_TRX_DATE r) = None)
      ∧ (YtdDashboard.Activity_Status
           (YtdDashboard.process_row current_date r) = "Unknown"
         ↔ to_datetime (LAST_TRX_DATE r) = None).
Proof.
  split; [|split].
  - unfold InetEnhanced.active_users, InetEnhanced.preprocess_data.
    change (map ?f ?l) with (f <$> l).
    rewrite (filter_fmap_iff _ _ (transacted_within current_date 30)), len_fmap
      by apply inet_active_iff.
    done.
  - unfold YtdDashboard.active, YtdDashboard.process_for_ytd.
    change (map ?f ?l) with (f <$> l).
    rewrite (filter_fmap_iff _ _ (transacted_within current_date 30)), len_fmap
      by apply ytd_active_iff.
    done.
  - intros r _.
    cbn [InetEnhanced.preprocess_row InetEnhanced.Activity_Status
         YtdDashboard.process_row YtdDashboard.Activity_Status].
    destruct (to_datetime (LAST_TRX_DATE r)) as [trx|]; cbn [timedelta_days].
    + rewrite inet_activity_status_cases, ytd_activity_status_cases.
      split; (split; [|done]); repeat case_decide; discriminate.
    + done.
Qed.

(** ** The onboarding category of [inet_dashboard_enhanced.py] *)

(** X2. A row of the iNET dashboard has an onboarding category exactly when
    both dates parse and the registration is not older than the opening;
    the row is then 'Registered', its days to onboard are not negative, and
    the category is 'Within 1 week' exactly up to 7 days. *)
Theorem onboarding_time_category_defined (current_date : Z) (r : Row) :
  let p := InetEnhanced.preprocess_row current_date r in
  (is_Some (InetEnhanced.onboarding_time_category p)
   ↔ ∃ t o, to_datetime (MOBILE_APP_REGISTRATION_DATE r) = Some t
            ∧ to_datetime (AC_OPEN_DATE r) = Some o
            ∧ o ≤ t)
  ∧ ∀ c, InetEnhanced.onboarding_time_category p = Some c →
      InetEnhanced.iNET_Registration_status p = "Registered"
      ∧ ∃ d, InetEnhanced.days_to_onboard p = Some d
             ∧ 0 ≤ d
             ∧ (c = "Within 1 week" ↔ d ≤ 7)
             ∧ (c = "More than 6 months" ↔ 180 < d).
Proof.
  cbn zeta.
  cbn [InetEnhanced.preprocess_row InetEnhanced.onboarding_time_category
       InetEnhanced.iNET_Registration_status InetEnhanced.days_to_onboard].
  rewrite inet_status_cases.
  destruct (to_datetime (MOBILE_APP_REGISTRATION_DATE r)) as [t|],
           (to_datetime (AC_OPEN_DATE r)) as [o|]; cbn [timedelta_days].
  - destruct (t <? o) eqn:Hlt.
    + apply Z.ltb_lt in Hlt. split.
      * split; [by intros [? [=]] | intros (? & ? & [= <-] & [= <-] & ?); lia].
      * intros c [=].
    + apply Z.ltb_ge in Hlt.
      assert (Hd : 0 ≤ (t - o) / ns_per_day)
        by (apply Z.div_pos; [lia | reflexivity]).
      unfold InetEnhanced.categorize_onboarding_time.
      change (isin "Registered" ["Already Registered"; "Not Registered"])
        with false. cbn match.
      split.
      * split; [intros _; by exists t, o |].
        intros _. repeat (destruct (_ <=? _); [by eexists|]). by eexists.
      * intros c Hc. split; [done|]. eexists. split; [done|].
        split; [done|].
        revert Hc.
        repeat (match goal with
                | |- context [?x <=? ?y] => destruct (Z.leb_spec x y)
                end; cbv iota;
                [intros [= <-]; split; split; intros;
                 (discriminate || lia || done) |]).
        intros [= <-]. split; split; intros; (discriminate || lia || done).
  - split; [|intros c [=]].
    split; [by intros [? [=]] | intros (? & ? & _ & [=] & _)].
  - split; [|intros c [=]].
    split; [by intros [? [=]] | intros (? & ? & [=] & _)].
  - split; [|intros c [=]].
    split; [by intros [? [=]] | intros (? & ? & [=] & _)].
Qed.

(** ** The growth chart and the header of the year-to-date dashboard *)

Lemma Qmult_100_pos (a b : Z) :
  0 < b → (0 < inject_Z a / inject_Z b * 100)%Q ↔ 0 < a.
Proof.
  intros Hb. destruct b as [|b|b]; try lia.
  unfold Qlt, Qdiv, Qmult, Qinv, inject_Z. cbn. lia.
Qed.

Lemma length_sorted (l : list Z) : length (sorted l) = length l.
Proof. unfold sorted. apply Permutation_length, merge_sort_Permutation. Qed.

Lemma elem_of_imap {A B} (f : nat → A → B) (l : list A) (y : B) :
  y ∈ imap f l ↔ ∃ i x, l !! i = Some x ∧ y = f i x.
Proof.
  rewrite list_elem_of_lookup. split.
  - intros [i Hi]. rewrite list_lookup_imap in Hi.
    destruct (l !! i) as [x|] eqn:Hx; [|done]. injection Hi as <-.
    by exists i, x.
  - intros (i & x & Hx & ->). exists i. by rewrite list_lookup_imap, Hx.
Qed.

(** X3. The growth table is built without an exception for every selection
    of years; it has one row less than there are selected years, every
    row holds the difference of its two totals, and its bar is green exactly
    when the previous total is positive and below the current one (after a
    previous total of zero the bar is red at a growth of 0). *)
Theorem growth_chart_rows (df : list YtdDashboard.Processed)
    (selected_years : list Z) (reference_doy : Z) (selected_region : string) :
  ∃ rows,
    YtdDashboard.growth_data
      (YtdDashboard.ytd_data df selected_years reference_doy selected_region)
      selected_years = Return rows
    ∧ length rows = pred (length selected_years)
    ∧ ∀ row, row ∈ rows →
        YtdDashboard.Absolute_Growth row
          = YtdDashboard.Current row - YtdDashboard.Previous row
        ∧ 0 ≤ YtdDashboard.Previous row
        ∧ (YtdTabs.marker_color (YtdDashboard.Growth_Rate row) = "green"
           ↔ 0 < YtdDashboard.Previous row < YtdDashboard.Current row)
        ∧ (YtdDashboard.Previous row = 0 →
           YtdDashboard.Growth_Rate row = 0%Q).
Proof.
  eexists. split; [apply growth_data_rows|]. split.
  { rewrite length_imap. rewrite <- (length_sorted selected_years).
    by destruct (sorted selected_years). }
  intros row (i & year & _ & ->)%elem_of_imap.
  cbn [expected_growth_row YtdDashboard.Absolute_Growth YtdDashboard.Current
       YtdDashboard.Previous YtdDashboard.Growth_Rate].
  set (prev := len (YtdDashboard.year_data df (sorted selected_years !!! i)
                      reference_doy selected_region)).
  set (curr := len (YtdDashboard.year_data df year reference_doy
                      selected_region)).
  assert (0 ≤ prev) by apply len_nonneg.
  split; [done|]. split; [done|]. split.
  - unfold YtdTabs.marker_color.
    destruct (0 <? prev) eqn:Hpos.
    + apply Z.ltb_lt in Hpos.
      destruct (Qlt_le_dec _ _) as [Hg|Hg].
      * apply Qmult_100_pos in Hg; [|done]. split; [lia|done].
      * split; [discriminate|]. intros [_ Hlt].
        apply Qle_not_lt in Hg. destruct Hg.
        apply Qmult_100_pos; lia.
    + apply Z.ltb_ge in Hpos.
      destruct (Qlt_le_dec _ _) as [Hg|Hg]; [discriminate Hg|].
      split; [discriminate | lia].
  - intros ->. done.
Qed.

Lemma StronglySorted_lookup_lt {A} (R : relation A) (l : list A) :
  StronglySorted R l →
  ∀ (i j : nat) (x y : A),
    l !! i = Some x → l !! j = Some y → (i < j)%nat → R x y.
Proof.
  induction 1 as [|a l Hs IH Hall]; intros i j x y Hi Hj Hij; [done|].
  destruct j as [|j]; [lia|]. cbn in Hj. destruct i as [|i].
  - injection Hi as <-. rewrite Forall_forall in Hall.
    apply Hall. by eapply list_elem_of_lookup_2.
  - cbn in Hi. eapply IH; [exact Hi | exact Hj | lia].
Qed.

Lemma sorted_reverse_descending (l : list Z) (i j : nat) (x y : Z) :
  sorted_reverse l !! i = Some x → sorted_reverse l !! j = Some y →
  (i ≤ j)%nat → y ≤ x.
Proof.
  intros Hi Hj Hij.
  assert (Hs : StronglySorted Z.ge (sorted_reverse l)).
  { apply StronglySorted_merge_sort; [intros a b c; lia | intros a b; lia]. }
  destruct (decide (i = j)) as [->|Hne]; [naive_solver lia|].
  enough (x >= y)%Z by lia.
  eapply (StronglySorted_lookup_lt Z.ge); [done| exact Hi | exact Hj | lia].
Qed.

(** X4. The header loop returns for every selection of years: one metric
    per selected year, newest first; its total is the year-to-date count of
    the year; the growth is shown for every year but the oldest and
    compares with the next older selected year. *)
Theorem header_metrics_rows (df : list YtdDashboard.Processed)
    (selected_years : list Z) (reference_doy : Z) (selected_region : string) :
  ∃ metrics,
    YtdDashboard.header_metrics
      (YtdDashboard.ytd_data df selected_years reference_doy selected_region)
      selected_years = Return metrics
    ∧ YtdDashboard.metric_year <$> metrics = sorted_reverse selected_years
    ∧ ∀ i m, metrics !! i = Some m →
        YtdDashboard.year_total m
          = len (YtdDashboard.year_data df (YtdDashboard.metric_year m)
                   reference_doy selected_region)
        ∧ (YtdDashboard.delta m = None ↔ S i = length selected_years)
        ∧ ∀ g prev_year, YtdDashboard.delta m = Some (g, prev_year) →
            sorted_reverse selected_years !! S i = Some prev_year
            ∧ prev_year ≤ YtdDashboard.metric_year m.
Proof.
  set (rows y :=
    YtdDashboard.year_data df y reference_doy selected_region).
  set (rate (x y : Z) :=
    if 0 <? y then (inject_Z x / inject_Z y * 100)%Q else 0%Q).
  set (value (iy : nat * Z) :=
    {| YtdDashboard.metric_year := iy.2;
       YtdDashboard.year_total := len (rows iy.2);
       YtdDashboard.delta :=
         (λ prev_year,
            (rate (len (rows iy.2) - len (rows prev_year))
                  (len (rows prev_year)), prev_year))
           <$> sorted_reverse selected_years !! (iy.1 + 1)%nat;
       YtdDashboard.year_registered :=
         YtdDashboard.registered_count (rows iy.2);
       YtdDashboard.year_reg_rate :=
         rate (YtdDashboard.registered_count (rows iy.2))
              (YtdDashboard.eligible_count (rows iy.2));
       YtdDashboard.year_eligible :=
         YtdDashboard.eligible_count (rows iy.2) |}).
  exists (value <$> enumerate (sorted_reverse selected_years)).
  split; [|split].
  - unfold YtdDashboard.header_metrics. apply mapM_py_Return.
    intros [i year] (i' & y & Hy & [= -> ->])%elem_of_imap.
    by rewrite (header_metric_value _ _ _ _ _ _ Hy).
  - rewrite <- list_fmap_compose. unfold enumerate.
    rewrite fmap_imap. cbn.
    clear. generalize (sorted_reverse selected_years) as l.
    intros l. apply list_eq. intros i. rewrite list_lookup_imap.
    by destruct (l !! i).
  - intros i m Hm. rewrite list_lookup_fmap in Hm.
    unfold enumerate in Hm. rewrite list_lookup_imap in Hm.
    destruct (sorted_reverse selected_years !! i) as [year|] eqn:Hyear;
      [|done].
    injection Hm as <-. cbn [value YtdDashboard.year_total
      YtdDashboard.metric_year YtdDashboard.delta fst snd].
    split; [done|]. split.
    + rewrite fmap_None, lookup_ge_None, length_sorted_reverse.
      apply lookup_lt_Some in Hyear. rewrite length_sorted_reverse in Hyear.
      lia.
    + intros g prev_year Hd. apply fmap_Some in Hd as (py' & Hpy & [= _ <-]).
      replace (i + 1)%nat with (S i) in Hpy by lia. split; [done|].
      eapply sorted_reverse_descending; [exact Hyear | exact Hpy | lia].
Qed.

(** ** The year-to-date selection as a function of the reference day *)

Lemma sublist_filter_impl {A} (P Q : A → Prop) `{!∀ x, Decision (P x)}
    `{!∀ x, Decision (Q x)} (l : list A) :
  (∀ x, P x → Q x) → sublist (filter P l) (filter Q l).
Proof.
  intros HPQ. induction l as [|x l IH]; [constructor|].
  rewrite !filter_cons. destruct (decide (P x)) as [HP|HP].
  - rewrite decide_True by auto. by constructor.
  - destruct (decide (Q x)); [by constructor | done].
Qed.

Lemma sublist_filter_mono {A} (P : A → Prop) `{!∀ x, Decision (P x)}
    (l1 l2 : list A) :
  sublist l1 l2 → sublist (filter P l1) (filter P l2).
Proof.
  induction 1 as [|x l1 l2 _ IH|x l1 l2 _ IH]; [constructor| |].
  - rewrite !filter_cons. destruct (decide (P x)); [by constructor | done].
  - rewrite filter_cons. destruct (decide (P x)); [by constructor | done].
Qed.

Lemma filter_ext_in {A} (P Q : A → Prop) `{!∀ x, Decision (P x)}
    `{!∀ x, Decision (Q x)} (l : list A) :
  (∀ x, x ∈ l → P x ↔ Q x) → filter P l = filter Q l.
Proof.
  induction l as [|x l IH]; intros Hiff; [done|].
  rewrite !filter_cons.
  rewrite IH by (intros y Hy; apply Hiff; by right).
  destruct (decide (P x)) as [HP|HP].
  - rewrite decide_True; [done|]. apply Hiff; [by left | done].
  - rewrite decide_False; [done|]. intros HQ. apply HP, Hiff; [by left|done].
Qed.

Lemma filter_none {A} (P : A → Prop) `{!∀ x, Decision (P x)} (l : list A) :
  (∀ x, x ∈ l → ¬ P x) → filter P l = [].
Proof.
  induction l as [|x l IH]; intros Hno; [done|].
  rewrite filter_cons, decide_False by (apply Hno; by left).
  apply IH. intros y Hy. apply Hno. by right.
Qed.

(** X5. Moving the reference day forward only adds records to the
    year-to-date view of a year, in file order; from day 366 on the view is
    the whole year, and before day 1 it is empty. *)
Theorem ytd_selection_monotone (current_date : Z) (raw : list Row)
    (year R R' : Z) (selected_region : string) (HR : R ≤ R') :
  let df := YtdDashboard.process_for_ytd current_date raw in
  sublist (YtdDashboard.year_data df year R selected_region)
          (YtdDashboard.year_data df year R' selected_region)
  ∧ len (YtdDashboard.year_data df year R selected_region)
    ≤ len (YtdDashboard.year_data df year R' selected_region)
  ∧ (366 ≤ R' →
     YtdDashboard.year_data df year R' selected_region
     = YtdTabs.year_df df year selected_region)
  ∧ (R < 1 → YtdDashboard.year_data df year R selected_region = []).
Proof.
  intros df.
  assert (Hsub : sublist (YtdDashboard.year_data df year R selected_region)
                   (YtdDashboard.year_data df year R' selected_region)).
  { unfold YtdDashboard.year_data.
    assert (Hin : sublist
              (filter (λ p, YtdDashboard.ytd_mask year R p) df)
              (filter (λ p, YtdDashboard.ytd_mask year R' p) df)).
    { apply sublist_filter_impl. intros p. unfold YtdDashboard.ytd_mask.
      rewrite !andb_True. intros [Hy Hd]. split; [done|].
      destruct (YtdDashboard.AC_OPEN_DOY p) as [d|]; [|done]. cbn in *.
      apply Is_true_true, Z.leb_le in Hd. apply Is_true_true, Z.leb_le. lia. }
    case_bool_decide; [by apply sublist_filter_mono | done]. }
  split; [done|]. split.
  { unfold len. apply sublist_length in Hsub. lia. }
  assert (Hmask : ∀ p, p ∈ df →
            ∃ r, p = YtdDashboard.process_row current_date r).
  { intros p Hp. unfold df, YtdDashboard.process_for_ytd in Hp.
    change (map ?f ?l) with (f <$> l) in Hp.
    apply list_elem_of_fmap in Hp as (r & -> & _). by exists r. }
  split.
  - intros HR'. unfold YtdDashboard.year_data, YtdTabs.year_df.
    assert (Hfull : filter (λ p, YtdDashboard.ytd_mask year R' p) df
                    = filter (λ p, YtdDashboard.AC_OPEN_YEAR p = Some year)
                        df).
    { apply filter_ext_in. intros p Hp. destruct (Hmask p Hp) as [r ->].
      unfold YtdDashboard.ytd_mask.
      rewrite andb_True, bool_decide_spec.
      cbn [YtdDashboard.process_row YtdDashboard.AC_OPEN_YEAR
           YtdDashboard.AC_OPEN_DOY].
      destruct (to_datetime (AC_OPEN_DATE r)) as [ts|]; cbn.
      - pose proof (dt_dayofyear_range ts).
        rewrite Is_true_true, Z.leb_le. split; [tauto | split; [done|lia]].
      - split; [tauto | discriminate]. }
    by rewrite Hfull.
  - intros Hlow. unfold YtdDashboard.year_data.
    assert (Hnone : filter (λ p, YtdDashboard.ytd_mask year R p) df = []).
    { apply filter_none. intros p Hp.
      destruct (Hmask p Hp) as [r ->]. unfold YtdDashboard.ytd_mask.
      rewrite andb_True.
      cbn [YtdDashboard.process_row YtdDashboard.AC_OPEN_YEAR
           YtdDashboard.AC_OPEN_DOY].
      destruct (to_datetime (AC_OPEN_DATE r)) as [ts|]; cbn; [|tauto].
      pose proof (dt_dayofyear_range ts).
      intros [_ Hd]. apply Is_true_true, Z.leb_le in Hd. lia. }
    rewrite Hnone. by case_bool_decide.
Qed.

(** X5 on four customers: the view up to day 40 lies within the view up to
    day 100. *)
Lemma ytd_selection_monotone_witness :
  let raw :=
    [ mkRow 1 (Some "North") "Y" (DateText (Timestamp 2024 1 5)) Blank Blank;
      mkRow 2 (Some "South") "Y" (DateText (Timestamp 2024 2 5)) Blank Blank;
      mkRow 3 (Some "South") "Y" (DateText (Timestamp 2024 3 5)) Blank Blank;
      mkRow 4 (Some "South") "Y" (DateText (Timestamp 2024 9 5)) Blank Blank ]
  in
  let df := YtdDashboard.process_for_ytd 0 raw in
  40 ≤ 100
  ∧ len (YtdDashboard.year_data df 2024 40 "All")
    ≤ len (YtdDashboard.year_data df 2024 100 "All").
Proof.
  cbv zeta. split; [lia|].
  apply (ytd_selection_monotone 0
    [ mkRow 1 (Some "North") "Y" (DateText (Timestamp 2024 1 5)) Blank Blank;
      mkRow 2 (Some "South") "Y" (DateText (Timestamp 2024 2 5)) Blank Blank;
      mkRow 3 (Some "South") "Y" (DateText (Timestamp 2024 3 5)) Blank Blank;
      mkRow 4 (Some "South") "Y" (DateText (Timestamp 2024 9 5)) Blank Blank ]
    2024 40 100 "All"). lia.
Defined.

(** ** Invariants of the summary statistics of [ytd_preprocessor.py] *)

Lemma month_of_days_range (d : Z) : 1 ≤ month_of_days d ≤ 12.
Proof.
  unfold month_of_days. cbv zeta.
  set (z := d + 719468).
  set (era := z / 146097).
  set (doe := z - era * 146097).
  assert (Hdoe : 0 ≤ doe < 146097)
    by (subst doe era; Z.div_mod_to_equations; lia).
  destruct (year_of_era_range doe Hdoe) as [_ Hd]. cbv zeta in Hd.
  set (yoe := (doe - doe / 1460 + doe / 36524 - doe / 146096) / 365) in *.
  set (doy := doe - (365 * yoe + yoe / 4 - yoe / 100)) in *.
  clearbody doy.
  destruct ((5 * doy + 2) / 153 <? 10) eqn:Hmp.
  - apply Z.ltb_lt in Hmp. Z.div_mod_to_equations; lia.
  - apply Z.ltb_ge in Hmp. Z.div_mod_to_equations; lia.
Qed.

Lemma len_filter_le {A} (P : A → Prop) `{!∀ x, Decision (P x)} (l : list A) :
  len (filter P l) ≤ len l.
Proof. unfold len. pose proof (length_filter P l). lia. Qed.

(** Counting the rows class by class counts every row once, when every row
    belongs to one of the classes. *)
Lemma sum_len_filter_classes {A} `{EqDecision K} (f : A → option K)
    (ks : list K) (l : list A) :
  NoDup ks →
  (∀ x, x ∈ l → ∃ k, f x = Some k ∧ k ∈ ks) →
  foldr Z.add 0 ((λ k, len (filter (λ x, f x = Some k) l)) <$> ks) = len l.
Proof.
  intros Hnd. induction l as [|x l IH]; intros Hcls.
  - cbn. clear. induction ks as [|k ks IH]; [done|]. cbn. by rewrite IH.
  - destruct (Hcls x) as (k0 & Hk0 & Hin); [by left|].
    specialize (IH (λ y Hy, Hcls y (list_elem_of_further _ _ _ Hy))).
    replace (len (x :: l)) with (1 + len l) by (unfold len; cbn; lia).
    rewrite <- IH. clear IH Hcls.
    induction ks as [|k ks IHk]; [by apply elem_of_nil in Hin|].
    apply NoDup_cons in Hnd as [Hk Hnd]. cbn [fmap list_fmap foldr].
    rewrite filter_cons.
    destruct (decide (k = k0)) as [->|Hne].
    + rewrite decide_True by done.
      replace (len (x :: filter (λ x0, f x0 = Some k0) l))
        with (1 + len (filter (λ x0, f x0 = Some k0) l))
        by (unfold len; cbn; lia).
      enough (foldr Z.add 0
                ((λ k, len (filter (λ x0, f x0 = Some k) (x :: l))) <$> ks)
              = foldr Z.add 0
                  ((λ k, len (filter (λ x0, f x0 = Some k) l)) <$> ks))
        as -> by lia.
      f_equal. apply list_fmap_ext. intros _ k Hkin%list_elem_of_lookup_2.
      rewrite filter_cons, decide_False; [done|].
      rewrite Hk0. intros [= <-]. done.
    + rewrite decide_False by (rewrite Hk0; congruence).
      apply elem_of_cons in Hin as [Heq|Hin]; [congruence|].
      rewrite (IHk Hnd Hin). lia.
Qed.

Section PreprocessorTotals.
Import YtdPreprocessor YtdPreprocessorSpec.

Lemma convert_row_month (rows : list Row) (y R : Z) (c : ChunkRow) :
  c ∈ year_ytd (convert_row <$> rows) y R →
  ∃ m, month c = Some m ∧ m ∈ seqZ 1 12.
Proof.
  unfold year_ytd. intros [Hmask Hc]%list_elem_of_filter.
  apply list_elem_of_fmap in Hc as (r & -> & _).
  apply andb_True in Hmask as [Hy _]. apply bool_decide_spec in Hy.
  cbn [convert_row year month] in *.
  destruct (to_datetime (AC_OPEN_DATE r)) as [ts|]; [|done].
  exists (dt_month ts). split; [done|].
  pose proof (month_of_days_range (ts / ns_per_day)).
  apply elem_of_seqZ. unfold dt_month. lia.
Qed.

(** X6. After the chunk loop every year that has an entry has a positive
    total; its eligible and registered counts lie between 0 and the total;
    its months are calendar months with positive counts that add up to the
    total; and every region of its breakdown has a positive total, at most
    the year's, and no more registered customers than customers. *)
Theorem summary_stats_invariants (chunks : list (list Row)) (R : Z) :
  ∃ st,
    create_ytd_optimized_file chunks R = Return st
    ∧ ∀ y ys, summary_stats st !! y = Some ys →
        0 < total_customers ys
        ∧ 0 ≤ eligible ys ≤ total_customers ys
        ∧ 0 ≤ registered ys ≤ total_customers ys
        ∧ (∀ m n, by_month ys !! m = Some n → 1 ≤ m ≤ 12 ∧ 0 < n)
        ∧ foldr Z.add 0
            ((λ m, default 0 (by_month ys !! m)) <$> seqZ 1 12)
          = total_customers ys
        ∧ ∀ g s, by_region ys !! g = Some s →
            0 < Region.total s ≤ total_customers ys
            ∧ 0 ≤ Region.registered s ≤ Region.total s.
Proof.
  destruct (create_ytd_optimized_file_ok chunks R) as (st & Hst & _ & _ & Hok).
  exists st. split; [done|]. intros y ys Hys.
  specialize (Hok y). rewrite Hys in Hok.
  destruct Hok as [Hne (Htot & Hel & Hreg & Hbm & Hbr)].
  set (l := year_ytd (convert_row <$> concat chunks) y R) in *.
  assert (Hpos : 0 < len l).
  { pose proof (len_nonneg l). destruct (decide (len l = 0)) as [Hz|]; [|lia].
    by apply len_zero in Hz. }
  rewrite Htot, Hel, Hreg.
  split; [done|].
  split; [split; [apply len_nonneg | apply len_filter_le]|].
  split; [split; [apply len_nonneg | apply len_filter_le]|].
  split; [|split].
  - intros m n Hm. rewrite Hbm in Hm. unfold month_count in Hm.
    cbv zeta in Hm. case_decide as Hn; [done|]. injection Hm as <-.
    pose proof (len_nonneg (filter (λ c, month c = Some m) l)).
    split; [|lia].
    destruct (filter (λ c, month c = Some m) l) as [|c rest] eqn:Hf;
      [done|].
    assert (Hc : c ∈ filter (λ c, month c = Some m) l)
      by (rewrite Hf; left).
    apply list_elem_of_filter in Hc as [Hcm Hcl].
    apply convert_row_month in Hcl as (m' & Hm' & Hin).
    rewrite Hcm in Hm'. injection Hm' as <-.
    apply elem_of_seqZ in Hin. lia.
  - rewrite <- (sum_len_filter_classes month (seqZ 1 12) l).
    + f_equal. apply list_fmap_ext. intros _ m _.
      by rewrite Hbm, month_count_default.
    + apply NoDup_seqZ.
    + intros c Hc. by eapply convert_row_month.
  - intros g s Hg. rewrite Hbr in Hg. unfold region_count in Hg.
    cbv zeta in Hg. case_decide as Hn; [done|]. injection Hg as <-.
    cbn [Region.total Region.registered].
    pose proof (len_nonneg (filter (λ c, region c = Some g) l)).
    pose proof (len_filter_le (λ c, region c = Some g) l).
    split; [lia|].
    split; [apply len_nonneg | apply len_filter_le].
Qed.

Lemma stats_ok_Permutation (o : option YearStats) (l l' : list ChunkRow) :
  l ≡ₚ l' → stats_ok o l → stats_ok o l'.
Proof.
  intros Hperm.
  assert (Hlen : ∀ (P : ChunkRow → Prop) `{!∀ x, Decision (P x)},
            len (filter P l) = len (filter P l')).
  { intros P ?. unfold len. f_equal. apply Permutation_length.
    by apply filter_Permutation. }
  destruct o as [ys|]; cbn.
  - intros [Hne (Htot & Hel & Hreg & Hbm & Hbr)]. split.
    + intros ->. by apply Permutation_nil_r in Hperm.
    + split; [|split; [|split; [|split]]].
      * rewrite Htot. unfold len. f_equal. by apply Permutation_length.
      * by rewrite Hel, Hlen.
      * by rewrite Hreg, Hlen.
      * intros m. rewrite Hbm. unfold month_count. cbv zeta.
        by rewrite Hlen.
      * intros g. rewrite Hbr. unfold region_count. cbv zeta.
        rewrite !Hlen.
        assert (Hin : len (filter (λ c, is_registered c)
                             (filter (λ c, region c = Some g) l))
                      = len (filter (λ c, is_registered c)
                               (filter (λ c, region c = Some g) l'))).
        { unfold len. f_equal. apply Permutation_length.
          by do 2 apply filter_Permutation. }
        by rewrite Hin.
  - intros ->. by apply Permutation_nil_l in Hperm.
Qed.

(** X7. The summary statistics do not depend on the order of the records
    in the file, nor on where the file is cut into chunks: two files with
    the same records give the same statistics, and the rows saved for a
    year are the same up to their order. *)
Theorem summary_stats_order_irrelevant (chunks chunks' : list (list Row))
    (R : Z) (Hperm : concat chunks ≡ₚ concat chunks') :
  ∃ st st',
    create_ytd_optimized_file chunks R = Return st
    ∧ create_ytd_optimized_file chunks' R = Return st'
    ∧ summary_stats st = summary_stats st'
    ∧ ∀ y, year_df st y ≡ₚ year_df st' y.
Proof.
  destruct (create_ytd_optimized_file_ok chunks R)
    as (st & Hst & _ & Hdf & Hok).
  destruct (create_ytd_optimized_file_ok chunks' R)
    as (st' & Hst' & _ & Hdf' & Hok').
  exists st, st'. split; [done|]. split; [done|].
  assert (Hsel : ∀ y, year_ytd (convert_row <$> concat chunks) y R
                      ≡ₚ year_ytd (convert_row <$> concat chunks') y R).
  { intros y. unfold year_ytd. apply filter_Permutation.
    by apply fmap_Permutation. }
  split.
  - apply map_eq. intros y.
    eapply stats_ok_unique; [|apply Hok'].
    eapply stats_ok_Permutation; [apply Hsel | apply Hok].
  - intros y. by rewrite Hdf, Hdf'.
Qed.

(** X7 on a file of three records read in one piece and, in another order,
    in two chunks. *)
Lemma summary_stats_order_irrelevant_witness :
  let a := mkRow 1 (Some "North") "Y" (DateText (Timestamp 2023 1 5)) Blank
                 Blank in
  let b := mkRow 2 (Some "South") "N" (DateText (Timestamp 2024 2 5))
                 (DateText (Timestamp 2024 2 9)) Blank in
  let c := mkRow 3 None "Y" (BadText "n/a") Blank Blank in
  ∃ st st',
    create_ytd_optimized_file [[a; b; c]] 100 = Return st
    ∧ create_ytd_optimized_file [[b]; [c; a]] 100 = Return st'
    ∧ summary_stats st = summary_stats st'.
Proof.
  cbv zeta.
  destruct (summary_stats_order_irrelevant
    [[ mkRow 1 (Some "North") "Y" (DateText (Timestamp 2023 1 5)) Blank Blank;
       mkRow 2 (Some "South") "N" (DateText (Timestamp 2024 2 5))
             (DateText (Timestamp 2024 2 9)) Blank;
       mkRow 3 None "Y" (BadText "n/a") Blank Blank ]]
    [[ mkRow 2 (Some "South") "N" (DateText (Timestamp 2024 2 5))
             (DateText (Timestamp 2024 2 9)) Blank ];
     [ mkRow 3 None "Y" (BadText "n/a") Blank Blank;
       mkRow 1 (Some "North") "Y" (DateText (Timestamp 2023 1 5)) Blank
             Blank ]]
    100) as (st & st' & H1 & H2 & H3 & _).
  - cbn [concat app]. apply Permutation_cons_append.
  - exists st, st'. split; [exact H1|]. split; [exact H2 | exact H3].
Defined.

End PreprocessorTotals.

(** ** The year-over-year cells of the comparison file *)

Section PreprocessorComparison.
Import YtdPreprocessor YtdPreprocessorSpec.


End PreprocessorComparison.

(** ** Percentages of nested counts *)

Lemma Qpct_range (a b : Z) :
  0 ≤ a ≤ b → 0 < b →
  (0 <= inject_Z a / inject_Z b * 100)%Q
  ∧ (inject_Z a / inject_Z b * 100 <= 100)%Q.
Proof.
  intros Ha Hb. destruct b as [|b|b]; try lia.
  unfold Qle, Qdiv, Qmult, Qinv, inject_Z. cbn. split; nia.
Qed.

Lemma len_filter_mono_in {A} (P Q : A → Prop) `{!∀ x, Decision (P x)}
    `{!∀ x, Decision (Q x)} (l : list A) :
  (∀ x, x ∈ l → P x → Q x) → len (filter P l) ≤ len (filter Q l).
Proof.
  induction l as [|x l IH]; intros HPQ; [done|].
  specialize (IH (λ y Hy, HPQ y (list_elem_of_further _ _ _ Hy))).
  rewrite !filter_cons. destruct (decide (P x)) as [HP|HP].
  - rewrite decide_True by (apply HPQ; [by left | done]).
    unfold len in *. cbn. lia.
  - destruct (decide (Q x)); unfold len in *; cbn; lia.
Qed.

(** ** Login bracket and login frequency in the mobile adoption dashboard *)

Lemma login_frequency_weekly
    (valid : string → option Z → option Z → bool)
    (current_date : Z) (r : MobAdoption.Raw.Row) :
  let p := MobAdoption.process_row_with valid current_date r in
  MobAdoption.Login_Frequency p = "Weekly"
  ↔ ∃ l, to_datetime (MobAdoption.Raw.Last_Login_Date r) = Some l
         ∧ (current_date - l) / ns_per_day ≤ 7.
Proof.
  cbn zeta. cbn [MobAdoption.process_row_with MobAdoption.Login_Frequency].
  destruct (to_datetime (MobAdoption.Raw.Last_Login_Date r)) as [l|];
    cbn [notna isna negb timedelta_days MobAdoption.get_login_frequency].
  - repeat (match goal with
            | |- context [?x <=? ?y] => destruct (Z.leb_spec x y)
            end; cbv iota;
            [rewrite bool_decide_eq_false_2 by discriminate; cbn [andb];
             split; [intros ?; first [discriminate | eexists; split; [done|lia]]
                    | first [done | intros (? & [= <-] & ?); lia]] |]).
    rewrite bool_decide_eq_false_2 by discriminate. cbn [andb].
    split; [discriminate | intros (? & [= <-] & ?); lia].
  - split; [|by intros (? & [=] & _)].
    by destruct (bool_decide _ && bool_decide _).
Qed.

Lemma login_frequency_monthly
    (valid : string → option Z → option Z → bool)
    (current_date : Z) (r : MobAdoption.Raw.Row) :
  let p := MobAdoption.process_row_with valid current_date r in
  MobAdoption.Login_Frequency p = "Monthly"
  ↔ ∃ l, to_datetime (MobAdoption.Raw.Last_Login_Date r) = Some l
         ∧ 7 < (current_date - l) / ns_per_day ≤ 30.
Proof.
  cbn zeta. cbn [MobAdoption.process_row_with MobAdoption.Login_Frequency].
  destruct (to_datetime (MobAdoption.Raw.Last_Login_Date r)) as [l|];
    cbn [notna isna negb timedelta_days MobAdoption.get_login_frequency].
  - repeat (match goal with
            | |- context [?x <=? ?y] => destruct (Z.leb_spec x y)
            end; cbv iota;
            [rewrite bool_decide_eq_false_2 by discriminate; cbn [andb];
             split; [intros ?; first [discriminate | eexists; split; [done|lia]]
                    | first [done | intros (? & [= <-] & ?); lia]] |]).
    rewrite bool_decide_eq_false_2 by discriminate. cbn [andb].
    split; [discriminate | intros (? & [= <-] & ?); lia].
  - split; [|by intros (? & [=] & _)].
    by destruct (bool_decide _ && bool_decide _).
Qed.

Lemma login_bracket_last_30_days
    (valid : string → option Z → option Z → bool)
    (current_date : Z) (r : MobAdoption.Raw.Row) :
  let p := MobAdoption.process_row_with valid current_date r in
  MobAdoption.Login_Bracket p = "Last 30 Days"
  ↔ ∃ l, to_datetime (MobAdoption.Raw.Last_Login_Date r) = Some l
         ∧ current_date - 30 * ns_per_day ≤ l.
Proof.
  cbn zeta. cbn [MobAdoption.process_row_with MobAdoption.Login_Bracket].
  unfold MobAdoption.get_login_bracket. cbv zeta.
  destruct (to_datetime (MobAdoption.Raw.Last_Login_Date r)) as [l|].
  - repeat (match goal with
            | |- context [?x <=? ?y] => destruct (Z.leb_spec x y)
            end; cbv iota;
            [split; [intros ?; first [discriminate | eexists; split; [done|lia]]
                    | first [done | intros (? & [= <-] & ?); lia]] |]).
    split; [discriminate | intros (? & [= <-] & ?); lia].
  - split; [|by intros (? & [=] & _)]. by destruct (notna _).
Qed.

Lemma days_within_window (current_date l n : Z) :
  0 ≤ n →
  ((current_date - l) / ns_per_day ≤ n →
   current_date - (n + 1) * ns_per_day < l)
  ∧ (current_date - n * ns_per_day ≤ l →
     (current_date - l) / ns_per_day ≤ n).
Proof.
  intros Hn. unfold ns_per_day. split; intros H.
  - Z.div_mod_to_equations. lia.
  - Z.div_mod_to_equations. lia.
Qed.

(** The counts of the summary on a table that the processing steps return,
    whatever the mask of step 3. *)
Lemma processed_counts_nested
    (valid : string → option Z → option Z → bool) (current_date : Z)
    (raw : list MobAdoption.Raw.Row) :
  let df := MobAdoption.process_row_with valid current_date <$> raw in
  MobAdoption.weekly_users df ≤ MobAdoption.active_30_days df
  ∧ MobAdoption.active_30_days df
    ≤ MobAdoption.weekly_users df + MobAdoption.monthly_users df
  ∧ MobAdoption.active_30_days df ≤ MobAdoption.total_accounts df
  ∧ MobAdoption.registered_accounts df ≤ MobAdoption.total_accounts df.
Proof.
  intros df.
  assert (Hrow : ∀ p, p ∈ df →
            ∃ r, p = MobAdoption.process_row_with valid current_date r).
  { intros p (r & -> & _)%list_elem_of_fmap. by exists r. }
  unfold MobAdoption.weekly_users, MobAdoption.active_30_days,
    MobAdoption.monthly_users, MobAdoption.total_accounts,
    MobAdoption.registered_accounts.
  split; [|split; [|split]].
  - apply len_filter_mono_in. intros p Hp. destruct (Hrow p Hp) as [r ->].
    intros (l & Hl & Hd)%login_frequency_weekly.
    apply login_bracket_last_30_days. exists l. split; [done|].
    apply (days_within_window current_date l 7) in Hd; [|lia].
    unfold ns_per_day in *. lia.
  - etransitivity;
      [|apply (Z.eq_le_incl
                 (len (filter
                    (λ p, MobAdoption.Login_Frequency p = "Weekly"
                          ∨ MobAdoption.Login_Frequency p = "Monthly")
                    df)))].
    + apply len_filter_mono_in. intros p Hp. destruct (Hrow p Hp) as [r ->].
      intros (l & Hl & Hd)%login_bracket_last_30_days.
      apply (days_within_window current_date l 30) in Hd; [|lia].
      destruct (decide ((current_date - l) / ns_per_day ≤ 7)).
      * left. apply login_frequency_weekly. by exists l.
      * right. apply login_frequency_monthly. exists l. split; [done|lia].
    + clear Hrow. induction df as [|p df IH]; [done|].
      rewrite !filter_cons.
      destruct (decide (MobAdoption.Login_Frequency p = "Weekly")) as [Hw|Hw].
      * rewrite decide_True by (by left).
        rewrite (decide_False (P := _ = "Monthly"))
          by (rewrite Hw; discriminate).
        unfold len in *. cbn. lia.
      * destruct (decide (MobAdoption.Login_Frequency p = "Monthly"))
          as [Hm|Hm].
        -- rewrite decide_True by (by right). unfold len in *. cbn. lia.
        -- rewrite decide_False by tauto. done.
  - apply len_filter_le.
  - apply len_filter_le.
Qed.


(** X10. For a customer without a login date, the login bracket tells
    'Not Registered' from 'More than a Year' by the registration date, while
    the login frequency tells 'Not Registered' from 'No Login' by the
    registration remarks; the days since the last login stay null. *)
Theorem never_logged_in (current_date : Z) (r : MobAdoption.Raw.Row)
    (Hlogin : to_datetime (MobAdoption.Raw.Last_Login_Date r) = None) :
  let p := MobAdoption.process_row current_date r in
  MobAdoption.Days_Since_Last_Login p = None
  ∧ (MobAdoption.Login_Bracket p = "Not Registered"
     ↔ to_datetime (MobAdoption.Raw.Registration_Date r) = None)
  ∧ (MobAdoption.Login_Bracket p = "More than a Year"
     ↔ is_Some (to_datetime (MobAdoption.Raw.Registration_Date r)))
  ∧ (MobAdoption.Login_Frequency p = "Not Registered"
     ↔ MobAdoption.Registration_Remarks p = "Not Registered")
  ∧ (MobAdoption.Login_Frequency p = "No Login"
     ↔ MobAdoption.Registration_Remarks p ≠ "Not Registered").
Proof.
  cbn zeta. unfold MobAdoption.process_row.
  cbn [MobAdoption.process_row_with MobAdoption.Login_Frequency
       MobAdoption.Login_Bracket MobAdoption.Days_Since_Last_Login
       MobAdoption.Registration_Remarks].
  rewrite Hlogin.
  cbn [notna isna negb MobAdoption.get_login_frequency
       MobAdoption.get_login_bracket].
  rewrite bool_decide_eq_true_2 by done. cbn [andb].
  split; [done|]. split; [|split; [|split]].
  - destruct (to_datetime (MobAdoption.Raw.Registration_Date r)); cbn;
      split; (done || discriminate).
  - destruct (to_datetime (MobAdoption.Raw.Registration_Date r)); cbn;
      split; first [done | discriminate | by intros [? [=]] | by eexists].
  - case_bool_decide as Hrem; split; (done || discriminate).
  - case_bool_decide as Hrem; split; (done || discriminate).
Qed.

(** X10 on a customer with the remark 'Registered' and neither a
    registration nor a login date: the bracket says 'Not Registered', the
    frequency 'No Login'. *)
Lemma never_logged_in_witness :
  let r := MobAdoption.Raw.mk 1 None None "Registered" Blank
             (DateText (Timestamp 2024 1 1)) Blank in
  let p := MobAdoption.process_row 0 r in
  MobAdoption.Login_Bracket p = "Not Registered"
  ∧ MobAdoption.Login_Frequency p = "No Login".
Proof.
  cbv zeta.
  destruct (never_logged_in 0
    (MobAdoption.Raw.mk 1 None None "Registered" Blank
       (DateText (Timestamp 2024 1 1)) Blank) eq_refl)
    as (_ & Hb & _ & _ & Hf).
  split.
  - apply Hb. reflexivity.
  - apply Hf. discriminate.
Defined.

(** ** The rates of the summary of the mobile adoption dashboard *)

Lemma days_to_onboard_nonneg (current_date : Z) (r : MobAdoption.Raw.Row)
    (d : Z) :
  MobAdoption.Days_to_Onboard (MobAdoption.process_row current_date r)
    = Some d → 0 ≤ d.
Proof.
  unfold MobAdoption.process_row.
  cbn [MobAdoption.process_row_with MobAdoption.Days_to_Onboard].
  destruct (MobAdoption.valid_onboarding_mask _ _) eqn:Hvalid; [|done].
  destruct (to_datetime (MobAdoption.Raw.Registration_Date r)) as [t|],
           (to_datetime (MobAdoption.Raw.Open_Date_ r)) as [o|]; try done.
  apply mob_valid_sound in Hvalid. cbn. intros [= <-].
  apply Z.div_pos; [lia | reflexivity].
Qed.

Lemma sum_skipna_nonneg (col : list (option Z)) :
  (∀ d, Some d ∈ col → 0 ≤ d) → 0 ≤ sum_skipna col.
Proof.
  unfold sum_skipna. induction col as [|[d|] col IH]; intros Hall; cbn.
  - done.
  - specialize (Hall d (list_elem_of_here _ _)) as Hd.
    specialize (IH (λ e He, Hall e (list_elem_of_further _ _ _ He))).
    unfold sum_skipna in IH. lia.
  - apply IH. intros e He. apply Hall. by right.
Qed.


(** ** Splitting a file by year in [preprocess_large_csv.py] *)

Lemma for_each_fmap {S A B} (body : S → B → py S) (f : A → B) (l : list A) :
  ∀ s, for_each body s (f <$> l) = for_each (λ s x, body s (f x)) s l.
Proof.
  induction l as [|x l IH]; intros s; [done|]. cbn.
  destruct (body s (f x)); cbn; [apply IH | done].
Qed.

Section YearlyFiles.
Import PreprocessLargeCsv PreprocessLargeCsvInv.

Lemma year_step_bump (chunk : list ChunkRow)
    (yearly_data : gmap Z (list (list ChunkRow))) (y : Z) :
  year_step yearly_data (y, filter (λ c, year c = Some y) chunk)
  = Return (<[y := default [] (yearly_data !! y)
                   ++ [filter (λ c, year c = Some y) chunk]]> yearly_data).
Proof.
  unfold year_step, getitem. case_bool_decide as Hnew.
  - rewrite lookup_insert_eq. cbn. rewrite Hnew. cbn.
    by rewrite insert_insert_eq.
  - destruct (yearly_data !! y) as [frames|] eqn:Hy; [|done]. by cbn.
Qed.

Lemma split_chunk_ok (yearly_data : gmap Z (list (list ChunkRow)))
    (seen : list ChunkRow) (chunk : list Row) :
  yearly_ok yearly_data seen →
  ∃ yearly_data',
    split_chunk yearly_data chunk = Return yearly_data'
    ∧ yearly_ok yearly_data' (seen ++ (convert_row <$> chunk)).
Proof.
  intros Hok. unfold split_chunk. cbv zeta.
  set (rows := convert_row <$> chunk).
  unfold groupby. rewrite for_each_fmap.
  destruct (for_each_bump
              (λ m y, year_step m (y, filter (λ c, year c = Some y) rows))
              [] (λ frames y, frames ++ [filter (λ c, year c = Some y) rows])
              (unique (omap year rows))
              (year_step_bump rows) (NoDup_unique _) yearly_data)
    as (yd' & Hrun & Hlook).
  exists yd'. split; [exact Hrun|]. intros y.
  destruct (Hok y) as [Hdf Hnone]. unfold year_df in *.
  rewrite Hlook, filter_app. case_decide as Hin.
  - rewrite elem_of_unique, elem_of_omap_filter in Hin.
    cbn [from_option]. unfold id at 1.
    rewrite concat_app, Hdf. cbn. rewrite app_nil_r. split; [done|].
    split; [done|]. intros Hnil. apply app_eq_nil in Hnil as [_ Hnil]. done.
  - rewrite elem_of_unique, elem_of_omap_filter in Hin.
    apply dec_stable in Hin. rewrite Hin, app_nil_r. done.
Qed.

Lemma split_chunks_ok (chunks : list (list Row)) :
  ∀ (yearly_data : gmap Z (list (list ChunkRow))) (seen : list ChunkRow),
    yearly_ok yearly_data seen →
    ∃ yearly_data',
      for_each split_chunk yearly_data chunks = Return yearly_data'
      ∧ yearly_ok yearly_data' (seen ++ (convert_row <$> concat chunks)).
Proof.
  induction chunks as [|chunk chunks IH]; intros yd seen Hok.
  - exists yd. split; [done|]. cbn. by rewrite app_nil_r.
  - destruct (split_chunk_ok yd seen chunk Hok) as (yd1 & Hrun1 & Hok1).
    destruct (IH yd1 _ Hok1) as (yd2 & Hrun2 & Hok2).
    exists yd2. split.
    + cbn. rewrite Hrun1. exact Hrun2.
    + cbn [concat]. by rewrite fmap_app, app_assoc.
Qed.


End YearlyFiles.

(** ** The file of recent records in [preprocess_large_csv.py] *)

Section RecentData.
Import PreprocessLargeCsv.

Lemma recent_data_concat (cutoff_date : Z) (chunks : list (list Row)) :
  ∀ acc : list (list ChunkRow),
    concat
      (foldl (λ recent_data chunk,
                let recent_chunk := recent_chunk cutoff_date chunk in
                if 0 <? len recent_chunk then recent_data ++ [recent_chunk]
                else recent_data) acc chunks)
    = concat acc ++ recent_chunk cutoff_date (concat chunks).
Proof.
  induction chunks as [|chunk chunks IH]; intros acc.
  - cbn. by rewrite app_nil_r.
  - cbn [foldl concat]. rewrite IH. cbv zeta.
    assert (Happ : recent_chunk cutoff_date (chunk ++ concat chunks)
                   = recent_chunk cutoff_date chunk
                     ++ recent_chunk cutoff_date (concat chunks)).
    { unfold recent_chunk. by rewrite fmap_app, filter_app. }
    rewrite Happ. destruct (0 <? len (recent_chunk cutoff_date chunk)) eqn:Hpos.
    + rewrite concat_app. cbn. by rewrite app_nil_r, app_assoc.
    + apply Z.ltb_ge in Hpos.
      pose proof (len_nonneg (recent_chunk cutoff_date chunk)).
      assert (Hz : len (recent_chunk cutoff_date chunk) = 0) by lia.
      apply len_zero in Hz. by rewrite Hz.
Qed.

Lemma recent_data_nonempty (cutoff_date : Z) (chunks : list (list Row)) :
  ∀ acc : list (list ChunkRow),
    Forall (λ frame, frame ≠ []) acc →
    Forall (λ frame, frame ≠ [])
      (foldl (λ recent_data chunk,
                let recent_chunk := recent_chunk cutoff_date chunk in
                if 0 <? len recent_chunk then recent_data ++ [recent_chunk]
                else recent_data) acc chunks).
Proof.
  induction chunks as [|chunk chunks IH]; intros acc Hacc; [done|].
  cbn [foldl]. apply IH. cbv zeta.
  destruct (0 <? len (recent_chunk cutoff_date chunk)) eqn:Hpos; [|done].
  apply Forall_app. split; [done|]. apply Forall_singleton.
  intros Hnil. rewrite Hnil in Hpos. done.
Qed.

(** X13. The file of recent records is written exactly when some record
    was opened on or after the cutoff date, and it then holds exactly these
    records, in the order of the input, wherever the file is cut into
    chunks; records whose open date does not parse are left out. *)
Theorem create_recent_data_file_rows (cutoff_date : Z)
    (chunks : list (list Row)) :
  let recent := filter (opened_since cutoff_date) (concat chunks) in
  create_recent_data_file cutoff_date chunks
  = if decide (recent = []) then None else Some (convert_row <$> recent).
Proof.
  cbv zeta. unfold create_recent_data_file. cbv zeta.
  assert (Hsel : recent_chunk cutoff_date (concat chunks)
                 = convert_row
                     <$> filter (opened_since cutoff_date) (concat chunks)).
  { unfold recent_chunk. apply filter_fmap_iff. intros r.
    unfold opened_since. cbn [convert_row open_date].
    destruct (to_datetime (AC_OPEN_DATE r)) as [ts|]; cbn; [|done].
    by rewrite Is_true_true, Z.leb_le. }
  assert (Hall : concat (recent_data cutoff_date chunks)
                 = convert_row
                     <$> filter (opened_since cutoff_date) (concat chunks)).
  { unfold recent_data. by rewrite recent_data_concat. }
  assert (Hne : Forall (λ frame, frame ≠ [])
                  (recent_data cutoff_date chunks)).
  { unfold recent_data. by apply recent_data_nonempty. }
  rewrite Hall.
  case_bool_decide as Hrd; case_decide as Hrec.
  - destruct Hrd. rewrite Hrec in Hall. cbn in Hall.
    destruct (recent_data cutoff_date chunks) as [|frame frames]; [done|].
    apply Forall_cons in Hne as [Hframe _]. cbn in Hall.
    apply app_eq_nil in Hall as [? _]. done.
  - done.
  - done.
  - rewrite Hrd in Hall. cbn in Hall. symmetry in Hall.
    apply fmap_nil_inv in Hall. done.
Qed.

End RecentData.

(** ** The Excel export of the iNET dashboard *)

Lemma Qratio_lt_1 (a b : Z) :
  0 < b → (inject_Z a / inject_Z b < 1)%Q ↔ a < b.
Proof.
  intros Hb. destruct b as [|b|b]; try lia.
  unfold Qlt, Qdiv, Qmult, Qinv, inject_Z. cbn. lia.
Qed.

Section ExcelExport.
Import ExcelExporter.

Lemma ratio_value (x y : Z) :
  ratio x y = Return (if 0 <? y then PyFloat (inject_Z x / inject_Z y)
                      else PyInt 0).
Proof.
  unfold ratio. destruct (0 <? y) eqn:Hy; [|done].
  apply Z.ltb_lt in Hy. by rewrite py_truediv_pos.
Qed.

(** X14. On the summary sheet the four counts are written with the number
    format; the adoption rate is written with the percentage format exactly
    when there are eligible customers and fewer registered than eligible
    ones: a rate of 100 % or more, and the rate 0 of a table without
    eligible customers, get the number format. *)
Theorem summary_sheet_formats (filtered_data : list InetEnhanced.Processed) :
  let eligible := InetEnhanced.inet_eligible filtered_data in
  let registered := InetEnhanced.registered_customers filtered_data in
  ∃ metrics,
    metrics_data filtered_data = Return metrics
    ∧ (∀ i c, (i < 4)%nat → write_metrics metrics !! i = Some c →
         cell_format c = metric_value_format)
    ∧ ∃ c, write_metrics metrics !! 4%nat = Some c
           ∧ cell_label c = "Adoption Rate"
           ∧ (cell_row c, cell_col c) = (6%nat, 1%nat)
           ∧ (cell_format c = percentage_format
              ↔ 0 < eligible ∧ registered < eligible)
           ∧ (eligible = 0 → cell_value c = PyInt 0).
Proof.
  intros eligible registered. unfold metrics_data. cbv zeta.
  rewrite !ratio_value. cbn [mbind py_bind mret py_ret].
  fold (InetEnhanced.inet_eligible filtered_data).
  fold (InetEnhanced.registered_customers filtered_data).
  fold eligible registered.
  remember (if 0 <? eligible
            then PyFloat (inject_Z registered / inject_Z eligible)
            else PyInt 0) as adoption_rate eqn:Hrate.
  remember (if 0 <? registered then PyFloat _ else PyInt 0) as active_rate
    eqn:Hactive.
  clear Hactive.
  eexists. split; [reflexivity|]. unfold write_metrics.
  cbn [imap concat app]. split.
  - intros i c Hi.
    destruct i as [|[|[|[|i]]]]; try lia; by intros [= <-].
  - eexists. split; [reflexivity|].
    cbn [cell_label cell_row cell_col cell_format cell_value].
    split; [done|]. split; [done|]. subst adoption_rate.
    destruct (0 <? eligible) eqn:Hpos; cbn [format_of].
    + apply Z.ltb_lt in Hpos. split; [|lia].
      destruct (Qlt_le_dec _ _) as [Hlt|Hge].
      * apply (proj1 (Qratio_lt_1 registered eligible Hpos)) in Hlt.
        split; [lia|done].
      * split; [discriminate|]. intros [_ Hlt].
        apply Qle_not_lt in Hge. destruct Hge.
        by apply (proj2 (Qratio_lt_1 registered eligible Hpos)).
    + apply Z.ltb_ge in Hpos. split; [|done].
      split; [discriminate | lia].
Qed.

Lemma percent_value (x y : Z) :
  0 < y → percent x y = Return (inject_Z x / inject_Z y * 100)%Q.
Proof. intros Hy. unfold percent. by rewrite py_truediv_pos. Qed.

Lemma percent_or_zero_value (x y : Z) :
  percent_or_zero x y
  = Return (if 0 <? y then (inject_Z x / inject_Z y * 100)%Q else 0%Q).
Proof.
  unfold percent_or_zero. destruct (0 <? y) eqn:Hy; [|done].
  apply Z.ltb_lt in Hy. by rewrite percent_value.
Qed.

Lemma Qpct_nonneg (a b : Z) :
  0 ≤ a → (0 <= (if 0 <? b then inject_Z a / inject_Z b * 100 else 0))%Q.
Proof.
  intros Ha. destruct (0 <? b) eqn:Hb; [|done]. apply Z.ltb_lt in Hb.
  destruct b as [|b|b]; try lia.
  unfold Qle, Qdiv, Qmult, Qinv, inject_Z. cbn. lia.
Qed.

(** X15. The funnel sheet cannot be built for an empty table: the first
    percentage divides by the number of rows and raises
    [ZeroDivisionError].  For every other table the funnel is returned, its
    percentages of the total lie between 0 and 100, its conversion rates are
    not negative, and the last one (weekly active among the active) is at
    most 100. *)
Theorem create_funnel_data_outcome
    (filtered_data : list InetEnhanced.Processed) :
  match _create_funnel_data filtered_data with
  | Raise e => e = ZeroDivisionError ∧ filtered_data = []
  | Return f =>
      filtered_data ≠ []
      ∧ Count f !! 0%nat = Some (len filtered_data)
      ∧ length (Percentage_of_Total f) = 5%nat
      ∧ Forall (λ q, (0 <= q)%Q ∧ (q <= 100)%Q) (Percentage_of_Total f)
      ∧ Forall (λ q, (0 <= q)%Q) (Conversion_Rate f)
      ∧ ∃ q, Conversion_Rate f !! 4%nat = Some q ∧ (q <= 100)%Q
  end.
Proof.
  unfold _create_funnel_data. cbv zeta.
  set (total := len filtered_data).
  set (eligible := len (filter _ filtered_data)).
  set (registered := len (filter _ filtered_data)).
  set (active_30 := len (filter _ filtered_data)).
  set (weekly_active := len (filter _ filtered_data)).
  assert (Hnn : 0 ≤ eligible ∧ 0 ≤ registered ∧ 0 ≤ active_30
                ∧ 0 ≤ weekly_active)
    by (repeat split; apply len_nonneg).
  assert (Hle : eligible ≤ total ∧ registered ≤ total ∧ active_30 ≤ total
                ∧ weekly_active ≤ total)
    by (repeat split; apply len_filter_le).
  assert (Hwa : weekly_active ≤ active_30).
  { apply len_filter_mono_in. intros p _ Hp. apply isin_triple. by left. }
  destruct (decide (filtered_data = [])) as [->|Hne].
  - by cbn.
  - assert (Hpos : 0 < total).
    { pose proof (len_nonneg filtered_data).
      destruct (decide (total = 0)) as [Hz|]; [|unfold total in *; lia].
      by apply len_zero in Hz. }
    rewrite !percent_value, !percent_or_zero_value by done.
    cbn [mbind py_bind mret py_ret Count Percentage_of_Total Conversion_Rate].
    split; [done|]. split; [done|]. split; [done|].
    split; [|split].
    + repeat (apply Forall_cons; split;
              [first [done | apply Qpct_range; lia]|]).
      apply Forall_nil_2.
    + repeat (apply Forall_cons; split;
              [first [done | apply Qpct_range; lia | apply Qpct_nonneg; lia]|]).
      apply Forall_nil_2.
    + eexists. split; [reflexivity|].
      destruct (0 <? active_30) eqn:Ha; [|done].
      apply Z.ltb_lt in Ha. apply Qpct_range; lia.
Qed.

End ExcelExport.

(** ** The funnel comparison of the year-to-date dashboard *)

Section YtdFunnel.
Import YtdTabs.

Lemma rate_value (x y : Z) :
  rate x y
  = Return (if 0 <? y then (inject_Z x / inject_Z y * 100)%Q else 0%Q).
Proof.
  unfold rate. destruct (0 <? y) eqn:Hy; [|done].
  apply Z.ltb_lt in Hy. by rewrite py_truediv_pos.
Qed.

(** X16. The funnel comparison is built without an exception for every
    selection: one row per selected year, in the order of the selection,
    with the counts of the year-to-date view of that year; the eligibility
    rate lies between 0 and 100, the other two rates are not negative, and
    the registration rate is the one that the header shows for the year. *)
Theorem funnel_comparison_rows (df : list YtdDashboard.Processed)
    (selected_years : list Z) (reference_doy : Z) (selected_region : string) :
  ∃ rows,
    funnel_comparison
      (YtdDashboard.ytd_data df selected_years reference_doy selected_region)
      selected_years = Return rows
    ∧ Year <$> rows = selected_years
    ∧ ∀ row, row ∈ rows →
        let d := YtdDashboard.year_data df (Year row) reference_doy
                   selected_region in
        Total_Customers row = len d
        ∧ Eligible row = YtdDashboard.eligible_count d
        ∧ Registered row = YtdDashboard.registered_count d
        ∧ Active row = YtdDashboard.active d
        ∧ (0 <= Eligibility_Rate row)%Q ∧ (Eligibility_Rate row <= 100)%Q
        ∧ (0 <= Registration_Rate row)%Q
        ∧ (0 <= Activation_Rate row)%Q
        ∧ YtdDashboard.reg_rate (Registered row) (Eligible row)
          = Return (Registration_Rate row).
Proof.
  set (value (year : Z) :=
    let d := YtdDashboard.year_data df year reference_doy selected_region in
    let pct (x y : Z) :=
      if 0 <? y then (inject_Z x / inject_Z y * 100)%Q else 0%Q in
    {| Year := year;
       Total_Customers := len d;
       Eligible := YtdDashboard.eligible_count d;
       Registered := YtdDashboard.registered_count d;
       Active := YtdDashboard.active d;
       Eligibility_Rate := pct (YtdDashboard.eligible_count d) (len d);
       Registration_Rate :=
         pct (YtdDashboard.registered_count d) (YtdDashboard.eligible_count d);
       Activation_Rate :=
         pct (YtdDashboard.active d) (YtdDashboard.registered_count d) |}).
  exists (value <$> selected_years). split; [|split].
  - unfold funnel_comparison. apply mapM_py_Return. intros year Hyear.
    unfold funnel_entry, getitem.
    rewrite ytd_data_lookup, decide_True by done.
    cbn [mbind py_bind]. by rewrite !rate_value.
  - rewrite <- list_fmap_compose. apply list_fmap_id.
  - intros row (year & -> & _)%list_elem_of_fmap.
    cbn [value Year Total_Customers Eligible Registered Active
         Eligibility_Rate Registration_Rate Activation_Rate].
    cbv zeta.
    set (d := YtdDashboard.year_data df year reference_doy selected_region).
    split; [done|]. split; [done|]. split; [done|]. split; [done|].
    assert (Hel : 0 ≤ YtdDashboard.eligible_count d ≤ len d)
      by (split; [apply len_nonneg | apply len_filter_le]).
    split; [|split; [|split; [|split]]].
    + apply (Qpct_nonneg (YtdDashboard.eligible_count d) (len d)). lia.
    + destruct (0 <? len d) eqn:Hpos; [|done].
      apply Z.ltb_lt in Hpos.
      by apply (Qpct_range (YtdDashboard.eligible_count d) (len d)).
    + apply (Qpct_nonneg (YtdDashboard.registered_count d)), len_nonneg.
    + apply (Qpct_nonneg (YtdDashboard.active d)), len_nonneg.
    + by rewrite reg_rate_total.
Qed.

End YtdFunnel.

(** ** The cumulative chart of the year-to-date dashboard *)

Lemma len_filter_key_among {A} `{EqDecision K} (f : A → option K)
    (ks : list K) (l : list A) :
  NoDup ks →
  foldr Z.add 0 ((λ k, len (filter (λ x, f x = Some k) l)) <$> ks)
  = len (filter (key_among f ks) l).
Proof.
  intros Hnd.
  rewrite <- (sum_len_filter_classes f ks (filter (key_among f ks) l) Hnd).
  - apply (f_equal (foldr Z.add 0)). apply list_fmap_ext.
    intros _ k Hk%list_elem_of_lookup_2.
    apply (f_equal len). rewrite list_filter_filter. apply filter_ext_in.
    intros x _. unfold key_among. split; [|by intros [? ?]].
    intros Hx. split; [done|]. by rewrite Hx.
  - intros x [Hx _]%list_elem_of_filter. unfold key_among in Hx.
    destruct (f x) as [k|]; [|done]. by exists k.
Qed.

Section CumulativeChart.
Import YtdTabs.

Lemma zip_cumsum_from_lookup (n : Z → Z) (days : list Z) :
  ∀ (acc : Z) (i : nat) (d c : Z),
    zip days (cumsum_from acc (n <$> days)) !! i = Some (d, c) →
    days !! i = Some d
    ∧ c = acc + foldr Z.add 0 (n <$> take (S i) days).
Proof.
  induction days as [|d0 days IH]; intros acc i d c Hi; [done|].
  cbn [fmap list_fmap cumsum_from zip zip_with] in Hi.
  destruct i as [|i].
  - injection Hi as <- <-. split; [done|].
    cbn [take fmap list_fmap foldr]. rewrite take_0. cbn. lia.
  - cbn in Hi. apply IH in Hi as [Hd ->]. split; [done|].
    cbn [take fmap list_fmap foldr]. lia.
Qed.

Lemma fst_zip_cumsum_from (n : Z → Z) (days : list Z) :
  ∀ acc, (zip days (cumsum_from acc (n <$> days))).*1 = days.
Proof.
  induction days as [|d0 days IH]; intros acc; [done|].
  cbn. by rewrite IH.
Qed.

Lemma year_data_cut (df : list YtdDashboard.Processed) (y d : Z)
    (g : string) :
  YtdDashboard.year_data df y d g
  = filter (λ p, le_na (YtdDashboard.AC_OPEN_DOY p) (Some d))
           (year_df df y g).
Proof.
  unfold YtdDashboard.year_data, year_df. cbv zeta.
  assert (Hmask : filter (λ p, YtdDashboard.ytd_mask y d p) df
                  = filter (λ p, le_na (YtdDashboard.AC_OPEN_DOY p) (Some d))
                      (filter (λ p, YtdDashboard.AC_OPEN_YEAR p = Some y) df)).
  { rewrite list_filter_filter. apply filter_ext_in. intros p _.
    unfold YtdDashboard.ytd_mask.
    rewrite andb_True, bool_decide_spec. tauto. }
  rewrite Hmask. case_bool_decide; [|done].
  rewrite !list_filter_filter. apply filter_ext_in. intros p _. tauto.
Qed.


End CumulativeChart.

(** ** Rounding keeps a rate within integer bounds *)

Lemma round_half_even_range (q : Q) (a b : Z) :
  (inject_Z a <= q)%Q → (q <= inject_Z b)%Q →
  a ≤ round_half_even q ≤ b.
Proof.
  intros Ha Hb. unfold round_half_even. cbv zeta.
  assert (Hfa : a ≤ Qfloor q).
  { rewrite <- (Qfloor_Z a). by apply Qfloor_resp_le. }
  assert (Hfb : Qfloor q ≤ b).
  { rewrite <- (Qfloor_Z b). by apply Qfloor_resp_le. }
  assert (Hhalf : Qfloor q = b →
            ((q - inject_Z (Qfloor q) ?= 1 # 2) = Lt)%Q).
  { intros Heq. rewrite Heq. apply Qlt_alt.
    apply Qle_lt_trans with (y := 0%Q); [|reflexivity].
    apply (Qplus_le_l _ _ (inject_Z b)). ring_simplify. exact Hb. }
  destruct (q - inject_Z (Qfloor q) ?= 1 # 2)%Q eqn:Hcmp.
  - destruct (decide (Qfloor q = b)) as [Heq|Hne];
      [specialize (Hhalf Heq); discriminate|].
    destruct (Z.even (Qfloor q)); lia.
  - lia.
  - destruct (decide (Qfloor q = b)) as [Heq|Hne];
      [specialize (Hhalf Heq); discriminate|].
    lia.
Qed.

Lemma np_round_range (decimals : nat) (q : Q) (a b : Z) :
  (inject_Z a <= q)%Q → (q <= inject_Z b)%Q →
  (inject_Z a <= np_round decimals q)%Q
  ∧ (np_round decimals q <= inject_Z b)%Q.
Proof.
  intros Ha Hb. unfold np_round. cbv zeta.
  set (scale := 10 ^ Z.of_nat decimals).
  assert (Hscale : 0 < scale) by (apply Z.pow_pos_nonneg; lia).
  assert (Hs : (0 < inject_Z scale)%Q).
  { unfold Qlt, inject_Z. cbn. lia. }
  destruct (round_half_even_range (q * inject_Z scale) (a * scale) (b * scale))
    as [Hlo Hhi].
  { rewrite inject_Z_mult. apply Qmult_le_compat_r; [done|].
    by apply Qlt_le_weak. }
  { rewrite inject_Z_mult. apply Qmult_le_compat_r; [done|].
    by apply Qlt_le_weak. }
  rewrite Qred_correct. split.
  - apply Qle_shift_div_l; [done|]. rewrite <- inject_Z_mult.
    rewrite <- Zle_Qle. exact Hlo.
  - apply Qle_shift_div_r; [done|]. rewrite <- inject_Z_mult.
    rewrite <- Zle_Qle. exact Hhi.
Qed.

(** ** The regional statistics of the iNET dashboard *)

Lemma groupby_keys `{EqDecision K} {V} (keyf : V → option K)
    (rows : list V) :
  (groupby keyf rows).*1 = unique (omap keyf rows).
Proof.
  unfold groupby. rewrite <- list_fmap_compose. apply list_fmap_id.
Qed.

Lemma elem_of_groupby `{EqDecision K} {V} (keyf : V → option K)
    (rows : list V) (k : K) (l : list V) :
  (k, l) ∈ groupby keyf rows
  ↔ l = filter (λ r, keyf r = Some k) rows ∧ l ≠ [].
Proof.
  unfold groupby. rewrite list_elem_of_fmap. split.
  - intros (k' & [= -> ->] & Hk). split; [done|].
    by apply elem_of_unique, elem_of_omap_filter in Hk.
  - intros [-> Hne]. exists k. split; [done|].
    by apply elem_of_unique, elem_of_omap_filter.
Qed.

Section RegionalStatistics.
Import InetTabs.


End RegionalStatistics.

(** ** The percentages of the customer journey funnel *)

Section CustomerJourney.
Import MobAdoption.

Lemma pct_round_range (x y : Z) (q : Q) :
  0 ≤ x ≤ y → np_round 1 <$> pct x y = Some q →
  (0 <= q)%Q ∧ (q <= 100)%Q.
Proof.
  intros Hxy. unfold pct, np_truediv.
  destruct (y =? 0) eqn:Hz; [discriminate|]. apply Z.eqb_neq in Hz.
  cbn. intros [= <-].
  change 0%Q with (inject_Z 0). change 100%Q with (inject_Z 100).
  apply np_round_range; apply Qpct_range; lia.
Qed.


End CustomerJourney.

(** ** The groups of the summary statistics file of the notebook *)

Lemma mean_q_singleton (m : option Q) : option_Qeq (mean_q [m]) m.
Proof.
  destruct m as [q|]; [|done].
  change (mean_q [Some q]) with (Some ((q + 0) / inject_Z 1)%Q).
  cbn [option_Qeq]. field.
Qed.

Section NotebookGroups.
Import LargeFileNotebook LargeFileNotebookSpec.

Lemma final_summary_keys (chunks : list (list Row)) :
  final_key <$> final_summary chunks
  = unique (omap (Some ∘ key) (concat (chunk_summary <$> chunks))).
Proof.
  unfold final_summary. cbv zeta. rewrite <- list_fmap_compose.
  change (final_key ∘ (λ g, agg_final g.1 g.2))
    with (fst : (string * (Z * Z)) * list Summary → string * (Z * Z)).
  apply groupby_keys.
Qed.

Lemma final_row_is_Some (k : string * (Z * Z)) (table : list Final) :
  is_Some (final_row k table) ↔ k ∈ final_key <$> table.
Proof.
  unfold final_row. rewrite list_elem_of_fmap. split.
  - intros [f Hf]. apply head_Some_elem_of, list_elem_of_filter in Hf as [<- Hf].
    by exists f.
  - intros (f & -> & Hf).
    destruct (filter (λ f0, final_key f0 = final_key f) table) as [|f' l]
      eqn:Hfilter; [|by eexists].
    assert (Hin : f ∈ filter (λ f0, final_key f0 = final_key f) table)
      by (by apply list_elem_of_filter).
    rewrite Hfilter in Hin. by apply elem_of_nil in Hin.
Qed.

(** X20. The summary statistics file of the notebook has one row per
    group, and a group has a row exactly when some record of the file
    belongs to it; when the file is read as a single chunk, the two mean
    columns of a group are the means over the records of the group. *)
Theorem final_summary_groups (chunks : list (list Row)) (chunk : list Row)
    (k : string * (Z * Z)) :
  NoDup (final_key <$> final_summary chunks)
  ∧ (k ∈ final_key <$> final_summary chunks
     ↔ ∃ r, r ∈ concat chunks ∧ group_key r = Some k)
  ∧ match final_row k (final_summary [chunk]) with
    | Some f =>
        option_Qeq (avg_age f) (mean_skipna (AGE <$> group_rows k chunk))
        ∧ option_Qeq (avg_balance f)
            (mean_q (CUSTOMER_MTD_AVERAGE_ALL_ACTIVE_ELIGIBLE
                       <$> group_rows k chunk))
    | None => group_rows k chunk = []
    end.
Proof.
  split; [|split].
  - rewrite final_summary_keys. apply NoDup_unique.
  - rewrite <- final_row_is_Some.
    pose proof (final_summary_sums k chunks) as Hok.
    destruct (final_row k (final_summary chunks)) as [f|]; cbn in Hok.
    + destruct Hok as [Hne _]. split; [intros _ | by eexists].
      destruct (group_rows k (concat chunks)) as [|r l] eqn:Hrows; [done|].
      assert (Hr : r ∈ group_rows k (concat chunks)) by (rewrite Hrows; left).
      apply list_elem_of_filter in Hr as [Hk Hr]. by exists r.
    + split; [by intros [? [=]]|]. intros (r & Hr & Hk).
      assert (Hin : r ∈ group_rows k (concat chunks))
        by (by apply list_elem_of_filter).
      rewrite Hok in Hin. by apply elem_of_nil in Hin.
  - unfold final_row, final_summary. cbv zeta.
    rewrite (filter_groupby (Some ∘ key) agg_final final_key) by done.
    assert (Hrows : filter (λ r, (Some ∘ key) r = Some k)
                      (concat (chunk_summary <$> [chunk]))
                    = if decide (k ∈ omap group_key chunk)
                      then [agg k (group_rows k chunk)] else []).
    { transitivity (filter (λ s, key s = k)
                      (concat (chunk_summary <$> [chunk]))).
      - apply list_filter_iff. intros s. cbn.
        split; [by intros [= ?] | by intros ->].
      - rewrite summary_rows_of_key. cbn. by rewrite app_nil_r. }
    assert (Hmem : k ∈ omap (Some ∘ key) (concat (chunk_summary <$> [chunk]))
                   ↔ k ∈ omap group_key chunk).
    { rewrite elem_of_omap_filter, Hrows.
      case_decide as Hk; [done|]. split; [done | intros ?; by destruct Hk]. }
    rewrite Hrows. destruct (decide (k ∈ omap group_key chunk)) as [Hk|Hk].
    + rewrite decide_True by (by apply Hmem).
      cbn [head agg_final avg_age avg_balance].
      cbn [fmap list_fmap agg AGE_mean BALANCE_mean].
      split; apply mean_q_singleton.
    + rewrite decide_False by (by rewrite Hmem). cbn [head].
      rewrite elem_of_omap_filter in Hk. apply dec_stable in Hk. exact Hk.
Qed.

End NotebookGroups.

(** ** The daily patterns of [analyze_ytd_patterns] *)

Lemma for_each_ext_in {S A} (body body' : S → A → py S) (l : list A) :
  (∀ s x, x ∈ l → body s x = body' s x) →
  ∀ s, for_each body s l = for_each body' s l.
Proof.
  induction l as [|x l IH]; intros Hext s; [done|]. cbn.
  rewrite (Hext s x) by (by left).
  destruct (body' s x) as [s'|e]; cbn; [|done].
  apply IH. intros s0 y Hy. apply Hext. by right.
Qed.

Lemma for_each_filter {S A} (body : S → A → py S) (P : A → Prop)
    `{!∀ x, Decision (P x)} (l : list A) :
  (∀ s x, ¬ P x → body s x = Return s) →
  ∀ s, for_each body s l = for_each body s (filter P l).
Proof.
  intros Hskip. induction l as [|x l IH]; intros s; [done|].
  rewrite filter_cons. destruct (decide (P x)) as [HP|HP].
  - cbn. destruct (body s x); cbn; [apply IH | done].
  - cbn. rewrite (Hskip s x HP). cbn. apply IH.
Qed.

Lemma len_filter_split {A} (P : A → Prop) `{!∀ x, Decision (P x)}
    (l : list A) :
  len (filter P l) + len (filter (λ x, ¬ P x) l) = len l.
Proof.
  induction l as [|x l IH]; [done|]. rewrite !filter_cons.
  destruct (decide (P x)) as [HP|HP].
  - rewrite decide_False by tauto. unfold len in *. cbn. lia.
  - rewrite decide_True by done. unfold len in *. cbn. lia.
Qed.

Section DictSum.
Import YtdAnalysis YtdAnalysisInv.

Lemma dict_sum_empty : dict_sum ∅ = 0.
Proof. unfold dict_sum. by rewrite map_fold_empty. Qed.

Lemma dict_sum_insert (m : gmap Z Z) (k v : Z) :
  m !! k = None → dict_sum (<[k := v]> m) = dict_sum m + v.
Proof.
  intros Hk. unfold dict_sum.
  rewrite map_fold_insert_L; [done| |done]. intros. lia.
Qed.

(** The sum of the day counts of some rows is the number of the rows that
    have a day. *)
Lemma dict_sum_day_counts (daily : gmap Z Z) :
  ∀ rows : list ChunkRow,
    (∀ d, daily !! d = day_count rows d) →
    (∀ c, c ∈ rows → is_Some (day_of_year c)) →
    dict_sum daily = len rows.
Proof.
  induction daily as [|k v m Hk IH] using map_ind; intros rows Hcount Hday.
  - rewrite dict_sum_empty. symmetry. apply len_zero.
    destruct rows as [|c rows]; [done|].
    destruct (Hday c) as [d Hd]; [by left|].
    specialize (Hcount d). rewrite lookup_empty in Hcount.
    unfold day_count in Hcount. cbv zeta in Hcount.
    case_decide as Hz; [|done]. apply len_zero in Hz.
    assert (Hin : c ∈ filter (λ c0, day_of_year c0 = Some d) (c :: rows))
      by (apply list_elem_of_filter; split; [done | by left]).
    rewrite Hz in Hin. by apply elem_of_nil in Hin.
  - rewrite dict_sum_insert by done.
    set (rest := filter (λ c, ¬ day_of_year c = Some k) rows).
    rewrite (IH rest).
    + pose proof (Hcount k) as Hv. rewrite lookup_insert_eq in Hv.
      unfold day_count in Hv. cbv zeta in Hv.
      case_decide as Hz; [done|]. injection Hv as ->.
      rewrite Z.add_comm. apply len_filter_split.
    + intros d. destruct (decide (d = k)) as [->|Hne].
      * rewrite Hk. unfold day_count. cbv zeta. rewrite decide_True; [done|].
        apply len_zero. apply filter_none.
        intros c [Hnk _]%list_elem_of_filter. done.
      * specialize (Hcount d). rewrite lookup_insert_ne in Hcount by done.
        rewrite Hcount. unfold day_count. cbv zeta.
        unfold rest. rewrite list_filter_filter.
        assert (Hsame : filter (λ c, day_of_year c = Some d
                                     ∧ ¬ day_of_year c = Some k) rows
                        = filter (λ c, day_of_year c = Some d) rows).
        { apply filter_ext_in. intros c _. split; [by intros [? _]|].
          intros Hd. split; [done|]. rewrite Hd. congruence. }
        by rewrite Hsame.
    + intros c [_ Hc]%list_elem_of_filter. by apply Hday.
Qed.

End DictSum.

Section DailyPatterns.
Import YtdAnalysis YtdAnalysisInv.

Lemma day_count_default (rows : list ChunkRow) (d : Z) :
  default 0 (day_count rows d)
  = len (filter (λ c, day_of_year c = Some d) rows).
Proof. unfold day_count. cbv zeta. by case_decide. Qed.

(** The loop over the days of one year of a chunk. *)
Lemma day_loop_ok (current_doy y : Z) (chunk rows : list ChunkRow)
    (daily : gmap Z Z) :
  (∀ d, daily !! d = day_count rows d) →
  ∃ daily',
    for_each (day_step current_doy) daily
      ((λ g, (g.1, len g.2))
         <$> groupby day_of_year (filter (λ c, year c = Some y) chunk))
    = Return daily'
    ∧ ∀ d, daily' !! d = day_count (rows ++ ytd_rows current_doy y chunk) d.
Proof.
  intros Hdaily.
  set (year_data := filter (λ c, year c = Some y) chunk).
  set (n := λ d, len (filter (λ c, day_of_year c = Some d) year_data)).
  unfold groupby. rewrite <- list_fmap_compose, for_each_fmap.
  rewrite (for_each_filter _ (λ d, d ≤ current_doy)).
  2:{ intros m d Hd. cbn. by rewrite bool_decide_eq_false_2. }
  rewrite (for_each_ext_in _
             (λ m d, Return (<[d := default 0 (m !! d) + n d]> m))).
  2:{ intros m d [Hd _]%list_elem_of_filter. cbn.
      rewrite bool_decide_eq_true_2 by done. unfold getitem.
      case_bool_decide as Hnew.
      - rewrite lookup_insert_eq. cbn. rewrite Hnew. cbn.
        by rewrite insert_insert_eq.
      - destruct (m !! d) as [v|] eqn:Hv; [|done]. by cbn. }
  destruct (for_each_bump
              (λ m d, Return (<[d := default 0 (m !! d) + n d]> m))
              0 (λ v d, v + n d)
              (filter (λ d, d ≤ current_doy)
                 (unique (omap day_of_year year_data)))
              (λ m d, eq_refl)
              (NoDup_filter _ _ (NoDup_unique _)) daily)
    as (daily' & Hrun & Hlook).
  exists daily'. split; [exact Hrun|]. intros d.
  rewrite Hlook, Hdaily, day_count_default. clear Hlook Hrun.
  assert (Hnew : len (filter (λ c, day_of_year c = Some d)
                        (ytd_rows current_doy y chunk))
                 = if decide (d ≤ current_doy) then n d else 0).
  { unfold ytd_rows, n, year_data. rewrite !list_filter_filter.
    case_decide as Hd.
    - apply (f_equal len). apply filter_ext_in. intros c _.
      split; [tauto|]. intros [Hc Hy]. split; [done|]. split; [done|].
      rewrite Hc. cbn. by apply Is_true_true, Z.leb_le.
    - apply len_zero, filter_none. intros c _ [Hc [_ Hle]].
      rewrite Hc in Hle. cbn in Hle. apply Is_true_true, Z.leb_le in Hle. lia. }
  unfold day_count at 2. cbv zeta. rewrite filter_app, len_app, Hnew.
  pose proof (len_nonneg (filter (λ c, day_of_year c = Some d) rows)).
  pose proof (len_nonneg (filter (λ c, day_of_year c = Some d) year_data))
    as Hn. fold (n d) in Hn.
  destruct (decide (d ∈ filter (λ d, d ≤ current_doy)
                          (unique (omap day_of_year year_data)))) as [Hin|Hin].
  - apply list_elem_of_filter in Hin as [Hd Hin].
    apply elem_of_unique, elem_of_omap_filter in Hin.
    rewrite <- len_zero in Hin. fold (n d) in Hin.
    rewrite (decide_True (P := d ≤ current_doy)) by done.
    by rewrite decide_False by lia.
  - rewrite list_elem_of_filter, elem_of_unique, elem_of_omap_filter in Hin.
    assert (Hz : (if decide (d ≤ current_doy) then n d else 0) = 0).
    { case_decide as Hd; [|done].
      destruct (decide (n d = 0)) as [|Hnz]; [done|].
      exfalso. apply Hin. split; [done|]. intros Hnil. apply Hnz.
      unfold n. by rewrite Hnil. }
    rewrite Hz, Z.add_0_r. unfold day_count. cbv zeta. done.
Qed.

(** One iteration of the loop over the recent years of a chunk. *)
Lemma year_step_ok (current_doy : Z) (chunk : list ChunkRow)
    (dp : gmap Z (gmap Z Z)) (E : Z → option (list ChunkRow)) (y : Z) :
  patterns_ok dp E →
  ∃ dp',
    year_step current_doy chunk dp y = Return dp'
    ∧ patterns_ok dp'
        (λ y', if decide (y' = y)
               then Some (default [] (E y) ++ ytd_rows current_doy y chunk)
               else E y').
Proof.
  intros Hok. unfold year_step. cbv zeta.
  set (daily := default ∅ (dp !! y)).
  assert (Hdaily : ∀ d, daily !! d = day_count (default [] (E y)) d).
  { intros d. specialize (Hok y). unfold daily, daily_ok in *.
    destruct (dp !! y) as [m|], (E y) as [rows|]; cbn; done. }
  destruct (day_loop_ok current_doy y chunk _ daily Hdaily)
    as (daily' & Hrun & Hlook).
  exists (<[y := daily']> dp). split.
  - unfold getitem. case_bool_decide as Hnew.
    + rewrite lookup_insert_eq. cbn.
      unfold daily in Hrun. rewrite Hnew in Hrun. cbn in Hrun.
      rewrite Hrun. cbn. by rewrite insert_insert_eq.
    + destruct (dp !! y) as [m|] eqn:Hm; [|done]. cbn.
      unfold daily in Hrun. cbn in Hrun. by rewrite Hrun.
  - intros y'. destruct (decide (y' = y)) as [->|Hne].
    + by rewrite lookup_insert_eq.
    + rewrite lookup_insert_ne by done. apply Hok.
Qed.

Lemma year_loop_ok (current_doy : Z) (chunk : list ChunkRow)
    (years : list Z) :
  NoDup years →
  ∀ (dp : gmap Z (gmap Z Z)) (E : Z → option (list ChunkRow)),
    patterns_ok dp E →
    ∃ dp',
      for_each (year_step current_doy chunk) dp years = Return dp'
      ∧ patterns_ok dp'
          (λ y, if decide (y ∈ years)
                then Some (default [] (E y) ++ ytd_rows current_doy y chunk)
                else E y).
Proof.
  induction years as [|y years IH]; intros Hnd dp E Hok.
  - exists dp. split; [done|]. intros y.
    by rewrite decide_False by apply not_elem_of_nil.
  - apply NoDup_cons in Hnd as [Hy Hnd].
    destruct (year_step_ok current_doy chunk dp E y Hok) as (dp1 & Hrun1 & Hok1).
    destruct (IH Hnd dp1 _ Hok1) as (dp2 & Hrun2 & Hok2).
    exists dp2. split; [cbn; rewrite Hrun1; exact Hrun2|].
    intros y'. specialize (Hok2 y'). cbn beta in Hok2.
    destruct (decide (y' = y)) as [->|Hne].
    + rewrite decide_False in Hok2 by done.
      by rewrite decide_True by (by left).
    + destruct (decide (y' ∈ years)) as [Hin|Hin].
      * by rewrite decide_True by (by right).
      * rewrite decide_False; [done|].
        intros [?|?]%elem_of_cons; done.
Qed.

Lemma NoDup_recent_years (n : Z) (chunk : list ChunkRow) :
  NoDup (recent_years n chunk).
Proof.
  unfold recent_years, slice_last.
  assert (Hnd : NoDup (sorted (unique (omap year chunk)))).
  { unfold sorted. rewrite merge_sort_Permutation. apply NoDup_unique. }
  destruct (0 <? n); (eapply sublist_NoDup; [exact Hnd | apply sublist_drop]).
Qed.

Lemma counted_snoc (n current_doy y : Z) (seen : list (list ChunkRow))
    (chunk : list ChunkRow) :
  counted n current_doy y (seen ++ [chunk])
  = if decide (y ∈ recent_years n chunk)
    then Some (default [] (counted n current_doy y seen)
               ++ ytd_rows current_doy y chunk)
    else counted n current_doy y seen.
Proof.
  unfold counted, recent_chunks. rewrite filter_app.
  rewrite filter_cons, filter_nil.
  set (F := filter (λ c, y ∈ recent_years n c) seen).
  destruct (decide (y ∈ recent_years n chunk)) as [Hin|Hin].
  - clearbody F. destruct F as [|c0 rest].
    + cbn. by rewrite app_nil_r.
    + cbn [app from_option id]. f_equal.
      change (c0 :: rest ++ [chunk]) with ((c0 :: rest) ++ [chunk]).
      rewrite concat_app. cbn [concat]. rewrite app_nil_r.
      unfold ytd_rows. by rewrite filter_app.
  - by rewrite app_nil_r.
Qed.

Lemma patterns_ok_ext (dp : gmap Z (gmap Z Z))
    (E E' : Z → option (list ChunkRow)) :
  (∀ y, E y = E' y) → patterns_ok dp E → patterns_ok dp E'.
Proof. intros Heq Hok y. rewrite <- Heq. apply Hok. Qed.

Lemma chunk_loop_patterns_ok (n current_doy : Z) (chunks : list (list Row)) :
  ∀ (dp : gmap Z (gmap Z Z)) (seen : list (list ChunkRow)),
    patterns_ok dp (λ y, counted n current_doy y seen) →
    ∃ dp',
      for_each (chunk_step n current_doy) dp chunks = Return dp'
      ∧ patterns_ok dp'
          (λ y, counted n current_doy y
                  (seen ++ convert_chunks chunks)).
Proof.
  induction chunks as [|chunk chunks IH]; intros dp seen Hok.
  - exists dp. split; [done|]. unfold convert_chunks. cbn.
    by rewrite app_nil_r.
  - destruct (year_loop_ok current_doy (convert_row <$> chunk)
                (recent_years n (convert_row <$> chunk))
                (NoDup_recent_years _ _) dp _ Hok) as (dp1 & Hrun1 & Hok1).
    destruct (IH dp1 (seen ++ [convert_row <$> chunk])) as (dp2 & Hrun2 & Hok2).
    { eapply patterns_ok_ext; [|exact Hok1].
      intros y. cbn beta. by rewrite counted_snoc. }
    exists dp2. split.
    + assert (Hstep : chunk_step n current_doy dp chunk = Return dp1)
        by exact Hrun1.
      cbn [for_each]. rewrite Hstep. exact Hrun2.
    + eapply patterns_ok_ext; [|exact Hok2]. intros y. cbn beta.
      unfold convert_chunks. cbn [fmap list_fmap].
      by rewrite <- app_assoc.
Qed.

(** The chunk loop raises no exception, and [daily_patterns] accounts, for
    every year, for the rows that are counted for it. *)
Lemma daily_patterns_ok (n current_doy : Z) (chunks : list (list Row)) :
  ∃ dp,
    daily_patterns n current_doy chunks = Return dp
    ∧ patterns_ok dp
        (λ y, counted n current_doy y (convert_chunks chunks)).
Proof.
  apply (chunk_loop_patterns_ok n current_doy chunks ∅ []).
  intros y. by rewrite lookup_empty.
Qed.

End DailyPatterns.

Lemma mapM_py_outcome {A B} (f : A → py B) (e : PyExn) (l : list A) :
  (∀ x, x ∈ l → (∃ v, f x = Return v) ∨ f x = Raise e) →
  (mapM f l = Raise e ∧ ∃ x, x ∈ l ∧ f x = Raise e)
  ∨ (∃ vs, mapM f l = Return vs ∧ length vs = length l
           ∧ ∀ x, x ∈ l → ∃ v, f x = Return v).
Proof.
  induction l as [|x l IH]; intros Hall.
  - right. exists []. split; [done|]. split; [done|].
    intros x Hx. by apply elem_of_nil in Hx.
  - destruct (Hall x) as [[v Hv]|Hx]; [by left| |].
    + destruct IH as [[Hraise (x' & Hx' & Hfx')]|(vs & Hvs & Hlen & Hret)].
      * intros y Hy. apply Hall. by right.
      * left. split.
        -- cbn. rewrite Hv. cbn. by rewrite Hraise.
        -- exists x'. split; [by right | done].
      * right. exists (v :: vs). split; [|split].
        -- cbn. rewrite Hv. cbn. by rewrite Hvs.
        -- cbn. by rewrite Hlen.
        -- intros y [->|Hy]%elem_of_cons; [by exists v | by apply Hret].
    + left. split.
      * cbn. by rewrite Hx.
      * exists x. split; [by left | done].
Qed.

Section YtdReport.
Import YtdAnalysis YtdAnalysisInv.

Lemma counted_is_Some (n current_doy y : Z) (chunks : list (list Row)) :
  is_Some (counted n current_doy y (convert_chunks chunks))
  ↔ ∃ chunk, chunk ∈ chunks ∧ y ∈ recent_years n (convert_row <$> chunk).
Proof.
  unfold counted, recent_chunks.
  destruct (filter _ (convert_chunks chunks)) as [|c0 rest] eqn:Hf.
  - split; [by intros [? [=]]|]. intros (chunk & Hchunk & Hy).
    assert (Hin : (convert_row <$> chunk)
                  ∈ filter (λ c, y ∈ recent_years n c) (convert_chunks chunks)).
    { apply list_elem_of_filter. split; [done|].
      unfold convert_chunks. apply list_elem_of_fmap. by exists chunk. }
    rewrite Hf in Hin. by apply elem_of_nil in Hin.
  - split; [intros _ | by eexists].
    assert (Hin : c0 ∈ filter (λ c, y ∈ recent_years n c)
                         (convert_chunks chunks)) by (rewrite Hf; left).
    apply list_elem_of_filter in Hin as [Hy Hin].
    apply list_elem_of_fmap in Hin as (chunk & -> & Hchunk). by exists chunk.
Qed.

Lemma counted_rows (n current_doy y : Z) (chunks : list (list ChunkRow))
    (rows : list ChunkRow) :
  counted n current_doy y chunks = Some rows →
  rows = ytd_rows current_doy y (concat (recent_chunks n y chunks)).
Proof.
  unfold counted. destruct (recent_chunks n y chunks); [done|].
  by intros [= <-].
Qed.

(** X21. The chunk loop of the pattern analysis raises no exception.  A
    year gets a dictionary exactly when it is one of the recent years of
    some chunk (not of the whole file), and the dictionary of a year counts,
    per day up to the current day, the records of the year in the chunks in
    which it is a recent year; days without such a record have no entry. *)
Theorem daily_patterns_entries (years_to_analyze current_doy : Z)
    (chunks : list (list Row)) :
  ∃ dp,
    daily_patterns years_to_analyze current_doy chunks = Return dp
    ∧ (∀ y, is_Some (dp !! y)
            ↔ ∃ chunk, chunk ∈ chunks
                ∧ y ∈ recent_years years_to_analyze (convert_row <$> chunk))
    ∧ ∀ y daily d c, dp !! y = Some daily →
        (daily !! d = Some c
         ↔ 0 < c ∧ d ≤ current_doy
           ∧ c = len (filter (λ r, year r = Some y ∧ day_of_year r = Some d)
                        (concat (recent_chunks years_to_analyze y
                                   (convert_chunks chunks))))).
Proof.
  destruct (daily_patterns_ok years_to_analyze current_doy chunks)
    as (dp & Hrun & Hok).
  exists dp. split; [exact Hrun|]. split.
  - intros y. rewrite <- (counted_is_Some years_to_analyze current_doy).
    specialize (Hok y). unfold daily_ok in Hok.
    destruct (dp !! y), (counted _ _ _ _); done.
  - intros y daily d c Hy. specialize (Hok y). rewrite Hy in Hok.
    unfold daily_ok in Hok.
    destruct (counted _ _ _ _) as [rows|] eqn:Hrows; [|done].
    apply counted_rows in Hrows. rewrite Hok. subst rows.
    set (recent := concat (recent_chunks years_to_analyze y
                             (convert_chunks chunks))).
    unfold day_count. cbv zeta. unfold ytd_rows. rewrite list_filter_filter.
    pose proof (len_nonneg
      (filter (λ r, year r = Some y ∧ day_of_year r = Some d) recent)) as Hnn.
    destruct (decide (d ≤ current_doy)) as [Hd|Hd].
    + assert (Hsame :
        filter (λ c0, day_of_year c0 = Some d
                      ∧ year c0 = Some y
                        ∧ le_na (day_of_year c0) (Some current_doy)) recent
        = filter (λ r, year r = Some y ∧ day_of_year r = Some d) recent).
      { apply filter_ext_in. intros r _. split; [tauto|].
        intros [Hyr Hdr]. split; [done|]. split; [done|].
        rewrite Hdr. cbn. by apply Is_true_true, Z.leb_le. }
      rewrite Hsame. case_decide as Hz.
      * split; [discriminate | lia].
      * split; [intros [= <-]; lia | intros (_ & _ & ->); done].
    + assert (Hnone :
        filter (λ c0, day_of_year c0 = Some d
                      ∧ year c0 = Some y
                        ∧ le_na (day_of_year c0) (Some current_doy)) recent
        = []).
      { apply filter_none. intros r _ (Hdr & _ & Hle).
        rewrite Hdr in Hle. cbn in Hle.
        apply Is_true_true, Z.leb_le in Hle. lia. }
      rewrite Hnone. cbn. split; [discriminate | lia].
Qed.

Lemma ytd_totals_counted (n current_doy : Z) (chunks : list (list Row))
    (dp : gmap Z (gmap Z Z)) :
  patterns_ok dp (λ y, counted n current_doy y (convert_chunks chunks)) →
  ∀ y, ytd_totals dp !! y
       = len <$> counted n current_doy y (convert_chunks chunks).
Proof.
  intros Hok y. unfold ytd_totals. rewrite lookup_fmap.
  specialize (Hok y). unfold daily_ok in Hok.
  destruct (dp !! y) as [daily|],
           (counted _ _ _ _) as [rows|] eqn:Hrows; try done.
  cbn. f_equal. apply dict_sum_day_counts; [done|].
  apply counted_rows in Hrows. subst rows.
  intros c [[_ Hle] _]%list_elem_of_filter.
  destruct (day_of_year c); [by eexists | done].
Qed.

(** X22. The total of a year in the report is the number of the records
    counted for it.  The growth lines raise [ZeroDivisionError] exactly
    when a year other than the newest has a dictionary but no counted
    record (a total of 0); they raise no other exception, and otherwise
    there is one line per pair of consecutive years. *)
Theorem ytd_growth_report (years_to_analyze current_doy : Z)
    (chunks : list (list Row)) :
  ∃ dp,
    daily_patterns years_to_analyze current_doy chunks = Return dp
    ∧ (∀ y, ytd_totals dp !! y
            = len <$> counted years_to_analyze current_doy y
                        (convert_chunks chunks))
    ∧ (growth_rates (ytd_totals dp) = Raise ZeroDivisionError
       ↔ ∃ i y, sorted (elements (dom (ytd_totals dp))) !! i = Some y
                ∧ (S i < length (sorted (elements (dom (ytd_totals dp)))))%nat
                ∧ ytd_totals dp !! y = Some 0)
    ∧ (∀ e, growth_rates (ytd_totals dp) = Raise e → e = ZeroDivisionError)
    ∧ ∀ lines, growth_rates (ytd_totals dp) = Return lines →
        length lines = pred (length (sorted (elements (dom (ytd_totals dp))))).
Proof.
  destruct (daily_patterns_ok years_to_analyze current_doy chunks)
    as (dp & Hrun & Hok).
  exists dp. split; [exact Hrun|].
  split; [by apply ytd_totals_counted|].
  set (totals := ytd_totals dp). set (years := sorted (elements (dom totals))).
  assert (Hkey : ∀ i y, years !! i = Some y → is_Some (totals !! y)).
  { intros i y Hy. apply list_elem_of_lookup_2 in Hy.
    by apply elem_of_sorted, elem_of_elements, elem_of_dom in Hy. }
  assert (Hentry : ∀ i, i ∈ seq 1 (length years - 1) →
            ∃ prev curr p c,
              years !! (i - 1)%nat = Some prev ∧ years !! i = Some curr
              ∧ totals !! prev = Some p ∧ totals !! curr = Some c
              ∧ growth_entry totals years i
                = if decide (p = 0) then Raise ZeroDivisionError
                  else Return (prev, curr,
                               (inject_Z (c - p) / inject_Z p * 100)%Q)).
  { intros i Hi. apply elem_of_seq in Hi.
    destruct (lookup_lt_is_Some_2 years i) as [curr Hcurr]; [lia|].
    destruct (lookup_lt_is_Some_2 years (i - 1)) as [prev Hprev]; [lia|].
    destruct (Hkey _ _ Hcurr) as [c Hc]. destruct (Hkey _ _ Hprev) as [p Hp].
    exists prev, curr, p, c. repeat (split; [done|]).
    unfold growth_entry, getindex, getitem. rewrite Hcurr, Hprev. cbn.
    rewrite Hc, Hp. cbn. unfold py_truediv.
    destruct (decide (p = 0)) as [->|Hne]; [done|].
    by rewrite (proj2 (Z.eqb_neq _ _)). }
  destruct (mapM_py_outcome (growth_entry totals years) ZeroDivisionError
              (seq 1 (length years - 1)))
    as [[Hraise (i & Hi & Hfi)]|(lines & Hlines & Hlen & Hret)].
  { intros i Hi. destruct (Hentry i Hi) as (prev & curr & p & c & _ & _ & _ & _ & ->).
    case_decide; [by right | left; by eexists]. }
  - unfold growth_rates. fold totals years. cbv zeta. rewrite Hraise.
    split; [|split; [|done]].
    + split; [intros _ | done].
      destruct (Hentry i Hi) as (prev & curr & p & c & Hprev & _ & Hp & _ & Hgi).
      rewrite Hgi in Hfi. case_decide as Hz; [|done]. subst p.
      apply elem_of_seq in Hi. exists (i - 1)%nat, prev.
      split; [done|]. split; [lia | done].
    + by intros e [= <-].
  - unfold growth_rates. fold totals years. cbv zeta. rewrite Hlines.
    split; [|split; [done|]].
    + split; [done|]. intros (i & y & Hy & Hlt & Hzero). exfalso.
      destruct (Hret (S i)) as [v Hv]; [apply elem_of_seq; lia|].
      destruct (Hentry (S i)) as (prev & curr & p & c & Hprev & _ & Hp & _ & Hgi);
        [apply elem_of_seq; lia|].
      replace (S i - 1)%nat with i in Hprev by lia.
      rewrite Hy in Hprev. injection Hprev as <-.
      rewrite Hzero in Hp. injection Hp as <-.
      rewrite Hgi in Hv. done.
    + intros lines' [= <-]. rewrite Hlen, length_seq. lia.
Qed.

End YtdReport.

(** The recent years are taken chunk by chunk: with one year to analyse, a
    record of 2023 followed by a record of 2024 is counted when the two are
    read in two chunks, and is not when they are read in one. *)
Example daily_patterns_chunk_dependent :
  let a := mkRow 1 None "Y" (DateText (Timestamp 2023 1 5)) Blank Blank in
  let b := mkRow 2 None "Y" (DateText (Timestamp 2024 1 7)) Blank Blank in
  (dp ← YtdAnalysis.daily_patterns 1 100 [[a]; [b]];
   mret ((λ daily : gmap Z Z, daily !! 5) <$> dp !! 2023))
  = Return (Some (Some 1))
  ∧ (dp ← YtdAnalysis.daily_patterns 1 100 [[a; b]];
     mret ((λ daily : gmap Z Z, daily !! 5) <$> dp !! 2023))
    = Return None.
Proof. split; by vm_compute. Qed.

(** ** Rounding is monotone *)

Lemma round_half_even_floor (q : Q) :
  Qfloor q ≤ round_half_even q ≤ Qfloor q + 1.
Proof.
  unfold round_half_even. cbv zeta.
  destruct (q - inject_Z (Qfloor q) ?= 1 # 2)%Q; [|lia|lia].
  destruct (Z.even (Qfloor q)); lia.
Qed.

Lemma round_half_even_mono (x y : Q) :
  (x <= y)%Q → round_half_even x ≤ round_half_even y.
Proof.
  intros Hxy. pose proof (Qfloor_resp_le _ _ Hxy) as Hf.
  destruct (decide (Qfloor x = Qfloor y)) as [Heq|Hne].
  - unfold round_half_even. cbv zeta. rewrite <- Heq.
    assert (Hr : (x - inject_Z (Qfloor x) <= y - inject_Z (Qfloor x))%Q).
    { apply Qplus_le_l with (z := inject_Z (Qfloor x)). by ring_simplify. }
    destruct (x - inject_Z (Qfloor x) ?= 1 # 2)%Q eqn:Hcx.
    + apply Qeq_alt in Hcx. rewrite Hcx in Hr.
      destruct (y - inject_Z (Qfloor x) ?= 1 # 2)%Q eqn:Hcy.
      * done.
      * apply Qlt_alt in Hcy. by apply Qle_not_lt in Hr.
      * destruct (Z.even (Qfloor x)); lia.
    + destruct (y - inject_Z (Qfloor x) ?= 1 # 2)%Q; [|lia|lia].
      destruct (Z.even (Qfloor x)); lia.
    + apply Qgt_alt in Hcx.
      assert (Hcy : (y - inject_Z (Qfloor x) ?= 1 # 2)%Q = Gt).
      { apply Qgt_alt. eapply Qlt_le_trans; [exact Hcx | exact Hr]. }
      by rewrite Hcy.
  - pose proof (round_half_even_floor x). pose proof (round_half_even_floor y).
    lia.
Qed.

Lemma np_round_mono (decimals : nat) (x y : Q) :
  (x <= y)%Q → (np_round decimals x <= np_round decimals y)%Q.
Proof.
  intros Hxy. unfold np_round. cbv zeta.
  set (scale := 10 ^ Z.of_nat decimals).
  assert (Hscale : 0 < scale) by (apply Z.pow_pos_nonneg; lia).
  assert (Hs : (0 < inject_Z scale)%Q) by (unfold Qlt, inject_Z; cbn; lia).
  rewrite !Qred_correct.
  apply Qmult_le_compat_r; [|by apply Qlt_le_weak, Qinv_lt_0_compat].
  rewrite <- Zle_Qle. apply round_half_even_mono.
  apply Qmult_le_compat_r; [done | by apply Qlt_le_weak].
Qed.

Lemma Qpct_mono (a b t : Z) :
  a ≤ b → 0 < t →
  (inject_Z a / inject_Z t * 100 <= inject_Z b / inject_Z t * 100)%Q.
Proof.
  intros Hab Ht. destruct t as [|t|t]; try lia.
  unfold Qle, Qdiv, Qmult, Qinv, inject_Z. cbn. nia.
Qed.

(** ** The monthly cohorts of the mobile adoption application *)

Section Cohorts.
Import MonthlyCohorts.



End Cohorts.

(** ** The year-over-year tab of the iNET dashboard *)

Lemma sum_group_sizes `{EqDecision K} {V} (keyf : V → option K)
    (P : K → Prop) `{!∀ k, Decision (P k)} (rows : list V) :
  foldr Z.add 0
    (snd <$> filter (λ kc : K * Z, P kc.1)
               ((λ g, (g.1, len g.2)) <$> groupby keyf rows))
  = len (filter (key_holds keyf P) rows).
Proof.
  unfold groupby. rewrite <- list_fmap_compose.
  rewrite (filter_fmap_iff _ _ P) by done.
  rewrite <- list_fmap_compose.
  change (snd ∘ ((λ g : K * list V, (g.1, len g.2))
                 ∘ (λ k, (k, filter (λ r, keyf r = Some k) rows))))
    with (λ k, len (filter (λ r, keyf r = Some k) rows)).
  rewrite len_filter_key_among by apply NoDup_filter, NoDup_unique.
  apply (f_equal len). apply filter_ext_in. intros r Hr.
  unfold key_among, key_holds. destruct (keyf r) as [k|] eqn:Hk; [|done].
  rewrite list_elem_of_filter, elem_of_unique, list_elem_of_omap.
  split; [tauto|]. intros HP. split; [done|]. by exists r.
Qed.

Section YearOverYear.
Import InetTabs.

Lemma available_years_sorted (df : list InetEnhanced.Processed)
    (i j : nat) (x y : Z) :
  available_years df !! i = Some x → available_years df !! j = Some y →
  (i < j)%nat → x < y.
Proof.
  intros Hi Hj Hij. unfold available_years in *.
  assert (Hs : StronglySorted Z.le
                 (sorted (unique (omap InetEnhanced.AC_OPEN_YEAR df)))).
  { apply StronglySorted_merge_sort; [intros a b c; lia | intros a b; lia]. }
  assert (Hnd : NoDup (sorted (unique (omap InetEnhanced.AC_OPEN_YEAR df)))).
  { unfold sorted. rewrite merge_sort_Permutation. apply NoDup_unique. }
  pose proof (StronglySorted_lookup_lt Z.le _ Hs i j x y Hi Hj Hij).
  assert (x ≠ y); [|lia]. intros ->.
  pose proof (NoDup_lookup _ _ _ _ Hnd Hi Hj). lia.
Qed.

Lemma year_total_rows (current_date : Z) (raw : list Row) (y : Z) :
  let df := InetEnhanced.preprocess_data current_date raw in
  y ∈ drop (length (available_years df) - 2) (available_years df) →
  year_total (monthly_counts df) y
  = len (filter (λ p, InetEnhanced.AC_OPEN_YEAR p = Some y) df).
Proof.
  intros df Hy. unfold year_total, monthly_counts. cbv zeta.
  etrans; [exact (sum_group_sizes _ (λ k : Z * Z, k.1 = y) _)|].
  rewrite list_filter_filter. apply (f_equal len). apply filter_ext_in.
  intros p Hp. unfold df, InetEnhanced.preprocess_data in Hp.
  change (map ?f ?l) with (f <$> l) in Hp.
  apply list_elem_of_fmap in Hp as (r & -> & _).
  unfold key_holds.
  cbn [InetEnhanced.preprocess_row InetEnhanced.AC_OPEN_YEAR
       InetEnhanced.AC_OPEN_MONTH].
  destruct (to_datetime (AC_OPEN_DATE r)) as [ts|]; cbn.
  - split; [by intros [-> _] |]. intros [= <-]. split; [done|].
    by apply bool_decide_pack.
  - split; [by intros [[] _] | done].
Qed.

(** X24. On the table that [preprocess_data] returns, the year-over-year
    tab raises no exception; it shows nothing when fewer than two years
    occur, and otherwise compares the two newest years: each total is the
    number of records of all the data opened in that year (the sidebar
    filters play no part) and is positive, so the guard against a zero
    previous total never takes its branch and the growth rate is always the
    quotient. *)
Theorem yoy_totals (current_date : Z) (raw : list Row) :
  let df := InetEnhanced.preprocess_data current_date raw in
  let rows y := len (filter (λ p, InetEnhanced.AC_OPEN_YEAR p = Some y) df) in
  match yoy df with
  | Return None => (length (available_years df) < 2)%nat
  | Return (Some r) =>
      prev_year r < curr_year r
      ∧ (∀ y, y ∈ available_years df → y ≠ curr_year r → y ≤ prev_year r)
      ∧ prev_year_total r = rows (prev_year r)
      ∧ curr_year_total r = rows (curr_year r)
      ∧ 0 < prev_year_total r ∧ 0 < curr_year_total r
      ∧ growth_rate r
        = Some (inject_Z (curr_year_total r - prev_year_total r)
                / inject_Z (prev_year_total r) * 100)%Q
  | Raise _ => False
  end.
Proof.
  intros df rows. unfold yoy. cbv zeta.
  set (years := available_years df).
  case_bool_decide as Hlen; [|cbn; lia].
  destruct (lookup_lt_is_Some_2 years (length years - 2)) as [prev Hprev];
    [lia|].
  destruct (lookup_lt_is_Some_2 years (length years - 1)) as [curr Hcurr];
    [lia|].
  unfold getindex. rewrite Hprev, Hcurr. cbn [mbind py_bind mret py_ret].
  cbn [prev_year curr_year prev_year_total curr_year_total growth_rate].
  assert (Hlast : ∀ i y, years !! i = Some y → (length years - 2 ≤ i)%nat →
                         y ∈ drop (length years - 2) years).
  { intros i y Hy Hi. apply list_elem_of_lookup.
    exists (i - (length years - 2))%nat. rewrite lookup_drop.
    by replace (length years - 2 + (i - (length years - 2)))%nat with i
      by lia. }
  assert (Hrows : ∀ y, y ∈ years → 0 < rows y).
  { intros y Hy. unfold years, available_years in Hy.
    apply elem_of_sorted, elem_of_unique, elem_of_omap_filter in Hy.
    pose proof (len_nonneg
      (filter (λ p, InetEnhanced.AC_OPEN_YEAR p = Some y) df)).
    unfold rows. destruct (decide (len (filter
      (λ p, InetEnhanced.AC_OPEN_YEAR p = Some y) df) = 0)) as [Hz|]; [|lia].
    by apply len_zero in Hz. }
  rewrite !(year_total_rows current_date raw)
    by (eapply Hlast; [done | lia]).
  fold df. fold (rows prev). fold (rows curr).
  pose proof (Hrows prev (list_elem_of_lookup_2 _ _ _ Hprev)) as Hp.
  pose proof (Hrows curr (list_elem_of_lookup_2 _ _ _ Hcurr)) as Hc.
  split; [|split].
  - eapply (available_years_sorted df); [exact Hprev | exact Hcurr | lia].
  - intros y Hy Hne. apply list_elem_of_lookup in Hy as [i Hi].
    pose proof (lookup_lt_Some _ _ _ Hi) as Hilt.
    destruct (decide (i = length years - 1)%nat) as [->|Hi1];
      [rewrite Hcurr in Hi; congruence|].
    destruct (decide (i = length years - 2)%nat) as [->|Hi2];
      [rewrite Hprev in Hi; injection Hi as <-; lia|].
    enough (y < prev) by lia.
    eapply (available_years_sorted df); [exact Hi | exact Hprev | lia].
  - split; [done|]. split; [done|]. split; [done|]. split; [done|].
    rewrite (proj2 (Z.ltb_lt _ _) Hp). unfold np_truediv.
    by rewrite (proj2 (Z.eqb_neq _ _)) by lia.
Qed.

End YearOverYear.

(** ** The regional growth leaders of the year-to-date dashboard *)

Lemma foldl_max_spec (l : list Z) (x : Z) :
  foldl Z.max x l ∈ x :: l
  ∧ x ≤ foldl Z.max x l
  ∧ ∀ y, y ∈ l → y ≤ foldl Z.max x l.
Proof.
  revert x. induction l as [|a l IH]; intros x; cbn [foldl].
  - split; [left|]. split; [lia|]. intros y Hy. by apply elem_of_nil in Hy.
  - destruct (IH (Z.max x a)) as (Hin & Hle & Hall).
    split; [|split].
    + apply elem_of_cons in Hin as [Heq|Hin].
      * rewrite Heq. destruct (Z.max_spec x a) as [[_ ->]|[_ ->]];
          [right; left | left].
      * right. by right.
    + lia.
    + intros y [->|Hy]%elem_of_cons; [lia | by apply Hall].
Qed.

Lemma sorted_lookup_lt (l : list Z) (i j : nat) (x y : Z) :
  NoDup l → sorted l !! i = Some x → sorted l !! j = Some y →
  (i < j)%nat → x < y.
Proof.
  intros Hnd Hi Hj Hij.
  assert (Hs : StronglySorted Z.le (sorted l)).
  { apply StronglySorted_merge_sort; [intros a b c; lia | intros a b; lia]. }
  assert (Hnd' : NoDup (sorted l)).
  { unfold sorted. by rewrite merge_sort_Permutation. }
  pose proof (StronglySorted_lookup_lt Z.le _ Hs i j x y Hi Hj Hij).
  assert (x ≠ y); [|lia]. intros ->.
  pose proof (NoDup_lookup _ _ _ _ Hnd' Hi Hj). lia.
Qed.

Section RegionalGrowth.
Import YtdRegional.

Lemma regional_df_value (df : list YtdDashboard.Processed)
    (selected_years : list Z) (reference_doy : Z) (selected_region : string) :
  regional_df
    (YtdDashboard.ytd_data df selected_years reference_doy selected_region)
    selected_years
  = Return (concat ((λ y, regional_stats y
                     (YtdDashboard.year_data df y reference_doy
                                             selected_region))
                    <$> selected_years)).
Proof.
  unfold regional_df.
  erewrite mapM_py_Return; [done|].
  intros y Hy. unfold getitem. rewrite ytd_data_lookup.
  by rewrite decide_True.
Qed.

Lemma year_block (f : Z → list YtdDashboard.Processed) (years : list Z)
    (y : Z) :
  NoDup years → y ∈ years →
  filter (λ r, Year r = y) (concat ((λ y', regional_stats y' (f y')) <$> years))
  = regional_stats y (f y).
Proof.
  assert (Hblock : ∀ y' r, r ∈ regional_stats y' (f y') → Year r = y').
  { intros y' r Hr. unfold regional_stats in Hr.
    by apply list_elem_of_fmap in Hr as (g & -> & _). }
  assert (Hother : ∀ l, y ∉ l →
    filter (λ r, Year r = y)
           (concat ((λ y', regional_stats y' (f y')) <$> l)) = []).
  { induction l as [|y' l IHl]; intros Hl; [done|].
    apply not_elem_of_cons in Hl as [Hne Hl].
    cbn [fmap list_fmap concat]. rewrite filter_app, IHl by done.
    rewrite filter_none; [done|]. intros r Hr Hyr.
    apply Hblock in Hr. congruence. }
  induction years as [|y' years IH]; intros Hnd Hy.
  - by apply elem_of_nil in Hy.
  - apply NoDup_cons in Hnd as [Hnot Hnd].
    cbn [fmap list_fmap concat]. rewrite filter_app.
    apply elem_of_cons in Hy as [->|Hy].
    + rewrite Hother by done. rewrite app_nil_r.
      rewrite (filter_ext_in _ (λ _, True)) by (intros r Hr; split;
        [done | intros _; by apply Hblock]).
      clear. induction (regional_stats y' (f y')) as [|r l IHl]; [done|].
      by rewrite filter_cons, decide_True, IHl.
    + rewrite IH by done.
      rewrite filter_none; [done|]. intros r Hr Hyr.
      apply Hblock in Hr. congruence.
Qed.

Lemma year_regional_lookup (y : Z) (rows : list YtdDashboard.Processed)
    (g : string) :
  let n := len (filter (λ p, YtdDashboard.region p = Some g) rows) in
  (list_to_map ((λ r, (REGION_DESC r, CUSTOMER_NO r))
                  <$> regional_stats y rows) : gmap string Z) !! g
  = if decide (0 < n) then Some n else None.
Proof.
  intros n. unfold regional_stats. rewrite <- list_fmap_compose.
  set (tbl := (_ <$> groupby YtdDashboard.region rows)).
  assert (Hkeys : tbl.*1
                  = unique (omap YtdDashboard.region rows)).
  { unfold tbl. rewrite <- list_fmap_compose.
    rewrite <- (groupby_keys YtdDashboard.region rows). done. }
  assert (Hn : 0 < n ↔ g ∈ unique (omap YtdDashboard.region rows)).
  { rewrite elem_of_unique, elem_of_omap_filter.
    pose proof (len_nonneg
      (filter (λ p, YtdDashboard.region p = Some g) rows)) as Hnn.
    fold n in Hnn. split.
    - intros Hpos Hnil. unfold n in Hpos. rewrite Hnil in Hpos.
      change (0 < 0) in Hpos. lia.
    - intros Hne. destruct (decide (n = 0)) as [Hz|]; [|lia].
      by apply len_zero in Hz. }
  destruct (decide (0 < n)) as [Hpos|Hpos].
  - apply elem_of_list_to_map; [rewrite Hkeys; apply NoDup_unique|].
    unfold tbl. apply list_elem_of_fmap.
    exists (g, filter (λ p, YtdDashboard.region p = Some g) rows).
    split; [done|]. apply elem_of_groupby. split; [done|].
    intros Hnil. unfold n in Hpos. rewrite Hnil in Hpos.
    change (0 < 0) in Hpos. lia.
  - apply not_elem_of_list_to_map. rewrite Hkeys. by rewrite <- Hn.
Qed.



End RegionalGrowth.
